(** * a11y-feedback: the announcement coordination core

    A shallow embedding of the core of the a11y-feedback library as it is
    bundled in [docs/a11y-feedback.umd.js] (constants from
    [packages/core/src/constants.ts]): the semantic policy table, the
    live-region manager, the deduplication and replacement engine, the
    announcer with its debounce timers, the focus mediator, the visual
    layer's dismissal logic, the event bus and the notify pipeline.

    JavaScript's module-level mutable state is threaded explicitly as a
    [World]; [Date.now()] is the world's clock; [setTimeout] callbacks are
    defunctionalised into [Task]s kept in a timer table and executed one at a
    time, each as one run-to-completion turn of the event loop. *)

From Stdlib Require Import ZArith String Ascii List Bool Lia.
From stdpp Require Import base option list gmap strings fin_maps.
Import ListNotations.

Local Open Scope string_scope.
Local Open Scope list_scope.
Local Open Scope Z_scope.

(** ** Types ([types.ts]) *)

Inductive FeedbackType := success | info | loading | warning | error.
Inductive AriaRole := status | alert.
Inductive Politeness := polite | assertive.
Inductive Priority := low | high.

#[global] Instance FeedbackType_eq_dec : EqDecision FeedbackType.
Proof. solve_decision. Defined.
#[global] Instance AriaRole_eq_dec : EqDecision AriaRole.
Proof. solve_decision. Defined.
#[global] Instance Politeness_eq_dec : EqDecision Politeness.
Proof. solve_decision. Defined.
#[global] Instance Priority_eq_dec : EqDecision Priority.
Proof. solve_decision. Defined.

(** A JavaScript number used as a duration in milliseconds. *)
Inductive jsnum := Finite (ms : Z) | Infinity | NegInfinity | NaN.

Record FeedbackSemantics := {
  sem_role : AriaRole;
  sem_ariaLive : Politeness;
  sem_priority : Priority;
  sem_canMoveFocus : bool;
  sem_autoDismiss : bool
}.

(** [FeedbackOptions]: every field is optional ([None] is [undefined]). *)
Record FeedbackOptions := {
  opt_id : option string;
  opt_focus : option string;
  opt_explainFocus : option bool;
  opt_force : option bool;
  opt_timeout : option jsnum;
  opt_className : option string
}.

Definition noOptions : FeedbackOptions :=
  {| opt_id := None; opt_focus := None; opt_explainFocus := None;
     opt_force := None; opt_timeout := None; opt_className := None |}.

Record FeedbackEvent := {
  ev_id : string;
  ev_message : string;
  ev_type : FeedbackType;
  ev_role : AriaRole;
  ev_ariaLive : Politeness;
  ev_priority : Priority;
  ev_options : FeedbackOptions;
  ev_timestamp : Z;
  ev_replaced : bool;
  ev_deduped : bool
}.

(** The spreads [{...e, deduped: true}], [{...e, replaced: n}] and
    [{...o, message: c}] of [processFeedback]. *)
Definition with_deduped (e : FeedbackEvent) (d : bool) : FeedbackEvent :=
  {| ev_id := ev_id e; ev_message := ev_message e; ev_type := ev_type e;
     ev_role := ev_role e; ev_ariaLive := ev_ariaLive e;
     ev_priority := ev_priority e; ev_options := ev_options e;
     ev_timestamp := ev_timestamp e; ev_replaced := ev_replaced e;
     ev_deduped := d |}.

Definition with_replaced (e : FeedbackEvent) (r : bool) : FeedbackEvent :=
  {| ev_id := ev_id e; ev_message := ev_message e; ev_type := ev_type e;
     ev_role := ev_role e; ev_ariaLive := ev_ariaLive e;
     ev_priority := ev_priority e; ev_options := ev_options e;
     ev_timestamp := ev_timestamp e; ev_replaced := r;
     ev_deduped := ev_deduped e |}.

Definition with_message (e : FeedbackEvent) (m : string) : FeedbackEvent :=
  {| ev_id := ev_id e; ev_message := m; ev_type := ev_type e;
     ev_role := ev_role e; ev_ariaLive := ev_ariaLive e;
     ev_priority := ev_priority e; ev_options := ev_options e;
     ev_timestamp := ev_timestamp e; ev_replaced := ev_replaced e;
     ev_deduped := ev_deduped e |}.

(** The string a [FeedbackType] is in JavaScript. *)
Definition typeName (t : FeedbackType) : string :=
  match t with
  | success => "success"
  | info => "info"
  | loading => "loading"
  | warning => "warning"
  | error => "error"
  end.

Definition politenessName (p : Politeness) : string :=
  match p with polite => "polite" | assertive => "assertive" end.

Definition roleName (r : AriaRole) : string :=
  match r with status => "status" | alert => "alert" end.

(** ** Constants ([constants.ts]) *)

Definition FEEDBACK_SEMANTICS (t : FeedbackType) : FeedbackSemantics :=
  match t with
  | success => {| sem_role := status; sem_ariaLive := polite; sem_priority := low;
                  sem_canMoveFocus := false; sem_autoDismiss := true |}
  | info => {| sem_role := status; sem_ariaLive := polite; sem_priority := low;
               sem_canMoveFocus := false; sem_autoDismiss := true |}
  | loading => {| sem_role := status; sem_ariaLive := polite; sem_priority := low;
                  sem_canMoveFocus := false; sem_autoDismiss := false |}
  | warning => {| sem_role := alert; sem_ariaLive := assertive; sem_priority := high;
                  sem_canMoveFocus := true; sem_autoDismiss := true |}
  | error => {| sem_role := alert; sem_ariaLive := assertive; sem_priority := high;
                sem_canMoveFocus := true; sem_autoDismiss := false |}
  end.

(** [DEFAULT_TIMEOUTS[type]]; the table has an entry for every type, so the
    lookup never yields [undefined]. *)
Definition DEFAULT_TIMEOUTS (t : FeedbackType) : option jsnum :=
  match t with
  | success => Some (Finite 5000)
  | info => Some (Finite 5000)
  | loading => Some (Finite 0)
  | warning => Some (Finite 8000)
  | error => Some (Finite 0)
  end.

Definition ANNOUNCEMENT_DEBOUNCE_MS : Z := 100.
Definition REGION_CLEAR_DELAY_MS : Z := 50.

(** The four invisible characters, each as the UTF-8 bytes of one code
    point: U+200B, U+200C, U+200D, U+FEFF. *)
Definition ZERO_WIDTH_CHARS : list string :=
  [ String "226" (String "128" (String "139" EmptyString));
    String "226" (String "128" (String "140" EmptyString));
    String "226" (String "128" (String "141" EmptyString));
    String "239" (String "187" (String "191" EmptyString)) ].

(** [DEDUPE_WINDOW_MS] ([oe] in the bundle). *)
Definition DEDUPE_WINDOW_MS : Z := 500.

(** [MAX_LOG_ENTRIES] ([ot] in the bundle). *)
Definition MAX_LOG_ENTRIES : nat := 100.

(** The built-in strings ([i18n.ts]). A locale's table has all three; the
    [translations] of the configuration may give any of them. *)
Inductive TranslationKey := dismissLabel | notificationsLabel | focusMovedTo.

Record Translations := {
  tr_dismiss : string;
  tr_notificationsLabel : string;
  tr_focusMovedTo : string
}.

Record FeedbackTranslations := {
  ft_dismiss : option string;
  ft_notificationsLabel : option string;
  ft_focusMovedTo : option string
}.

(** [locale] and [translations] are optional and absent from the default
    configuration. *)
Record FeedbackConfig := {
  cfg_visual : bool;
  cfg_defaultTimeout : jsnum;
  cfg_maxVisualItems : Z;
  cfg_debug : bool;
  cfg_regionPrefix : string;
  cfg_locale : option string;
  cfg_translations : option FeedbackTranslations
}.

Definition DEFAULT_CONFIG : FeedbackConfig :=
  {| cfg_visual := false; cfg_defaultTimeout := Finite 5000;
     cfg_maxVisualItems := 5; cfg_debug := false;
     cfg_regionPrefix := "a11y-feedback";
     cfg_locale := None; cfg_translations := None |}.

(** [defaultTranslations] ([Y]) and the locale table ([B]) as the module
    is loaded; the texts are UTF-8. *)
Definition DEFAULT_TRANSLATIONS : Translations :=
  {| tr_dismiss := "Dismiss"; tr_notificationsLabel := "Notifications";
     tr_focusMovedTo := "Focus moved to {label}." |}.

Definition BUILTIN_LOCALES : list (string * Translations) :=
  [ ("en", DEFAULT_TRANSLATIONS);
    ("es", {| tr_dismiss := "Cerrar"; tr_notificationsLabel := "Notificaciones";
              tr_focusMovedTo := "Foco movido a {label}." |});
    ("fr", {| tr_dismiss := "Fermer"; tr_notificationsLabel := "Notifications";
              tr_focusMovedTo := "Focus déplacé vers {label}." |});
    ("de", {| tr_dismiss := "Schließen"; tr_notificationsLabel := "Benachrichtigungen";
              tr_focusMovedTo := "Fokus verschoben zu {label}." |});
    ("it", {| tr_dismiss := "Chiudi"; tr_notificationsLabel := "Notifiche";
              tr_focusMovedTo := "Focus spostato su {label}." |});
    ("pt", {| tr_dismiss := "Fechar"; tr_notificationsLabel := "Notificações";
              tr_focusMovedTo := "Foco movido para {label}." |});
    ("ja", {| tr_dismiss := "閉じる"; tr_notificationsLabel := "通知";
              tr_focusMovedTo := "フォーカスが{label}に移動しました。" |});
    ("zh", {| tr_dismiss := "关闭"; tr_notificationsLabel := "通知";
              tr_focusMovedTo := "焦点已移至{label}。" |});
    ("ko", {| tr_dismiss := "닫기"; tr_notificationsLabel := "알림";
              tr_focusMovedTo := "포커스가 {label}(으)로 이동됨." |});
    ("ar", {| tr_dismiss := "إغلاق"; tr_notificationsLabel := "الإشعارات";
              tr_focusMovedTo := "تم نقل التركيز إلى {label}." |});
    ("he", {| tr_dismiss := "סגור"; tr_notificationsLabel := "התראות";
              tr_focusMovedTo := "המיקוד הועבר אל {label}." |}) ].

(** ** Utilities *)

(** [a ?? b] *)
Definition nullish {A : Type} (a : option A) (b : option A) : option A :=
  match a with Some _ => a | None => b end.

(** [getZeroWidthChar]: [V[e % V.length] ?? V[0] ?? ""]. *)
Definition getZeroWidthChar (counter : N) : string :=
  let t := (counter mod N.of_nat (length ZERO_WIDTH_CHARS))%N in
  match nullish (ZERO_WIDTH_CHARS !! N.to_nat t) (ZERO_WIDTH_CHARS !! 0%nat) with
  | Some c => c
  | None => ""
  end.

(** [Number.prototype.toString(36)] on a non-negative integer. *)
Definition digit36 (d : Z) : ascii :=
  if d <? 10 then ascii_of_N (Z.to_N (48 + d)) else ascii_of_N (Z.to_N (87 + d)).

Fixpoint toString36_aux (fuel : nat) (n : Z) (acc : string) : string :=
  match fuel with
  | O => acc
  | S f =>
      let acc' := String (digit36 (n mod 36)) acc in
      if n / 36 =? 0 then acc' else toString36_aux f (n / 36) acc'
  end.

Definition toString36 (n : Z) : string :=
  toString36_aux (S (Z.to_nat (Z.log2 n))) n "".

(** [generateId]: ["a11y-" + Date.now().toString(36) + "-" + r], where [r]
    is the seven-character slice of [Math.random().toString(36)]; the random
    slice is an input of the call. *)
Definition generateId (now : Z) (rnd : string) : string :=
  "a11y-" +:+ toString36 now +:+ "-" +:+ rnd.

(** [shouldNeverAutoDismiss] ([Me]): [e === 0 || e === Infinity ||
    !Number.isFinite(e)]. *)
Definition shouldNeverAutoDismiss (e : jsnum) : bool :=
  match e with
  | Finite ms => ms =? 0
  | Infinity | NegInfinity | NaN => true
  end.

(** ** The host environment and the module state *)

(** A DOM element of the library's own making: its attributes in the order
    they were set, and its [textContent]. *)
Record Element := {
  attrs : list (string * string);
  textContent : string
}.

Definition getAttribute (name : string) (e : Element) : option string :=
  snd <$> List.find (fun kv => String.eqb (fst kv) name) (attrs e).

(** [el.setAttribute(name, value)]: overwrite in place, or append. *)
Fixpoint setAttr (name value : string) (l : list (string * string)) : list (string * string) :=
  match l with
  | [] => [(name, value)]
  | (k, v) :: r => if String.eqb k name then (k, value) :: r else (k, v) :: setAttr name value r
  end.

Definition setAttribute (name value : string) (e : Element) : Element :=
  {| attrs := setAttr name value (attrs e); textContent := textContent e |}.

Definition setTextContent (t : string) (e : Element) : Element :=
  {| attrs := attrs e; textContent := t |}.

(** What [el.focus()] does on a page element. *)
Inductive FocusBehaviour := FocusTakes | FocusIgnored | FocusThrows.

(** An element of the host page that a focus selector can resolve to.
    [el_tabindex] is the [tabindex] attribute: absent, or present with the
    result of [parseInt] ([None] for [NaN]). [el_accessibleName] is what
    [getAccessibleName] computes for the element. *)
Record PageElement := {
  el_tagName : string;
  el_disabled : bool;
  el_tabindex : option (option Z);
  el_hasHref : bool;
  el_isContentEditable : bool;
  el_accessibleName : string;
  el_focus : FocusBehaviour
}.

(** The document: [dom_available] is [isDOMAvailable()]; [dom_body] holds
    the elements appended to [document.body], addressed by position;
    [dom_page] is what [document.querySelector] resolves for the page's own
    elements, by selector. *)
Record Dom := {
  dom_available : bool;
  dom_body : list Element;
  dom_page : gmap string PageElement;
  dom_activeElement : option string;
  dom_reducedMotion : bool
}.

(** [regions.ts]: [politeRegion] ([C]), [assertiveRegion] ([M]), handles into
    [dom_body], and [isInitialized] ([I]). *)
Record RegionState := {
  politeRegion : option nat;
  assertiveRegion : option nat;
  isInitialized : bool
}.

(** [announcer.ts]: the state object [g] (its counter starts at zero and
    only ever grows by one) and the two debounce timer handles [N] (polite)
    and [R] (assertive). *)
Record AnnouncerState := {
  lastPoliteMessage : option string;
  lastAssertiveMessage : option string;
  lastPoliteTimestamp : Z;
  lastAssertiveTimestamp : Z;
  zwcCounter : N;
  politeDebounceTimer : option nat;
  assertiveDebounceTimer : option nat
}.

(** [dedupe.ts]: [recentMessages] ([z]) and [activeEvents] ([A]). *)
Record DedupeState := {
  recentMessages : gmap string Z;
  activeEvents : gmap string FeedbackEvent
}.

(** A toast of the visual layer. *)
Record VisualItem := {
  vi_type : FeedbackType;
  vi_message : string;
  vi_className : option string;
  vi_exiting : bool
}.

(** [visual.ts]: the container [p], the JavaScript [Map]s [activeItems]
    ([k], in insertion order) and [dismissTimers] ([T]). *)
Record VisualState := {
  container : bool;
  stylesInjected : bool;
  activeItems : list (string * VisualItem);
  dismissTimers : gmap string nat
}.

Record FocusResult := {
  moved : bool;
  target : option string;
  elementName : option string;
  blockedReason : option string
}.

(** The payloads of the event bus. *)
Inductive Payload :=
| PAnnounced (event : FeedbackEvent) (region : Politeness)
| PReplaced (newEvent previousEvent : FeedbackEvent)
| PDeduped (event : FeedbackEvent) (reason : string)
| PFocusMoved (event : FeedbackEvent) (tgt : string) (name : option string)
| PVisualShown (event : FeedbackEvent).

(** A subscriber callback either returns or throws. *)
Inductive Outcome := Returned | Threw (err : string).

(** A subscriber: the identity of the callback (a [Set] holds a function
    once) and what it does when called with an event name and a payload. *)
Record Listener := {
  lid : nat;
  behave : string -> Payload -> Outcome
}.

(** An entry of the debug log ([b]). *)
Record FeedbackLogEntry := {
  log_event : FeedbackEvent;
  log_action : string;
  log_region : option Politeness;
  log_focusMoved : bool;
  log_focusTarget : option string;
  log_focusBlocked : option string;
  log_visualShown : bool
}.

(** What remains of a [processFeedback] call after its [await
    announce(s)]: the event [o], the announced copy [s], whether the
    announcement was forced, the replaced event and the focus result. *)
Record Pending := {
  p_event : FeedbackEvent;
  p_spoken : FeedbackEvent;
  p_forced : bool;
  p_replacedEvent : option FeedbackEvent;
  p_focus : FocusResult
}.

(** The callbacks given to [setTimeout]:
    - [TDebounce]: the callback of [debouncedAnnounce] ([Re]);
    - [TClearDelay]: the [delay(REGION_CLEAR_DELAY_MS)] of [performAnnounce]
      ([X]), followed by [announceToRegion] and the caller's continuation;
    - [TAutoDismiss]: the callback of [scheduleAutoDismiss] ([me]);
    - [TRemoveVisual]: the removal callback of [dismissVisualFeedback]. *)
Inductive Task :=
| TDebounce (ch : Politeness) (text : string) (k : Pending)
| TClearDelay (ch : Politeness) (text : string) (k : Pending)
| TAutoDismiss (id : string)
| TRemoveVisual (id : string).

Record Timer := {
  tm_id : nat;
  tm_due : Z;
  tm_task : Task
}.

Inductive ConsoleEntry := CWarn (tag : string) | CError (tag : string) (err : string).

(** One assignment to a live region's [textContent]. *)
Record DomWrite := {
  dw_channel : Politeness;
  dw_time : Z;
  dw_text : string
}.

(** What the program did, in order: the writes to the live regions, the
    listener calls, the [emit] calls and the events the [notify] promises
    resolved with. *)
Record Trace := {
  domLog : list DomWrite;
  deliveries : list (nat * string * Payload);
  emitted : list (string * Payload);
  returned : list FeedbackEvent
}.

Record World := {
  now : Z;
  config : FeedbackConfig;
  dom : Dom;
  regions : RegionState;
  announcer : AnnouncerState;
  dedupe : DedupeState;
  visual : VisualState;
  listeners : gmap string (list Listener);
  feedbackLog : list FeedbackLogEntry;
  timers : list Timer;
  nextTimerId : nat;
  console : list ConsoleEntry;
  trace : Trace;
  locales : gmap string Translations
}.

Definition set_now (t : Z) (w : World) : World :=
  {| now := t; config := config w; dom := dom w; regions := regions w;
     announcer := announcer w; dedupe := dedupe w; visual := visual w;
     listeners := listeners w; feedbackLog := feedbackLog w;
     timers := timers w; nextTimerId := nextTimerId w;
     console := console w; trace := trace w; locales := locales w |}.

Definition set_dom (d : Dom) (w : World) : World :=
  {| now := now w; config := config w; dom := d; regions := regions w;
     announcer := announcer w; dedupe := dedupe w; visual := visual w;
     listeners := listeners w; feedbackLog := feedbackLog w;
     timers := timers w; nextTimerId := nextTimerId w;
     console := console w; trace := trace w; locales := locales w |}.

Definition set_regions (r : RegionState) (w : World) : World :=
  {| now := now w; config := config w; dom := dom w; regions := r;
     announcer := announcer w; dedupe := dedupe w; visual := visual w;
     listeners := listeners w; feedbackLog := feedbackLog w;
     timers := timers w; nextTimerId := nextTimerId w;
     console := console w; trace := trace w; locales := locales w |}.

Definition set_announcer (a : AnnouncerState) (w : World) : World :=
  {| now := now w; config := config w; dom := dom w; regions := regions w;
     announcer := a; dedupe := dedupe w; visual := visual w;
     listeners := listeners w; feedbackLog := feedbackLog w;
     timers := timers w; nextTimerId := nextTimerId w;
     console := console w; trace := trace w; locales := locales w |}.

Definition set_dedupe (d : DedupeState) (w : World) : World :=
  {| now := now w; config := config w; dom := dom w; regions := regions w;
     announcer := announcer w; dedupe := d; visual := visual w;
     listeners := listeners w; feedbackLog := feedbackLog w;
     timers := timers w; nextTimerId := nextTimerId w;
     console := console w; trace := trace w; locales := locales w |}.

Definition set_visual (v : VisualState) (w : World) : World :=
  {| now := now w; config := config w; dom := dom w; regions := regions w;
     announcer := announcer w; dedupe := dedupe w; visual := v;
     listeners := listeners w; feedbackLog := feedbackLog w;
     timers := timers w; nextTimerId := nextTimerId w;
     console := console w; trace := trace w; locales := locales w |}.

Definition set_listeners (l : gmap string (list Listener)) (w : World) : World :=
  {| now := now w; config := config w; dom := dom w; regions := regions w;
     announcer := announcer w; dedupe := dedupe w; visual := visual w;
     listeners := l; feedbackLog := feedbackLog w;
     timers := timers w; nextTimerId := nextTimerId w;
     console := console w; trace := trace w; locales := locales w |}.

Definition set_feedbackLog (l : list FeedbackLogEntry) (w : World) : World :=
  {| now := now w; config := config w; dom := dom w; regions := regions w;
     announcer := announcer w; dedupe := dedupe w; visual := visual w;
     listeners := listeners w; feedbackLog := l;
     timers := timers w; nextTimerId := nextTimerId w;
     console := console w; trace := trace w; locales := locales w |}.

Definition set_timers (l : list Timer) (n : nat) (w : World) : World :=
  {| now := now w; config := config w; dom := dom w; regions := regions w;
     announcer := announcer w; dedupe := dedupe w; visual := visual w;
     listeners := listeners w; feedbackLog := feedbackLog w;
     timers := l; nextTimerId := n;
     console := console w; trace := trace w; locales := locales w |}.

Definition set_trace (t : Trace) (w : World) : World :=
  {| now := now w; config := config w; dom := dom w; regions := regions w;
     announcer := announcer w; dedupe := dedupe w; visual := visual w;
     listeners := listeners w; feedbackLog := feedbackLog w;
     timers := timers w; nextTimerId := nextTimerId w;
     console := console w; trace := t; locales := locales w |}.

Definition set_console (c : list ConsoleEntry) (w : World) : World :=
  {| now := now w; config := config w; dom := dom w; regions := regions w;
     announcer := announcer w; dedupe := dedupe w; visual := visual w;
     listeners := listeners w; feedbackLog := feedbackLog w;
     timers := timers w; nextTimerId := nextTimerId w;
     console := c; trace := trace w; locales := locales w |}.

(** *** The timer table *)

(** The delay of a timer as the host takes it: the HTML Standard declares
    the argument of [setTimeout] a [long], so the number is reduced modulo
    2^32 into the signed 32-bit range. *)
Definition toInt32 (z : Z) : Z := (z + 2 ^ 31) mod 2 ^ 32 - 2 ^ 31.
Arguments toInt32 : simpl never.

(** [setTimeout(task, delay)]: the delay is converted by the host, and a
    negative one counts as zero. *)
Definition setTimeout (task : Task) (delay : Z) (w : World) : nat * World :=
  let id := nextTimerId w in
  (id, set_timers (timers w ++ [{| tm_id := id; tm_due := now w + Z.max 0 (toInt32 delay);
                                   tm_task := task |}]) (S id) w).

Definition clearTimeout (id : nat) (w : World) : World :=
  set_timers (List.filter (fun t => negb (Nat.eqb (tm_id t) id)) (timers w))
             (nextTimerId w) w.

(** *** The trace *)

Definition log_domWrite (ch : Politeness) (t : string) (w : World) : World :=
  set_trace {| domLog := domLog (trace w) ++ [{| dw_channel := ch; dw_time := now w; dw_text := t |}];
               deliveries := deliveries (trace w);
               emitted := emitted (trace w); returned := returned (trace w) |} w.

(** [console.warn] and [console.error] *)
Definition log_console (c : ConsoleEntry) (w : World) : World :=
  set_console (console w ++ [c]) w.

Definition log_delivery (l : nat) (topic : string) (p : Payload) (w : World) : World :=
  set_trace {| domLog := domLog (trace w);
               deliveries := deliveries (trace w) ++ [(l, topic, p)];
               emitted := emitted (trace w); returned := returned (trace w) |} w.

Definition log_emitted (topic : string) (p : Payload) (w : World) : World :=
  set_trace {| domLog := domLog (trace w);
               deliveries := deliveries (trace w);
               emitted := emitted (trace w) ++ [(topic, p)]; returned := returned (trace w) |} w.

Definition log_returned (e : FeedbackEvent) (w : World) : World :=
  set_trace {| domLog := domLog (trace w);
               deliveries := deliveries (trace w);
               emitted := emitted (trace w); returned := returned (trace w) ++ [e] |} w.

(** [isDebugEnabled() && console.warn(tag, ...)] *)
Definition debugWarn (tag : string) (w : World) : World :=
  if cfg_debug (config w) then log_console (CWarn tag) w else w.

(** *** Results of effectful code

    A computation returns, or throws (keeping the state it reached), or
    does not come back within the fuel given to a loop. *)
Inductive Res (A : Type) :=
| Ok (a : A)
| Uncaught (err : string) (w : World)
| OutOfFuel.
Arguments Ok {A} a.
Arguments Uncaught {A} err w.
Arguments OutOfFuel {A}.

#[global] Instance Res_ret : MRet Res := fun A a => Ok a.
#[global] Instance Res_bind : MBind Res := fun A B f r =>
  match r with
  | Ok a => f a
  | Uncaught e w => Uncaught e w
  | OutOfFuel => OutOfFuel
  end.

#[global] Instance Res_fmap : FMap Res := fun A B f r =>
  match r with
  | Ok a => Ok (f a)
  | Uncaught e w => Uncaught e w
  | OutOfFuel => OutOfFuel
  end.

(** [try { body } catch (c) { handler(c) }] *)
Definition tryCatch (body : Res World) (handler : string -> World -> Res World) : Res World :=
  match body with
  | Ok w => Ok w
  | Uncaught c w => handler c w
  | OutOfFuel => OutOfFuel
  end.

(** [collection.forEach(f)]: an exception thrown by [f] ends the
    iteration. *)
Fixpoint forEach {A : Type} (f : A -> World -> Res World) (l : list A) (w : World) : Res World :=
  match l with
  | [] => Ok w
  | a :: r => w' ← f a w; forEach f r w'
  end.

(** ** Region manager ([regions.ts]) *)

Module Regions.

(** The template literal of [constants.ts], line breaks included. *)
Definition VISUALLY_HIDDEN_STYLES : string :=
  let nl := String "010" EmptyString in
  nl +:+ "  position: absolute;" +:+ nl +:+ "  width: 1px;" +:+ nl +:+ "  height: 1px;"
  +:+ nl +:+ "  padding: 0;" +:+ nl +:+ "  margin: -1px;" +:+ nl +:+ "  overflow: hidden;"
  +:+ nl +:+ "  clip: rect(0, 0, 0, 0);" +:+ nl +:+ "  white-space: nowrap;"
  +:+ nl +:+ "  border: 0;" +:+ nl.

Definition getElementById (id : string) (d : Dom) : option nat :=
  fst <$> list_find (fun e => getAttribute "id" e = Some id) (dom_body d).

(** [createRegion] ([ne]) *)
Definition createRegion (e : Politeness) (t : string) : Element :=
  setAttribute "style" VISUALLY_HIDDEN_STYLES
    {| attrs := [ ("id", t);
                  ("data-a11y-feedback", politenessName e);
                  ("aria-live", politenessName e);
                  ("aria-atomic", "true");
                  ("role", if decide (e = assertive) then "alert" else "status") ];
       textContent := "" |}.

Definition appendChild (e : Element) (w : World) : nat * World :=
  (length (dom_body (dom w)),
   set_dom {| dom_available := dom_available (dom w);
              dom_body := dom_body (dom w) ++ [e];
              dom_page := dom_page (dom w);
              dom_activeElement := dom_activeElement (dom w);
              dom_reducedMotion := dom_reducedMotion (dom w) |} w).

(** [ensureRegions] ([q]) *)
Definition ensureRegions (w : World) : bool * World :=
  if negb (dom_available (dom w)) then (false, w)
  else if isInitialized (regions w)
          && bool_decide (politeRegion (regions w) <> None)
          && bool_decide (assertiveRegion (regions w) <> None)
  then (true, w)
  else
    let e := cfg_regionPrefix (config w) in
    let t := getElementById (e +:+ "-" +:+ politenessName polite) (dom w) in
    let n := getElementById (e +:+ "-" +:+ politenessName assertive) (dom w) in
    match t, n with
    | Some t, Some n =>
        (true, set_regions {| politeRegion := Some t; assertiveRegion := Some n;
                              isInitialized := true |} w)
    | _, _ =>
        let C := createRegion polite (e +:+ "-" +:+ politenessName polite) in
        let M := createRegion assertive (e +:+ "-" +:+ politenessName assertive) in
        let '(hC, w1) := appendChild C w in
        let '(hM, w2) := appendChild M w1 in
        (true, set_regions {| politeRegion := Some hC; assertiveRegion := Some hM;
                              isInitialized := true |} w2)
    end.

(** [getRegion] ([xe]) *)
Definition getRegion (e : Politeness) (w : World) : option nat * World :=
  let w1 := if isInitialized (regions w) then w else snd (ensureRegions w) in
  (match e with
   | assertive => assertiveRegion (regions w1)
   | polite => politeRegion (regions w1)
   end, w1).

Definition writeText (h : nat) (ch : Politeness) (t : string) (w : World) : World :=
  log_domWrite ch t
    (set_dom {| dom_available := dom_available (dom w);
                dom_body := alter (setTextContent t) h (dom_body (dom w));
                dom_page := dom_page (dom w);
                dom_activeElement := dom_activeElement (dom w);
                dom_reducedMotion := dom_reducedMotion (dom w) |} w).

(** [announceToRegion] ([De]): clear, yield one microtask, write. The
    microtask runs before the turn ends, so both assignments belong to the
    turn that calls the function. *)
Definition announceToRegion (e : Politeness) (t : string) (w : World) : World :=
  let '(n, w1) := getRegion e w in
  match n with
  | None => w1
  | Some h => writeText h e t (writeText h e "" w1)
  end.

End Regions.

(** ** Announcer ([announcer.ts]) *)

Module Announcer.

Definition lastMessage (n : Politeness) (g : AnnouncerState) : option string :=
  match n with
  | assertive => lastAssertiveMessage g
  | polite => lastPoliteMessage g
  end.

Definition lastTimestamp (n : Politeness) (g : AnnouncerState) : Z :=
  match n with
  | assertive => lastAssertiveTimestamp g
  | polite => lastPoliteTimestamp g
  end.

Definition debounceTimer (n : Politeness) (g : AnnouncerState) : option nat :=
  match n with
  | assertive => assertiveDebounceTimer g
  | polite => politeDebounceTimer g
  end.

Definition set_debounceTimer (n : Politeness) (t : option nat) (g : AnnouncerState) : AnnouncerState :=
  {| lastPoliteMessage := lastPoliteMessage g;
     lastAssertiveMessage := lastAssertiveMessage g;
     lastPoliteTimestamp := lastPoliteTimestamp g;
     lastAssertiveTimestamp := lastAssertiveTimestamp g;
     zwcCounter := zwcCounter g;
     politeDebounceTimer := match n with polite => t | assertive => politeDebounceTimer g end;
     assertiveDebounceTimer := match n with assertive => t | polite => assertiveDebounceTimer g end |}.

Definition set_last (n : Politeness) (m : string) (ts : Z) (g : AnnouncerState) : AnnouncerState :=
  {| lastPoliteMessage := match n with polite => Some m | assertive => lastPoliteMessage g end;
     lastAssertiveMessage := match n with assertive => Some m | polite => lastAssertiveMessage g end;
     lastPoliteTimestamp := match n with polite => ts | assertive => lastPoliteTimestamp g end;
     lastAssertiveTimestamp := match n with assertive => ts | polite => lastAssertiveTimestamp g end;
     zwcCounter := zwcCounter g;
     politeDebounceTimer := politeDebounceTimer g;
     assertiveDebounceTimer := assertiveDebounceTimer g |}.

(** [injectZeroWidthChar] ([Ne]) *)
Definition injectZeroWidthChar (e : string) (w : World) : string * World :=
  let g := announcer w in
  let t := getZeroWidthChar (zwcCounter g) in
  (e +:+ t,
   set_announcer {| lastPoliteMessage := lastPoliteMessage g;
                    lastAssertiveMessage := lastAssertiveMessage g;
                    lastPoliteTimestamp := lastPoliteTimestamp g;
                    lastAssertiveTimestamp := lastAssertiveTimestamp g;
                    zwcCounter := (zwcCounter g + 1)%N;
                    politeDebounceTimer := politeDebounceTimer g;
                    assertiveDebounceTimer := assertiveDebounceTimer g |} w).

(** [performAnnounce] ([X]) up to its first [await]: the clear delay is
    a timer; the write and the caller's continuation run when it fires. *)
Definition performAnnounce (e : string) (t : Politeness) (k : Pending) (w : World) : World :=
  snd (setTimeout (TClearDelay t e k) REGION_CLEAR_DELAY_MS w).

(** [debouncedAnnounce] ([Re]): cancel the channel's pending debounce
    timer, if any, and start a new one of [ANNOUNCEMENT_DEBOUNCE_MS]. *)
Definition debouncedAnnounce (t : string) (n : Politeness) (k : Pending) (w : World) : World :=
  let w1 := match debounceTimer n (announcer w) with
            | Some r => clearTimeout r w
            | None => w
            end in
  let '(id, w2) := setTimeout (TDebounce n t k) ANNOUNCEMENT_DEBOUNCE_MS w1 in
  set_announcer (set_debounceTimer n (Some id) (announcer w2)) w2.

(** The callback of the debounce timer: [performAnnounce(t, n).then(o)],
    then the handle is reset. *)
Definition debounceFired (t : string) (n : Politeness) (k : Pending) (w : World) : World :=
  let w1 := performAnnounce t n k w in
  set_announcer (set_debounceTimer n None (announcer w1)) w1.

(** [announce] ([Ie]) up to its [await]. [o] is the registered event,
    [e] the copy whose message carries the focus explanation. *)
Definition announce (e o : FeedbackEvent) (replacedEvent : option FeedbackEvent)
    (focus : FocusResult) (w : World) : World :=
  let w0 := snd (Regions.ensureRegions w) in
  let t := ev_message e in
  let n := ev_ariaLive e in
  let r := lastMessage n (announcer w0) in
  let c := lastTimestamp n (announcer w0) in
  let s := bool_decide (opt_force (ev_options e) = Some true) || bool_decide (Some t = r) in
  let '(l, w1) := if s then injectZeroWidthChar t w0 else (t, w0) in
  let k := {| p_event := o; p_spoken := e; p_forced := s;
              p_replacedEvent := replacedEvent; p_focus := focus |} in
  if now w1 - c <? ANNOUNCEMENT_DEBOUNCE_MS
  then debouncedAnnounce l n k w1
  else performAnnounce l n k w1.

(** [announce] after its [await]: the channel's last message and
    timestamp are recorded once the write is done. *)
Definition announceDone (k : Pending) (w : World) : World :=
  let e := p_spoken k in
  debugWarn "[a11y-feedback] Announcement:"
    (set_announcer (set_last (ev_ariaLive e) (ev_message e) (now w) (announcer w)) w).

End Announcer.

(** ** Deduplication and replacement ([dedupe.ts]) *)

Module Dedupe.

Record DedupeResult := {
  shouldSkip : bool;
  replacedEvent : option FeedbackEvent;
  reason : string
}.

(** [generateKey] ([ie]) *)
Definition generateKey (e : string) (t : FeedbackType) : string :=
  typeName t +:+ ":" +:+ e.

(** [isDuplicate] ([Be]) *)
Definition isDuplicate (e : string) (t : FeedbackType) (w : World) : bool :=
  match recentMessages (dedupe w) !! generateKey e t with
  | None => false
  | Some o => now w - o <? DEDUPE_WINDOW_MS
  end.

(** [cleanupOldEntries] ([Ue]) *)
Definition cleanupOldEntries (w : World) : World :=
  let t := now w - DEDUPE_WINDOW_MS * 2 in
  set_dedupe {| recentMessages := filter (fun kv => ¬ (kv.2 < t)) (recentMessages (dedupe w));
                activeEvents := activeEvents (dedupe w) |} w.

(** [recordMessage] ([Oe]) *)
Definition recordMessage (e : string) (t : FeedbackType) (w : World) : World :=
  cleanupOldEntries
    (set_dedupe {| recentMessages := <[generateKey e t := now w]> (recentMessages (dedupe w));
                   activeEvents := activeEvents (dedupe w) |} w).

(** [getActiveEvent] ([_e]) *)
Definition getActiveEvent (e : string) (w : World) : option FeedbackEvent :=
  activeEvents (dedupe w) !! e.

(** [registerEvent] ([Pe]) *)
Definition registerEvent (e : FeedbackEvent) (w : World) : World :=
  debugWarn "[a11y-feedback] Registered event:"
    (set_dedupe {| recentMessages := recentMessages (dedupe w);
                   activeEvents := <[ev_id e := e]> (activeEvents (dedupe w)) |} w).

(** [unregisterEvent] ([ae]) *)
Definition unregisterEvent (e : string) (w : World) : bool * World :=
  let t := bool_decide (is_Some (activeEvents (dedupe w) !! e)) in
  let w1 := set_dedupe {| recentMessages := recentMessages (dedupe w);
                          activeEvents := delete e (activeEvents (dedupe w)) |} w in
  (t, if t then debugWarn "[a11y-feedback] Unregistered event:" w1 else w1).

(** [checkDeduplication] ([Ve]) *)
Definition checkDeduplication (e : FeedbackEvent) (w : World) : DedupeResult * World :=
  let byId :=
    match opt_id (ev_options e) with
    | Some id =>
        if negb (String.eqb id "") then
          match getActiveEvent id w with
          | Some t => Some (id, t)
          | None => None
          end
        else None
    | None => None
    end in
  match byId with
  | Some (id, t) =>
      let w1 := snd (unregisterEvent id w) in
      ({| shouldSkip := false; replacedEvent := Some t; reason := "id_replacement" |},
       debugWarn "[a11y-feedback] Replacing event:" w1)
  | None =>
      if negb (bool_decide (opt_force (ev_options e) = Some true))
         && isDuplicate (ev_message e) (ev_type e) w
      then ({| shouldSkip := true; replacedEvent := None; reason := "content_dedupe" |},
            debugWarn "[a11y-feedback] Deduped event:" w)
      else ({| shouldSkip := false; replacedEvent := None; reason := "none" |}, w)
  end.

End Dedupe.

(** ** Translations ([i18n.ts]) *)

Module I18n.

Definition tr_get (e : TranslationKey) (t : Translations) : string :=
  match e with
  | dismissLabel => tr_dismiss t
  | notificationsLabel => tr_notificationsLabel t
  | focusMovedTo => tr_focusMovedTo t
  end.

Definition ft_get (e : TranslationKey) (t : FeedbackTranslations) : option string :=
  match e with
  | dismissLabel => ft_dismiss t
  | notificationsLabel => ft_notificationsLabel t
  | focusMovedTo => ft_focusMovedTo t
  end.

(** A string in a condition: [undefined] and the empty string are falsy. *)
Definition truthy (s : option string) : option string :=
  match s with
  | Some x => if String.eqb x "" then None else Some x
  | None => None
  end.

(** [getTranslation] ([O]): the configured translation, else the entry of
    the configured locale's table ([en] without a locale), else the default. *)
Definition getTranslation (e : TranslationKey) (w : World) : string :=
  let t := config w in
  let n := default "en" (cfg_locale t) in
  match truthy (cfg_translations t ≫= ft_get e) with
  | Some s => s
  | None =>
      match truthy (tr_get e <$> locales w !! n) with
      | Some s => s
      | None => tr_get e DEFAULT_TRANSLATIONS
      end
  end.

(** [s] without its prefix [p], when it has that prefix. *)
Fixpoint dropPrefix (p s : string) : option string :=
  match p, s with
  | EmptyString, _ => Some s
  | String a p', String b s' => if Ascii.eqb a b then dropPrefix p' s' else None
  | String _ _, EmptyString => None
  end.

(** The text before the first occurrence of [p] in [s] and the text
    after it. *)
Fixpoint splitAtFirst (p s : string) {struct s} : option (string * string) :=
  match dropPrefix p s with
  | Some rest => Some (EmptyString, rest)
  | None =>
      match s with
      | EmptyString => None
      | String c s' =>
          match splitAtFirst p s' with
          | Some (a, b) => Some (String c a, b)
          | None => None
          end
      end
  end.

(** [GetSubstitution] for a string pattern (no captures): in the
    replacement text [$$] is a dollar sign, [$&] the matched text, [$`] the
    text before the match and [$'] the text after it; any other [$] stands
    for itself. *)
Fixpoint getSubstitution (matched before after r : string) : string :=
  match r with
  | EmptyString => EmptyString
  | String c tl =>
      if Ascii.eqb c "$" then
        match tl with
        | EmptyString => String c EmptyString
        | String d tl' =>
            if Ascii.eqb d "$" then String "$" (getSubstitution matched before after tl')
            else if Ascii.eqb d "&" then matched +:+ getSubstitution matched before after tl'
            else if Ascii.eqb d "`" then before +:+ getSubstitution matched before after tl'
            else if Ascii.eqb d "'" then after +:+ getSubstitution matched before after tl'
            else String c (getSubstitution matched before after tl)
        end
      else String c (getSubstitution matched before after tl)
  end.

(** [s.replace(p, r)] with strings [p] and [r]: the first occurrence
    only. *)
Definition replace (p r s : string) : string :=
  match splitAtFirst p s with
  | Some (a, b) => a +:+ getSubstitution p a b r +:+ b
  | None => s
  end.

(** [formatTranslation] ([re]); [t] lists the entries of the values
    object. *)
Definition formatTranslation (e : TranslationKey) (t : list (string * string)) (w : World) : string :=
  fold_left (fun n kv => replace ("{" +:+ fst kv +:+ "}") (snd kv) n) t (getTranslation e w).

End I18n.

(** ** Focus mediation ([focus.ts]) *)

Module Focus.

(** [canMoveFocus] ([je]) *)
Definition canMoveFocus (e : FeedbackType) : bool :=
  sem_canMoveFocus (FEEDBACK_SEMANTICS e).

(** [queryElement] ([Q]); a selector the page does not resolve, or one
    that makes [querySelector] throw, gives [null]. *)
Definition queryElement (e : string) (w : World) : option PageElement :=
  dom_page (dom w) !! e.

(** [isFocusable] ([Ae]) *)
Definition isFocusable (e : PageElement) : bool :=
  if el_disabled e then false
  else
    let t := el_tabindex e in
    if match t with Some (Some i) => i <? 0 | _ => false end then false
    else if bool_decide (el_tagName e ∈ ["A"; "BUTTON"; "INPUT"; "SELECT"; "TEXTAREA"; "DETAILS"; "SUMMARY"])
    then (if String.eqb (el_tagName e) "A" then el_hasHref e else true)
    else if el_isContentEditable e then true
    else match t with Some (Some i) => 0 <=? i | _ => false end.

Definition set_tabindex (i : Z) (e : PageElement) : PageElement :=
  {| el_tagName := el_tagName e; el_disabled := el_disabled e;
     el_tabindex := Some (Some i); el_hasHref := el_hasHref e;
     el_isContentEditable := el_isContentEditable e;
     el_accessibleName := el_accessibleName e; el_focus := el_focus e |}.

Definition set_page (p : gmap string PageElement) (active : option string) (w : World) : World :=
  set_dom {| dom_available := dom_available (dom w); dom_body := dom_body (dom w);
             dom_page := p; dom_activeElement := active;
             dom_reducedMotion := dom_reducedMotion (dom w) |} w.

(** [moveFocusToElement] ([Xe]) *)
Definition moveFocusToElement (e : string) (w : World) : FocusResult * World :=
  if negb (dom_available (dom w))
  then ({| moved := false; target := Some e; elementName := None;
           blockedReason := Some "DOM not available" |}, w)
  else
    match queryElement e w with
    | None =>
        ({| moved := false; target := Some e; elementName := None;
            blockedReason := Some ("Element not found: " +:+ e) |},
         debugWarn "[a11y-feedback] Focus target not found:" w)
    | Some t =>
        let w1 :=
          if isFocusable t then w
          else debugWarn "[a11y-feedback] Added tabindex=-1 to make element focusable:"
                 (set_page (<[e := set_tabindex (-1) t]> (dom_page (dom w)))
                           (dom_activeElement (dom w)) w) in
        let n := el_accessibleName t in
        match el_focus t with
        | FocusThrows =>
            ({| moved := false; target := Some e; elementName := None;
                blockedReason := Some "Focus operation threw an error" |},
             if cfg_debug (config w1)
             then log_console (CError "[a11y-feedback] Focus error:" "") w1
             else w1)
        | fb =>
            let w2 := match fb with
                      | FocusTakes => set_page (dom_page (dom w1)) (Some e) w1
                      | _ => w1
                      end in
            let o := bool_decide (dom_activeElement (dom w2) = Some e) in
            ({| moved := o; target := Some e;
                elementName := if negb (String.eqb n "") then Some n else None;
                blockedReason := if o then None else Some "Focus failed to move" |},
             debugWarn "[a11y-feedback] Focus moved:" w2)
        end
    end.

(** [handleFocus] ([qe]) *)
Definition handleFocus (e : FeedbackEvent) (w : World) : FocusResult * World :=
  let t := ev_type e in
  let n := ev_options e in
  match opt_focus n with
  | None => ({| moved := false; target := None; elementName := None; blockedReason := None |}, w)
  | Some f =>
      if String.eqb f ""
      then ({| moved := false; target := None; elementName := None; blockedReason := None |}, w)
      else if negb (canMoveFocus t) then
        let o := "Focus movement blocked: " +:+ typeName t +:+ " type cannot move focus" in
        ({| moved := false; target := Some f; elementName := None; blockedReason := Some o |},
         debugWarn "[a11y-feedback] Focus blocked:" w)
      else moveFocusToElement f w
  end.

(** [getFocusExplanation] ([Ye]): the translated template with the
    element's name for [{label}]; without a name the fixed English
    sentence. *)
Definition getFocusExplanation (e : option string) (w : World) : string :=
  match e with
  | Some l =>
      if String.eqb l "" then "Focus moved."
      else I18n.formatTranslation focusMovedTo [("label", l)] w
  | None => "Focus moved."
  end.

(** [buildMessageWithFocus] ([Ge]) *)
Definition buildMessageWithFocus (e : string) (t : FeedbackEvent) (n : FocusResult)
    (w : World) : string :=
  if negb (bool_decide (opt_explainFocus (ev_options t) = Some true)) || negb (moved n)
  then e
  else e +:+ " " +:+ getFocusExplanation (elementName n) w.

End Focus.

(** ** Event bus ([events.ts]) *)

Module Events.

(** [Set.prototype.add] on the insertion-ordered list of a [Set]. *)
Definition set_add (l : Listener) (s : list Listener) : list Listener :=
  if existsb (fun x => Nat.eqb (lid x) (lid l)) s then s else s ++ [l].

(** [onFeedback] ([pe]) *)
Definition onFeedback (e : string) (t : Listener) (w : World) : World :=
  set_listeners (<[e := set_add t (default [] (listeners w !! e))]> (listeners w)) w.

(** [onAnyFeedback] ([gt]) *)
Definition onAnyFeedback (e : Listener) (w : World) : World :=
  onFeedback "*" e w.

(** One call of a subscriber's callback. *)
Definition callListener (r : Listener) (e : string) (t : Payload) (w : World) : Res World :=
  let w1 := log_delivery (lid r) e t w in
  match behave r e t with
  | Returned => Ok w1
  | Threw c => Uncaught c w1
  end.

(** The text [console.error] gets first when a subscriber of [e] throws:
    the event's name in double quotes, then a colon. *)
Definition listenerErrorTag (e : string) : string :=
  let q := String "034" EmptyString in
  "[a11y-feedback] Event listener error for " +:+ q +:+ e +:+ q +:+ ":".

(** [emit] ([x]) *)
Definition emit (e : string) (t : Payload) (w : World) : Res World :=
  let w0 := log_emitted e t w in
  w1 ← match listeners w0 !! e with
       | Some n =>
           forEach (fun r w =>
                      tryCatch (callListener r e t w)
                        (fun c w => Ok (log_console
                           (CError (listenerErrorTag e) c) w)))
                   n w0
       | None => Ok w0
       end;
  match listeners w1 !! "*" with
  | Some o =>
      forEach (fun r w =>
                 tryCatch (callListener r e t w)
                   (fun c w => Ok (log_console
                      (CError "[a11y-feedback] Wildcard listener error:" c) w)))
              o w1
  | None => Ok w1
  end.

(** [hasListeners] ([F]) *)
Definition hasListeners (e : string) (w : World) : bool :=
  let t := (0 <? length (default [] (listeners w !! e)))%nat in
  let n := (0 <? length (default [] (listeners w !! "*")))%nat in
  t || n.

End Events.

(** ** Debug log ([debug.ts]) *)

Module Debug.

(** [while (b.length > MAX_LOG_ENTRIES) b.shift()] *)
Fixpoint shiftWhileOver {A : Type} (fuel : nat) (b : list A) : list A :=
  match fuel with
  | O => b
  | S f => if (MAX_LOG_ENTRIES <? length b)%nat then shiftWhileOver f (tail b) else b
  end.

(** [logFeedbackEvent] ([ge]) *)
Definition logFeedbackEvent (e : FeedbackEvent) (t : string) (region : option Politeness)
    (focusResult : option FocusResult) (visualShown : option bool) (w : World) : World :=
  let o := {| log_event := e; log_action := t; log_region := region;
              log_focusMoved := default false (moved <$> focusResult);
              log_focusTarget := focusResult ≫= target;
              log_focusBlocked := focusResult ≫= blockedReason;
              log_visualShown := default false visualShown |} in
  let b := feedbackLog w ++ [o] in
  debugWarn ("[a11y-feedback] " +:+ t) (set_feedbackLog (shiftWhileOver (length b) b) w).

End Debug.

(** ** Visual layer ([visual.ts]): what bears on dismissal *)

Module Visual.

(** The [Map] [activeItems], in insertion order. *)
Definition items_get (id : string) (k : list (string * VisualItem)) : option VisualItem :=
  snd <$> List.find (fun kv => String.eqb (fst kv) id) k.

Fixpoint items_set (id : string) (v : VisualItem) (k : list (string * VisualItem)) :=
  match k with
  | [] => [(id, v)]
  | (i, x) :: r => if String.eqb i id then (i, v) :: r else (i, x) :: items_set id v r
  end.

Definition items_delete (id : string) (k : list (string * VisualItem)) :=
  List.filter (fun kv => negb (String.eqb (fst kv) id)) k.

Definition set_items (k : list (string * VisualItem)) (w : World) : World :=
  set_visual {| container := container (visual w);
                stylesInjected := stylesInjected (visual w);
                activeItems := k;
                dismissTimers := dismissTimers (visual w) |} w.

Definition set_dismissTimers (t : gmap string nat) (w : World) : World :=
  set_visual {| container := container (visual w);
                stylesInjected := stylesInjected (visual w);
                activeItems := activeItems (visual w);
                dismissTimers := t |} w.

(** [prefersReducedMotion] ([te]) *)
Definition prefersReducedMotion (w : World) : bool :=
  if dom_available (dom w) then dom_reducedMotion (dom w) else false.

(** [initVisual] ([le]): inject the styles and create the container,
    each once. *)
Definition initVisual (w : World) : World :=
  if negb (dom_available (dom w)) || negb (cfg_visual (config w)) then w
  else set_visual {| container := true; stylesInjected := true;
                     activeItems := activeItems (visual w);
                     dismissTimers := dismissTimers (visual w) |} w.

(** [dismissVisualFeedback] ([$]): nothing without a visual item;
    otherwise the item starts its exit and is removed, and its event
    unregistered, by a timer. *)
Definition dismissVisualFeedback (e : string) (w : World) : World :=
  match items_get e (activeItems (visual w)) with
  | None => w
  | Some t =>
      let w1 := match dismissTimers (visual w) !! e with
                | Some n => set_dismissTimers (delete e (dismissTimers (visual w)))
                              (clearTimeout n w)
                | None => w
                end in
      let w2 := set_items (items_set e {| vi_type := vi_type t; vi_message := vi_message t;
                                          vi_className := vi_className t;
                                          vi_exiting := true |}
                                     (activeItems (visual w1))) w1 in
      let o := if prefersReducedMotion w2 then 0 else 200 in
      snd (setTimeout (TRemoveVisual e) o w2)
  end.

(** The removal callback of [dismissVisualFeedback]:
    [removeElement(t); k.delete(e); unregisterEvent(e)]. *)
Definition removeFired (e : string) (w : World) : World :=
  snd (Dedupe.unregisterEvent e (set_items (items_delete e (activeItems (visual w))) w)).

(** [scheduleAutoDismiss] ([me]) *)
Definition scheduleAutoDismiss (e : FeedbackEvent) (w : World) : World :=
  if negb (sem_autoDismiss (FEEDBACK_SEMANTICS (ev_type e))) then w
  else
    let o := nullish (opt_timeout (ev_options e))
               (nullish (DEFAULT_TIMEOUTS (ev_type e))
                        (Some (cfg_defaultTimeout (config w)))) in
    match o with
    | None => w
    | Some o =>
        if shouldNeverAutoDismiss o then w
        else
          let '(r, w1) := setTimeout (TAutoDismiss (ev_id e))
                            (match o with Finite ms => ms | _ => 0 end) w in
          set_dismissTimers (<[ev_id e := r]> (dismissTimers (visual w1))) w1
    end.

(** [for (; k.size >= maxVisualItems; ) { o = first key; dismiss(o) }] *)
Fixpoint evictWhileFull (fuel : nat) (w : World) {struct fuel} : Res World :=
  if cfg_maxVisualItems (config w) <=? Z.of_nat (length (activeItems (visual w)))
  then match fuel with
       | O => OutOfFuel
       | S f =>
           evictWhileFull f
             (match head (activeItems (visual w)) with
              | Some (o, _) => dismissVisualFeedback o w
              | None => w
              end)
       end
  else Ok w.

(** ASCII whitespace, which [classList.add] refuses in a token with an
    [InvalidCharacterError]: tab, line feed, form feed, carriage return and
    space. *)
Definition isAsciiWhitespace (c : ascii) : bool :=
  existsb (Ascii.eqb c) ["009"; "010"; "012"; "013"; " "]%char.

Fixpoint hasWhitespace (s : string) : bool :=
  match s with
  | EmptyString => false
  | String c r => isAsciiWhitespace c || hasWhitespace r
  end.

(** [createFeedbackItem] ([Qe]) as far as it can fail: its last statement
    is [className !== undefined && className !== "" &&
    classList.add(className)]. *)
Definition classNameThrows (e : FeedbackEvent) : bool :=
  match opt_className (ev_options e) with
  | Some c => negb (String.eqb c "") && hasWhitespace c
  | None => false
  end.

(** [showVisualFeedback] ([fe]). The state is the [Map] [k]: [k.set]
    overwrites the entry of an id that has one and keeps its place. The child
    elements of the container are not part of the state. *)
Definition showVisualFeedback (fuel : nat) (e : FeedbackEvent) (w : World) : Res World :=
  if negb (cfg_visual (config w)) then Ok w
  else
    let w1 := initVisual w in
    if negb (container (visual w1)) then Ok w1
    else
      w2 ← evictWhileFull fuel w1;
      if classNameThrows e then Uncaught "InvalidCharacterError" w2
      else
        let n := {| vi_type := ev_type e; vi_message := ev_message e;
                    vi_className := opt_className (ev_options e);
                    vi_exiting := false |} in
        Ok (scheduleAutoDismiss e
              (set_items (items_set (ev_id e) n (activeItems (visual w2))) w2)).

(** [updateVisualFeedback] ([et]) *)
Definition updateVisualFeedback (fuel : nat) (e : FeedbackEvent) (w : World) : Res World :=
  match items_get (ev_id e) (activeItems (visual w)) with
  | None => showVisualFeedback fuel e w
  | Some t =>
      let w1 := set_items (items_set (ev_id e)
                             {| vi_type := ev_type e; vi_message := ev_message e;
                                vi_className := vi_className t;
                                vi_exiting := vi_exiting t |}
                             (activeItems (visual w))) w in
      let w2 := match dismissTimers (visual w1) !! ev_id e with
                | Some r => set_dismissTimers (delete (ev_id e) (dismissTimers (visual w1)))
                              (clearTimeout r w1)
                | None => w1
                end in
      Ok (scheduleAutoDismiss e w2)
  end.

End Visual.

(** ** The notify pipeline ([notify.ts]) *)

Module Notify.

(** [createFeedbackEvent] ([kt]); [now] is [Date.now()] and [rnd] the
    random part of a generated id. *)
Definition createFeedbackEvent (e : string) (t : FeedbackType) (n : FeedbackOptions)
    (now : Z) (rnd : string) : FeedbackEvent :=
  let o := FEEDBACK_SEMANTICS t in
  {| ev_id := default (generateId now rnd) (opt_id n);
     ev_message := e; ev_type := t;
     ev_role := sem_role o; ev_ariaLive := sem_ariaLive o;
     ev_priority := sem_priority o;
     ev_options := n; ev_timestamp := now;
     ev_replaced := false; ev_deduped := false |}.

(** How a [processFeedback] call stands when it gives up control: it
    returned the deduped event, or it awaits its announcement. *)
Inductive Progress :=
| Skipped (d : FeedbackEvent)
| Awaiting (o : FeedbackEvent).

(** [processFeedback] ([ht]) up to its [await announce(s)]. *)
Definition processFeedback (e : FeedbackEvent) (w : World) : Res (Progress * World) :=
  let w0 := snd (Regions.ensureRegions w) in
  let '(t, w1) := Dedupe.checkDeduplication e w0 in
  if Dedupe.shouldSkip t then
    let d := with_deduped e true in
    let w2 := Debug.logFeedbackEvent d "deduped" None None None w1 in
    w3 ← (if Events.hasListeners "deduped" w2
          then Events.emit "deduped" (PDeduped d "duplicate") w2
          else Ok w2);
    Ok (Skipped d, log_returned d w3)
  else
    let n := bool_decide (Dedupe.replacedEvent t <> None) in
    let o := with_replaced e n in
    let w2 := Dedupe.registerEvent o w1 in
    let w3 := Dedupe.recordMessage (ev_message o) (ev_type o) w2 in
    let '(r, w4) := Focus.handleFocus o w3 in
    let c := Focus.buildMessageWithFocus (ev_message o) o r w4 in
    let s := with_message o c in
    Ok (Awaiting o, Announcer.announce s o (Dedupe.replacedEvent t) r w4).

(** [processFeedback] after its [await]: visual feedback, the debug
    log, the events, and the promise resolves with [o]. Before the last
    emission the code calls [document.querySelector], which is a
    [ReferenceError] where there is no document. *)
Definition processTail (fuel : nat) (k : Pending) (w : World) : Res World :=
  let o := p_event k in
  let r := p_focus k in
  let n := bool_decide (p_replacedEvent k <> None) in
  '(l, w1) ← (if cfg_visual (config w)
              then w' ← (if n then Visual.updateVisualFeedback fuel o (Visual.initVisual w)
                              else Visual.showVisualFeedback fuel o (Visual.initVisual w));
                   Ok (true, w')
              else Ok (false, w));
  let w2 := Debug.logFeedbackEvent o (if n then "replaced" else "announced")
              (Some (ev_ariaLive o)) (Some r) (Some l) w1 in
  w3 ← (if Events.hasListeners "announced" w2 || Events.hasListeners "replaced" w2
        then match p_replacedEvent k with
             | Some prev => Events.emit "replaced" (PReplaced o prev) w2
             | None => Events.emit "announced" (PAnnounced o (ev_ariaLive o)) w2
             end
        else Ok w2);
  w4 ← (if moved r && Events.hasListeners "focusMoved" w3
        then Events.emit "focusMoved"
               (PFocusMoved o (default "" (target r)) (elementName r)) w3
        else Ok w3);
  w5 ← (if l && Events.hasListeners "visualShown" w4
        then if negb (dom_available (dom w4)) then Uncaught "ReferenceError" w4
             else if container (visual w4)
                  then Events.emit "visualShown" (PVisualShown o) w4
                  else Ok w4
        else Ok w4);
  Ok (log_returned o w5).

(** [notify] ([S]) *)
Definition notify (message : string) (type : FeedbackType) (options : FeedbackOptions)
    (rnd : string) (w : World) : Res (Progress * World) :=
  processFeedback (createFeedbackEvent message type options (now w) rnd) w.

End Notify.

(** ** The event loop *)

Module Loop.

(** The timer that fires next: the earliest due, the oldest among
    equals. *)
Fixpoint earliest (l : list Timer) : option Timer :=
  match l with
  | [] => None
  | t :: r =>
      match earliest r with
      | None => Some t
      | Some u => if tm_due u <? tm_due t then Some u else Some t
      end
  end.

(** Running a timer's callback to completion. *)
Definition runTask (fuel : nat) (t : Task) (w : World) : Res World :=
  match t with
  | TDebounce ch text k => Ok (Announcer.debounceFired text ch k w)
  | TClearDelay ch text k =>
      Notify.processTail fuel k
        (Announcer.announceDone k (Regions.announceToRegion ch text w))
  | TAutoDismiss id => Ok (Visual.dismissVisualFeedback id w)
  | TRemoveVisual id => Ok (Visual.removeFired id w)
  end.

(** One turn of the host: a [notify] call at a time, the next timer, or a
    call of [dismissVisualFeedback] (the API, or a toast's button). *)
Inductive Step :=
| Call (at_ : Z) (message : string) (type : FeedbackType) (options : FeedbackOptions) (rnd : string)
| Fire
| Dismiss (at_ : Z) (id : string).

(** [None]: the turn cannot happen (time would run backwards, or there
    is no timer to fire). *)
Definition step (fuel : nat) (s : Step) (w : World) : option (Res World) :=
  match s with
  | Call t message type options rnd =>
      if t <? now w then None
      else Some (snd <$> Notify.notify message type options rnd (set_now t w))
  | Fire =>
      match earliest (timers w) with
      | None => None
      | Some tm =>
          Some (runTask fuel (tm_task tm)
                  (clearTimeout (tm_id tm) (set_now (Z.max (now w) (tm_due tm)) w)))
      end
  | Dismiss t id =>
      if t <? now w then None
      else Some (Ok (Visual.dismissVisualFeedback id (set_now t w)))
  end.

Fixpoint run (fuel : nat) (l : list Step) (w : World) : option (Res World) :=
  match l with
  | [] => Some (Ok w)
  | s :: r =>
      match step fuel s w with
      | Some (Ok w') => run fuel r w'
      | other => other
      end
  end.

(** The state of a freshly loaded page with the library's default
    configuration. *)
Definition initial : World :=
  {| now := 0;
     config := DEFAULT_CONFIG;
     dom := {| dom_available := true; dom_body := []; dom_page := ∅;
               dom_activeElement := None; dom_reducedMotion := false |};
     regions := {| politeRegion := None; assertiveRegion := None; isInitialized := false |};
     announcer := {| lastPoliteMessage := None; lastAssertiveMessage := None;
                     lastPoliteTimestamp := 0; lastAssertiveTimestamp := 0;
                     zwcCounter := 0;
                     politeDebounceTimer := None; assertiveDebounceTimer := None |};
     dedupe := {| recentMessages := ∅; activeEvents := ∅ |};
     visual := {| container := false; stylesInjected := false;
                  activeItems := []; dismissTimers := ∅ |};
     listeners := ∅;
     feedbackLog := [];
     timers := [];
     nextTimerId := 1;
     console := [];
     trace := {| domLog := []; deliveries := []; emitted := []; returned := [] |};
     locales := list_to_map BUILTIN_LOCALES |}.

End Loop.

(** ** Vocabulary of the statements *)

(** The event a [processFeedback] call hands to its caller. *)
Definition progress_event (p : Notify.Progress) : FeedbackEvent :=
  match p with
  | Notify.Skipped d => d
  | Notify.Awaiting o => o
  end.

(** The continuation a timer carries, and the text it will write. *)
Definition task_pending (t : Task) : option Pending :=
  match t with
  | TDebounce _ _ k | TClearDelay _ _ k => Some k
  | _ => None
  end.

Definition task_text (t : Task) : option string :=
  match t with
  | TDebounce _ text _ | TClearDelay _ text _ => Some text
  | _ => None
  end.

(** The console errors a list of subscribers causes when called with
    [(e, t)]: one per callback that throws. *)
Definition listenerErrors (tag e : string) (t : Payload) (l : list Listener) : list ConsoleEntry :=
  flat_map (fun r => match behave r e t with
                     | Returned => []
                     | Threw c => [CError tag c]
                     end) l.

Definition calls (e : string) (t : Payload) (l : list Listener) : list (nat * string * Payload) :=
  map (fun r => (lid r, e, t)) l.

(** The subscribers [emit(e, ...)] calls: those of [e], then the wildcard
    ones. *)
Definition subscribers (e : string) (lst : gmap string (list Listener)) : list Listener :=
  default [] (lst !! e) ++ default [] (lst !! "*").

Definition emitCalls (lst : gmap string (list Listener)) (et : string * Payload)
    : list (nat * string * Payload) :=
  calls (fst et) (snd et) (subscribers (fst et) lst).

Definition emitErrors (lst : gmap string (list Listener)) (et : string * Payload)
    : list ConsoleEntry :=
  listenerErrors (Events.listenerErrorTag (fst et)) (fst et) (snd et)
    (default [] (lst !! fst et))
  ++ listenerErrors "[a11y-feedback] Wildcard listener error:" (fst et) (snd et)
       (default [] (lst !! "*")).

(** What the continuation of a call emits: [l] is whether visual feedback
    was shown and [c] whether the visual container is in the document. *)
Definition tailEmits (k : Pending) (l c : bool) (w : World) : list (string * Payload) :=
  (if Events.hasListeners "announced" w || Events.hasListeners "replaced" w
   then [match p_replacedEvent k with
         | Some prev => ("replaced", PReplaced (p_event k) prev)
         | None => ("announced", PAnnounced (p_event k) (ev_ariaLive (p_event k)))
         end]
   else [])
  ++ (if moved (p_focus k) && Events.hasListeners "focusMoved" w
      then [("focusMoved", PFocusMoved (p_event k) (default "" (target (p_focus k)))
                             (elementName (p_focus k)))]
      else [])
  ++ (if l && Events.hasListeners "visualShown" w && c
      then [("visualShown", PVisualShown (p_event k))]
      else []).

(** The debug log after [logFeedbackEvent]. *)
Definition pushLog (o : FeedbackLogEntry) (b : list FeedbackLogEntry) : list FeedbackLogEntry :=
  Debug.shiftWhileOver (length (b ++ [o])) (b ++ [o]).

Definition tailLogEntry (k : Pending) (l : bool) : FeedbackLogEntry :=
  {| log_event := p_event k;
     log_action := if bool_decide (p_replacedEvent k <> None) then "replaced" else "announced";
     log_region := Some (ev_ariaLive (p_event k));
     log_focusMoved := moved (p_focus k);
     log_focusTarget := target (p_focus k);
     log_focusBlocked := blockedReason (p_focus k);
     log_visualShown := l |}.

Definition debugEntries (w : World) (tags : list string) : list ConsoleEntry :=
  if cfg_debug (config w) then map CWarn tags else [].

(** Traces extend by concatenation, field by field. *)
Definition trace_add (a b : Trace) : Trace :=
  {| domLog := domLog a ++ domLog b;
     deliveries := deliveries a ++ deliveries b;
     emitted := emitted a ++ emitted b;
     returned := returned a ++ returned b |}.

Definition emptyTrace : Trace :=
  {| domLog := []; deliveries := []; emitted := []; returned := [] |}.

Definition domDelta (ws : list DomWrite) : Trace :=
  {| domLog := ws; deliveries := []; emitted := []; returned := [] |}.

(** What a sequence of [emit] calls adds to the trace. *)
Definition emitDelta (lst : gmap string (list Listener)) (ems : list (string * Payload)) : Trace :=
  {| domLog := [];
     deliveries := flat_map (emitCalls lst) ems;
     emitted := ems;
     returned := [] |}.

Definition returnedDelta (e : FeedbackEvent) : Trace :=
  {| domLog := []; deliveries := []; emitted := []; returned := [e] |}.

(** What the continuation of a call adds to the trace (the emissions and
    the resolved promise) and to the console. *)
Definition tailDelta (k : Pending) (l : bool) (w : World) : Trace :=
  trace_add (emitDelta (listeners w) (tailEmits k l (container (visual w)) w))
            (returnedDelta (p_event k)).

Definition tailConsole (k : Pending) (l : bool) (w : World) : list ConsoleEntry :=
  debugEntries w ["[a11y-feedback] " +:+ log_action (tailLogEntry k l)]
  ++ flat_map (emitErrors (listeners w)) (tailEmits k l (container (visual w)) w).

(** [w'] differs from [w] at most in the visual layer's state and in the
    timer table. *)
Definition visual_only (w w' : World) : Prop :=
  exists v t n, w' = set_visual v (set_timers t n w).

(** The deliveries and the emissions of one event name. *)
Definition delivered (topic : string) (w : World) : list (nat * string * Payload) :=
  List.filter (fun d => String.eqb (snd (fst d)) topic) (deliveries (trace w)).


(** The live regions need no further initialisation: there is no
    document, or both regions are in place. *)
Definition settled (w : World) : Prop :=
  dom_available (dom w) = false \/
  (isInitialized (regions w) = true /\
   politeRegion (regions w) <> None /\ assertiveRegion (regions w) <> None).

(** The world [ensureRegions] leaves. *)
Definition ensured (w : World) : World := snd (Regions.ensureRegions w).

(** The document and the console [handleFocus] leaves. *)
Definition focusDom (e : FeedbackEvent) (w : World) : Dom := dom (snd (Focus.handleFocus e w)).
Definition focusConsole (e : FeedbackEvent) (w : World) : list ConsoleEntry :=
  console (snd (Focus.handleFocus e w)).

(** Whether [announce] appends an invisible character, the text it
    schedules, the announcer state it leaves and the continuation it stores. *)
Definition announceForced (e : FeedbackEvent) (w : World) : bool :=
  bool_decide (opt_force (ev_options e) = Some true)
  || bool_decide (Some (ev_message e) = Announcer.lastMessage (ev_ariaLive e) (announcer w)).

Definition announceText (e : FeedbackEvent) (w : World) : string :=
  if announceForced e w
  then ev_message e +:+ getZeroWidthChar (zwcCounter (announcer w))
  else ev_message e.

Definition bumpCounter (b : bool) (g : AnnouncerState) : AnnouncerState :=
  {| lastPoliteMessage := lastPoliteMessage g;
     lastAssertiveMessage := lastAssertiveMessage g;
     lastPoliteTimestamp := lastPoliteTimestamp g;
     lastAssertiveTimestamp := lastAssertiveTimestamp g;
     zwcCounter := if b then (zwcCounter g + 1)%N else zwcCounter g;
     politeDebounceTimer := politeDebounceTimer g;
     assertiveDebounceTimer := assertiveDebounceTimer g |}.

Definition pendingOf (e o : FeedbackEvent) (rep : option FeedbackEvent) (focus : FocusResult)
    (w : World) : Pending :=
  {| p_event := o; p_spoken := e; p_forced := announceForced e w;
     p_replacedEvent := rep; p_focus := focus |}.

(** The timer table after [clearTimeout] of an optional handle. *)
Definition cancel (r : option nat) (l : list Timer) : list Timer :=
  match r with
  | Some r => List.filter (fun t => negb (Nat.eqb (tm_id t) r)) l
  | None => l
  end.

(** The dedupe state after [registerEvent(o)] and [recordMessage]. *)
Definition recorded (o : FeedbackEvent) (w : World) : DedupeState :=
  {| recentMessages :=
       filter (fun kv => ¬ (kv.2 < now w - DEDUPE_WINDOW_MS * 2))
         (<[Dedupe.generateKey (ev_message o) (ev_type o) := now w]> (recentMessages (dedupe w)));
     activeEvents := <[ev_id o := o]> (activeEvents (dedupe w)) |}.

(** The region a channel writes to, and the writes of one
    [announceToRegion]. *)
Definition regionOf (ch : Politeness) (w : World) : option nat :=
  fst (Regions.getRegion ch w).

Definition regionWrites (ch : Politeness) (t : string) (w : World) : list DomWrite :=
  match regionOf ch w with
  | Some _ => [ {| dw_channel := ch; dw_time := now w; dw_text := "" |};
                {| dw_channel := ch; dw_time := now w; dw_text := t |} ]
  | None => []
  end.

(** The log entry and the trace of a skipped call. *)
Definition skipLogEntry (d : FeedbackEvent) : FeedbackLogEntry :=
  {| log_event := d; log_action := "deduped"; log_region := None;
     log_focusMoved := false; log_focusTarget := None; log_focusBlocked := None;
     log_visualShown := false |}.

Definition skipEmits (d : FeedbackEvent) (w : World) : list (string * Payload) :=
  if Events.hasListeners "deduped" w then [("deduped", PDeduped d "duplicate")] else [].

(** The options [{ force: true }]. *)
Definition forceOnly : FeedbackOptions :=
  {| opt_id := None; opt_focus := None; opt_explainFocus := None;
     opt_force := Some true; opt_timeout := None; opt_className := None |}.

Definition noFocus : FocusResult :=
  {| moved := false; target := None; elementName := None; blockedReason := None |}.

(** The options [{ id: i }]. *)
Definition withId (i : string) : FeedbackOptions :=
  {| opt_id := Some i; opt_focus := None; opt_explainFocus := None;
     opt_force := None; opt_timeout := None; opt_className := None |}.

(** The options [{ focus: f }], and a page with one text input that takes
    focus when asked. *)
Definition withFocus (f : string) : FeedbackOptions :=
  {| opt_id := None; opt_focus := Some f; opt_explainFocus := None;
     opt_force := None; opt_timeout := None; opt_className := None |}.

Definition textInput : PageElement :=
  {| el_tagName := "INPUT"; el_disabled := false; el_tabindex := None;
     el_hasHref := false; el_isContentEditable := false;
     el_accessibleName := "Email"; el_focus := FocusTakes |}.

Definition formPage : World :=
  Focus.set_page {[ "#email" := textInput ]} None Loop.initial.

(** The id of the event a [Call] step creates, and the ids of the calls of
    a schedule. *)
Definition callId (t : Z) (options : FeedbackOptions) (rnd : string) : string :=
  default (generateId t rnd) (opt_id options).

Definition stepIds (s : Loop.Step) : list string :=
  match s with
  | Loop.Call t _ _ options rnd => [callId t options rnd]
  | _ => []
  end.

(** The visual layer is off and has nothing on screen or under way: no
    visual mode, no item, no removal timer. *)
Definition quiet (w : World) : Prop :=
  cfg_visual (config w) = false /\
  activeItems (visual w) = [] /\
  forall tm id, tm ∈ timers w -> tm_task tm <> TRemoveVisual id.

(** A page on which one success message has been announced and its write
    has been flushed; used as a concrete starting point. *)
Definition afterSaved : World :=
  match Loop.run 0 [Loop.Call 1000 "Saved" success noOptions "r1"; Loop.Fire] Loop.initial with
  | Some (Ok w) => w
  | _ => Loop.initial
  end.

(** The same page after a later, different message. *)
Definition afterDone : World :=
  match Loop.run 0 [Loop.Call 9000 "Done" info noOptions "r2"; Loop.Fire] afterSaved with
  | Some (Ok w) => w
  | _ => afterSaved
  end.

(** A subscriber that returns normally, and a freshly loaded page with one
    such subscriber of [announced] and one of [deduped]. *)
Definition observer (n : nat) : Listener :=
  {| lid := n; behave := fun _ _ => Returned |}.


(** A subscriber whose callback throws, and a freshly loaded page (debug
    mode off) where such a subscriber of [announced] is registered ahead of a
    well-behaved one and of a well-behaved wildcard subscriber. *)
Definition thrower (n : nat) : Listener :=
  {| lid := n; behave := fun _ _ => Threw "boom" |}.

Definition throwingPage : World :=
  Events.onAnyFeedback (observer 3)
    (Events.onFeedback "announced" (observer 2)
       (Events.onFeedback "announced" (thrower 1) Loop.initial)).

(** Nothing is pending, the visual layer is off and there is a document. *)
Definition idle (w : World) : Prop :=
  timers w = [] /\ cfg_visual (config w) = false /\ dom_available (dom w) = true.

(** The module configuration as a whole; [configureFeedback] replaces it. *)
Definition set_config (c : FeedbackConfig) (w : World) : World :=
  {| now := now w; config := c; dom := dom w; regions := regions w;
     announcer := announcer w; dedupe := dedupe w; visual := visual w;
     listeners := listeners w; feedbackLog := feedbackLog w;
     timers := timers w; nextTimerId := nextTimerId w;
     console := console w; trace := trace w; locales := locales w |}.

(** A freshly loaded page after [configureFeedback({ visual: true,
    maxVisualItems: n })]. *)
Definition visualPage (n : Z) : World :=
  set_config {| cfg_visual := true; cfg_defaultTimeout := Finite 5000;
                cfg_maxVisualItems := n; cfg_debug := false;
                cfg_regionPrefix := "a11y-feedback";
                cfg_locale := None; cfg_translations := None |} Loop.initial.

(** One [error] toast on screen ([scheduleAutoDismiss] starts no timer for
    an error). *)
Definition oneToast : World :=
  match Loop.run 0 [Loop.Call 1000 "Failed" error noOptions "r1"; Loop.Fire] (visualPage 1) with
  | Some (Ok w) => w
  | _ => visualPage 1
  end.

(** ** Queries on the debug log ([debug.ts]) *)

Module DebugLog.

(** [getFeedbackLog] ([rt]): a copy of the log. *)
Definition getFeedbackLog (w : World) : list FeedbackLogEntry := feedbackLog w.

(** [clearFeedbackLog] ([st]): [b.length = 0]. *)
Definition clearFeedbackLog (w : World) : World := set_feedbackLog [] w.

(** [Array.prototype.slice(start)] for an integer [start]: a negative
    [start] counts from the end. *)
Definition slice {A : Type} (start : Z) (b : list A) : list A :=
  let len := Z.of_nat (length b) in
  let k := if start <? 0 then Z.max (len + start) 0 else Z.min start len in
  drop (Z.to_nat k) b.

(** [getRecentFeedback] ([ut]): [b.slice(-e)], with [e = 10] when the
    argument is left out; [e] is an integer. *)
Definition getRecentFeedback (e : option Z) (w : World) : list FeedbackLogEntry :=
  slice (- default 10 e) (feedbackLog w).

(** [getFeedbackByType] ([ft]) and [getFeedbackByAction] ([mt]). *)
Definition getFeedbackByType (e : FeedbackType) (w : World) : list FeedbackLogEntry :=
  List.filter (fun t => bool_decide (ev_type (log_event t) = e)) (feedbackLog w).

Definition getFeedbackByAction (e : string) (w : World) : list FeedbackLogEntry :=
  List.filter (fun t => String.eqb (log_action t) e) (feedbackLog w).

Record FeedbackStats := {
  st_total : nat;
  st_byType : gmap string nat;
  st_byAction : gmap string nat;
  st_focusMoved : nat;
  st_visualShown : nat;
  st_deduped : nat;
  st_replaced : nat
}.

(** [e[l] = (e[l] ?? 0) + 1] *)
Definition bump (k : string) (m : gmap string nat) : gmap string nat :=
  <[k := S (default 0%nat (m !! k))]> m.

(** One turn of the loop of [getFeedbackStats]. *)
Definition countEntry (a : FeedbackStats) (s : FeedbackLogEntry) : FeedbackStats :=
  {| st_total := st_total a;
     st_byType := bump (typeName (ev_type (log_event s))) (st_byType a);
     st_byAction := bump (log_action s) (st_byAction a);
     st_focusMoved := if log_focusMoved s then S (st_focusMoved a) else st_focusMoved a;
     st_visualShown := if log_visualShown s then S (st_visualShown a) else st_visualShown a;
     st_deduped := if ev_deduped (log_event s) then S (st_deduped a) else st_deduped a;
     st_replaced := if ev_replaced (log_event s) then S (st_replaced a) else st_replaced a |}.

(** [getFeedbackStats] ([dt]) *)
Definition getFeedbackStats (w : World) : FeedbackStats :=
  foldl countEntry
    {| st_total := length (feedbackLog w); st_byType := ∅; st_byAction := ∅;
       st_focusMoved := 0; st_visualShown := 0; st_deduped := 0; st_replaced := 0 |}
    (feedbackLog w).

End DebugLog.

(** The library loaded where there is no document. *)
Definition serverPage : World :=
  set_dom {| dom_available := false; dom_body := []; dom_page := ∅;
             dom_activeElement := None; dom_reducedMotion := false |} Loop.initial.

(** ** The rest of the event bus ([events.ts]) *)

Module EventBus.

(** [offFeedback] ([pt]): without an argument [u.clear()], with one
    [u.delete(e)]. *)
Definition offFeedback (e : option string) (w : World) : World :=
  set_listeners (match e with
                 | None => ∅
                 | Some e => delete e (listeners w)
                 end) w.

(** [getListenerCount] ([vt]): the sizes of all sets added up, or the size
    of the set of [e] ([0] when there is none). *)
Definition countAll (m : gmap string (list Listener)) : nat :=
  map_fold (fun _ n t => (t + length n)%nat) 0%nat m.

Definition getListenerCount (e : option string) (w : World) : nat :=
  match e with
  | None => countAll (listeners w)
  | Some e => length (default [] (listeners w !! e))
  end.

End EventBus.

(** ** The rest of the visual layer's interface ([visual.ts]) *)

Module VisualApi.

(** [dismissAllVisualFeedback] ([be]): [for (const e of k.keys()) $(e)];
    dismissing changes no key of the map, so the loop visits the ids that
    were there when it started, in insertion order. *)
Definition dismissAllVisualFeedback (w : World) : World :=
  foldl (fun w id => Visual.dismissVisualFeedback id w) w (map fst (activeItems (visual w))).

(** [getActiveVisualCount] ([tt]): [k.size]. *)
Definition getActiveVisualCount (w : World) : nat := length (activeItems (visual w)).

End VisualApi.

(** The handles in [dismissTimers] are ids that [setTimeout] has handed
    out. *)
Definition handles_issued (w : World) : Prop :=
  forall j n, dismissTimers (visual w) !! j = Some n -> (n < nextTimerId w)%nat.

(** Two [success] toasts on screen, each with its dismissal timer. *)
Definition twoToasts : World :=
  match Loop.run 0 [Loop.Call 1000 "Saved" success noOptions "r1"; Loop.Fire;
                    Loop.Call 2000 "Sent" success noOptions "r2"; Loop.Fire] (visualPage 5) with
  | Some (Ok w) => w
  | _ => visualPage 5
  end.

(** ** Reading an id back

    The value of a string of base-36 digits, most significant first; the
    inverse of [toString36], used to tell generated ids apart. *)
Definition digitValue (c : ascii) : Z :=
  let k := Z.of_N (N_of_ascii c) in
  if k <? 58 then k - 48 else k - 87.

Fixpoint value36 (acc : Z) (s : string) : Z :=
  match s with
  | EmptyString => acc
  | String c r => value36 (36 * acc + digitValue c) r
  end.

Fixpoint hasDash (s : string) : bool :=
  match s with
  | EmptyString => false
  | String c r => Ascii.eqb c "-" || hasDash r
  end.

(** ** Type guards ([validation.ts])

    The guards take any JavaScript value. *)
#[warnings="-register-all"] Inductive JsVal :=
| JUndefined
| JNull
| JBool (b : bool)
| JNumber (n : jsnum)
| JString (s : string)
| JFunction
| JObject (props : list (string * JsVal)).

Module Validation.

(** [typeof e] *)
Definition typeof (e : JsVal) : string :=
  match e with
  | JUndefined => "undefined"
  | JNull => "object"
  | JBool _ => "boolean"
  | JNumber _ => "number"
  | JString _ => "string"
  | JFunction => "function"
  | JObject _ => "object"
  end.

(** [t.k] on a value that is an object. *)
Definition prop (k : string) (t : JsVal) : JsVal :=
  match t with
  | JObject props =>
      match List.find (fun kv => String.eqb (fst kv) k) props with
      | Some kv => snd kv
      | None => JUndefined
      end
  | _ => JUndefined
  end.

Definition isUndefined (e : JsVal) : bool :=
  match e with JUndefined => true | _ => false end.

Definition isNull (e : JsVal) : bool :=
  match e with JNull => true | _ => false end.

(** [Array.prototype.includes] on an array of strings. *)
Definition includes (l : list string) (e : JsVal) : bool :=
  match e with
  | JString s => existsb (String.eqb s) l
  | _ => false
  end.

(** [isFeedbackType] ([Ct]) *)
Definition isFeedbackType (e : JsVal) : bool :=
  String.eqb (typeof e) "string"
  && includes ["success"; "error"; "warning"; "info"; "loading"] e.

(** [isFeedbackOptions] ([Mt]) *)
Definition isFeedbackOptions (e : JsVal) : bool :=
  if negb (String.eqb (typeof e) "object") || isNull e then false
  else
    let t := e in
    negb ((negb (isUndefined (prop "id" t)) && negb (String.eqb (typeof (prop "id" t)) "string"))
          || (negb (isUndefined (prop "focus" t))
              && negb (String.eqb (typeof (prop "focus" t)) "string"))
          || (negb (isUndefined (prop "explainFocus" t))
              && negb (String.eqb (typeof (prop "explainFocus" t)) "boolean"))
          || (negb (isUndefined (prop "force" t))
              && negb (String.eqb (typeof (prop "force" t)) "boolean"))
          || (negb (isUndefined (prop "timeout" t))
              && negb (String.eqb (typeof (prop "timeout" t)) "number"))).

(** A [FeedbackOptions] as the object a caller writes: the fields that
    are set, in the order of the interface. *)
Definition field {A : Type} (k : string) (f : A -> JsVal) (v : option A) : list (string * JsVal) :=
  match v with Some a => [(k, f a)] | None => [] end.

Definition optionsObject (o : FeedbackOptions) : JsVal :=
  JObject (field "id" JString (opt_id o) ++ field "focus" JString (opt_focus o)
           ++ field "explainFocus" JBool (opt_explainFocus o)
           ++ field "force" JBool (opt_force o)
           ++ field "timeout" JNumber (opt_timeout o)
           ++ field "className" JString (opt_className o)).

(** An optional field as the value read from an object. *)
Definition optional {A : Type} (f : A -> JsVal) (v : option A) : JsVal :=
  match v with Some a => f a | None => JUndefined end.

End Validation.

(** * Properties *)

(** ** Records are determined by their fields *)

Lemma set_trace_id w : set_trace (trace w) w = w.
Proof. by destruct w. Qed.

Lemma set_console_id w : set_console (console w) w = w.
Proof. by destruct w. Qed.

Lemma set_trace_set_trace t t' w : set_trace t (set_trace t' w) = set_trace t w.
Proof. reflexivity. Qed.

Lemma set_console_set_console c c' w : set_console c (set_console c' w) = set_console c w.
Proof. reflexivity. Qed.

Lemma set_trace_set_console t c w :
  set_trace t (set_console c w) = set_console c (set_trace t w).
Proof. reflexivity. Qed.

Lemma trace_add_empty t : trace_add t emptyTrace = t.
Proof. destruct t. unfold trace_add. simpl. by rewrite !app_nil_r. Qed.

Lemma trace_add_assoc a b c : trace_add (trace_add a b) c = trace_add a (trace_add b c).
Proof. unfold trace_add. simpl. by rewrite <- !app_assoc. Qed.

Lemma emitDelta_nil lst : emitDelta lst [] = emptyTrace.
Proof. reflexivity. Qed.

Lemma emitDelta_app lst a b :
  trace_add (emitDelta lst a) (emitDelta lst b) = emitDelta lst (a ++ b).
Proof. unfold trace_add, emitDelta. simpl. by rewrite !flat_map_app. Qed.

Lemma emitDelta_app_assoc lst a b x :
  trace_add (emitDelta lst a) (trace_add (emitDelta lst b) x)
  = trace_add (emitDelta lst (a ++ b)) x.
Proof. by rewrite <- trace_add_assoc, emitDelta_app. Qed.

Ltac wsimpl :=
  cbn [now config dom regions announcer dedupe visual listeners feedbackLog timers
       nextTimerId console trace locales set_now set_dom set_regions set_announcer set_dedupe
       set_visual set_listeners set_feedbackLog set_timers set_console set_trace
       domLog deliveries emitted returned
       log_domWrite log_console log_delivery log_emitted log_returned
       mbind mret fmap Res_bind Res_ret Res_fmap fst snd
       from_option option_fmap option_bind option_map id] in *.

(** ** Event bus *)

Section EventBus.

Variables (e : string) (t : Payload).

(** A guarded iteration calls every subscriber and never throws. *)
Lemma forEach_guarded tag l w :
  forEach (fun r w => tryCatch (Events.callListener r e t w)
                        (fun c w => Ok (log_console (CError tag c) w))) l w
  = Ok (set_console (console w ++ listenerErrors tag e t l)
          (set_trace {| domLog := domLog (trace w);
                        deliveries := deliveries (trace w) ++ calls e t l;
                        emitted := emitted (trace w);
                        returned := returned (trace w) |} w)).
Proof.
  revert w. induction l as [|r l IH]; intros w; simpl.
  - rewrite !app_nil_r. destruct w as [? ? ? ? ? ? ? ? ? ? ? ? []]; reflexivity.
  - unfold Events.callListener. destruct (behave r e t) eqn:Hb; simpl; rewrite IH; simpl;
      unfold log_console, log_delivery, set_console, set_trace; simpl;
      rewrite <- ?app_assoc; reflexivity.
Qed.

(** An unguarded iteration stops at the first subscriber that throws. *)
Lemma forEach_unguarded_aborts r l c w :
  behave r e t = Threw c ->
  forEach (fun r w => Events.callListener r e t w) (r :: l) w
  = Uncaught c (log_delivery (lid r) e t w).
Proof. intros Hb. simpl. unfold Events.callListener. rewrite Hb. reflexivity. Qed.

Lemma emit_spec w :
  Events.emit e t w
  = Ok (set_console (console w ++ emitErrors (listeners w) (e, t))
          (set_trace (trace_add (trace w) (emitDelta (listeners w) [(e, t)])) w)).
Proof.
  unfold Events.emit, trace_add, emitDelta, emitErrors, emitCalls, subscribers, calls. simpl.
  rewrite map_app, !app_nil_r.
  destruct (listeners w !! e) as [n|] eqn:Hn; simpl.
  - rewrite forEach_guarded. simpl.
    destruct (listeners w !! "*") as [o|] eqn:Ho; simpl.
    + rewrite forEach_guarded. simpl. unfold calls, set_console, set_trace. simpl.
      rewrite <- !app_assoc. reflexivity.
    + unfold set_console, set_trace. simpl. rewrite !app_nil_r. reflexivity.
  - destruct (listeners w !! "*") as [o|] eqn:Ho; simpl.
    + rewrite forEach_guarded. simpl. reflexivity.
    + unfold set_console, set_trace, log_emitted. simpl. rewrite !app_nil_r.
      by destruct w.
Qed.

End EventBus.

(** ** Semantic policy table *)

Lemma createFeedbackEvent_policy message type options now rnd :
  let e := Notify.createFeedbackEvent message type options now rnd in
  ev_type e = type /\
  ev_role e = sem_role (FEEDBACK_SEMANTICS type) /\
  ev_ariaLive e = sem_ariaLive (FEEDBACK_SEMANTICS type) /\
  ev_priority e = sem_priority (FEEDBACK_SEMANTICS type).
Proof. simpl. auto. Qed.

Lemma createRegion_attributes e id :
  getAttribute "role" (Regions.createRegion e id)
    = Some (match e with assertive => "alert" | polite => "status" end) /\
  getAttribute "aria-live" (Regions.createRegion e id) = Some (politenessName e) /\
  getAttribute "aria-atomic" (Regions.createRegion e id) = Some "true" /\
  getAttribute "id" (Regions.createRegion e id) = Some id.
Proof. destruct e; repeat split; reflexivity. Qed.

(** The timer [announce] leaves behind carries the event it was given. *)
Lemma announce_carries_event e o rep focus w :
  exists tm text k,
    tm ∈ timers (Announcer.announce e o rep focus w) /\
    (tm_task tm = TDebounce (ev_ariaLive e) text k \/ tm_task tm = TClearDelay (ev_ariaLive e) text k) /\
    p_event k = o /\ p_spoken k = e /\ p_replacedEvent k = rep /\ p_focus k = focus.
Proof.
  unfold Announcer.announce.
  set (w0 := snd (Regions.ensureRegions w)).
  set (s := bool_decide _ || bool_decide _).
  destruct (if s then _ else _) as [l w1] eqn:Hl.
  destruct (now w1 - _ <? _).
  - unfold Announcer.debouncedAnnounce.
    destruct (Announcer.debounceTimer _ _); simpl;
      eexists _, l, _; (split; [apply elem_of_app; right; apply list_elem_of_singleton; reflexivity|]);
      simpl; auto 10.
  - unfold Announcer.performAnnounce. simpl.
    eexists _, l, _; (split; [apply elem_of_app; right; apply list_elem_of_singleton; reflexivity|]).
    simpl; auto 10.
Qed.

Lemma processFeedback_returns e w :
  exists p w', Notify.processFeedback e w = Ok (p, w') /\
    ev_type (progress_event p) = ev_type e /\
    ev_role (progress_event p) = ev_role e /\
    ev_ariaLive (progress_event p) = ev_ariaLive e /\
    ev_priority (progress_event p) = ev_priority e /\
    ev_id (progress_event p) = ev_id e /\
    (forall o, p = Notify.Awaiting o ->
       exists tm text k, tm ∈ timers w' /\
         (tm_task tm = TDebounce (ev_ariaLive e) text k \/ tm_task tm = TClearDelay (ev_ariaLive e) text k) /\
         p_event k = o).
Proof.
  unfold Notify.processFeedback.
  destruct (Dedupe.checkDeduplication e _) as [t w1].
  destruct (Dedupe.shouldSkip t).
  - destruct (Events.hasListeners "deduped" _); rewrite ?emit_spec; simpl;
      eexists _, _; (split; [reflexivity|]); simpl; repeat split; intros; discriminate.
  - destruct (Focus.handleFocus _ _) as [r w4].
    eexists _, _; split; [reflexivity|]. simpl. repeat split.
    intros o [= <-].
    destruct (announce_carries_event
                (with_message (with_replaced e (bool_decide (Dedupe.replacedEvent t <> None)))
                   (Focus.buildMessageWithFocus (ev_message e)
                      (with_replaced e (bool_decide (Dedupe.replacedEvent t <> None))) r w4))
                (with_replaced e (bool_decide (Dedupe.replacedEvent t <> None)))
                (Dedupe.replacedEvent t) r w4)
      as (tm & text & k & Hin & Htask & Hk & _).
    exists tm, text, k. simpl in Htask. auto.
Qed.


(** ** The visual layer keeps to itself *)

Lemma visual_only_refl w : visual_only w w.
Proof. exists (visual w), (timers w), (nextTimerId w). by destruct w. Qed.

Lemma visual_only_trans w1 w2 w3 :
  visual_only w1 w2 -> visual_only w2 w3 -> visual_only w1 w3.
Proof.
  intros (v & t & n & ->) (v' & t' & n' & ->). exists v', t', n'. reflexivity.
Qed.

Ltac visual_only_now :=
  match goal with
  | |- visual_only ?w ?w' =>
      exists (visual w'), (timers w'), (nextTimerId w'); destruct w; reflexivity
  end.

Lemma dismissVisualFeedback_visual_only e w :
  visual_only w (Visual.dismissVisualFeedback e w).
Proof.
  unfold Visual.dismissVisualFeedback.
  destruct (Visual.items_get e _); [|apply visual_only_refl].
  destruct (dismissTimers (visual w) !! e); visual_only_now.
Qed.

Lemma scheduleAutoDismiss_visual_only e w :
  visual_only w (Visual.scheduleAutoDismiss e w).
Proof.
  unfold Visual.scheduleAutoDismiss.
  destruct (negb _); [apply visual_only_refl|].
  destruct (nullish _ _) as [o|]; [|apply visual_only_refl].
  destruct (shouldNeverAutoDismiss o); [apply visual_only_refl|].
  visual_only_now.
Qed.

Lemma initVisual_visual_only w : visual_only w (Visual.initVisual w).
Proof.
  unfold Visual.initVisual. destruct (_ || _); [apply visual_only_refl|visual_only_now].
Qed.

Lemma set_items_visual_only k w : visual_only w (Visual.set_items k w).
Proof. visual_only_now. Qed.

Lemma evictWhileFull_visual_only fuel : forall w w',
  Visual.evictWhileFull fuel w = Ok w' -> visual_only w w'.
Proof.
  induction fuel as [|f IH]; intros w w'; simpl;
    destruct (_ <=? _); try discriminate; try (intros [= <-]; apply visual_only_refl).
  intros H. apply IH in H. eapply visual_only_trans; [|exact H].
  destruct (head _) as [[o ?]|]; [apply dismissVisualFeedback_visual_only|apply visual_only_refl].
Qed.

Lemma evictWhileFull_no_throw fuel : forall w c w',
  Visual.evictWhileFull fuel w <> Uncaught c w'.
Proof.
  induction fuel as [|f IH]; intros w c w'; simpl; destruct (_ <=? _); try discriminate.
  apply IH.
Qed.

Lemma items_set_length e v k t :
  Visual.items_get e k = Some t -> length (Visual.items_set e v k) = length k.
Proof.
  unfold Visual.items_get. induction k as [|[i x] k IHk]; simpl; [discriminate|].
  destruct (String.eqb i e); simpl; [reflexivity|]. intros H. by rewrite IHk.
Qed.

(** While the container is full the eviction loop makes no progress:
    [dismissVisualFeedback] removes nothing before its timer fires. *)
Lemma dismissVisualFeedback_keeps_size e w :
  length (activeItems (visual (Visual.dismissVisualFeedback e w)))
  = length (activeItems (visual w)) /\
  config (Visual.dismissVisualFeedback e w) = config w.
Proof.
  unfold Visual.dismissVisualFeedback.
  destruct (Visual.items_get e _) as [t|] eqn:Hget; [|done].
  destruct (dismissTimers (visual w) !! e); simpl; split; try reflexivity;
    eapply items_set_length; exact Hget.
Qed.

Lemma evictWhileFull_stalls fuel : forall w,
  cfg_maxVisualItems (config w) <= Z.of_nat (length (activeItems (visual w))) ->
  Visual.evictWhileFull fuel w = OutOfFuel.
Proof.
  induction fuel as [|f IH]; intros w Hfull; simpl;
    (destruct (_ <=? _) eqn:Hc; [|apply Z.leb_gt in Hc; lia]); [reflexivity|].
  apply IH. destruct (head _) as [[o ?]|]; [|exact Hfull].
  destruct (dismissVisualFeedback_keeps_size o w) as [-> ->]. exact Hfull.
Qed.

Lemma evictWhileFull_room fuel w :
  Z.of_nat (length (activeItems (visual w))) < cfg_maxVisualItems (config w) ->
  Visual.evictWhileFull fuel w = Ok w.
Proof.
  intros Hroom. destruct fuel; simpl;
    (destruct (_ <=? _) eqn:Hc; [apply Z.leb_le in Hc; lia|reflexivity]).
Qed.

Lemma showVisualFeedback_spec fuel e w w' :
  Visual.showVisualFeedback fuel e w = Ok w' -> visual_only w w'.
Proof.
  unfold Visual.showVisualFeedback.
  destruct (negb (cfg_visual _)); [intros [= <-]; apply visual_only_refl|].
  destruct (negb (container _)); [intros [= <-]; apply initVisual_visual_only|].
  destruct (Visual.evictWhileFull fuel _) as [w2| |] eqn:Hev; simpl; try discriminate.
  destruct (Visual.classNameThrows e); [discriminate|].
  intros [= <-]. apply evictWhileFull_visual_only in Hev.
  eapply visual_only_trans; [apply initVisual_visual_only|].
  eapply visual_only_trans; [exact Hev|].
  eapply visual_only_trans; [apply set_items_visual_only|apply scheduleAutoDismiss_visual_only].
Qed.

(** [showVisualFeedback] throws for one reason only: a class name that
    [classList.add] refuses. *)
Lemma showVisualFeedback_throws fuel e w c w' :
  Visual.showVisualFeedback fuel e w = Uncaught c w' ->
  cfg_visual (config w) = true /\ Visual.classNameThrows e = true /\
  c = "InvalidCharacterError" /\ visual_only w w'.
Proof.
  unfold Visual.showVisualFeedback.
  destruct (cfg_visual (config w)); cbn [negb]; [|discriminate].
  destruct (negb (container _)); [discriminate|].
  destruct (Visual.evictWhileFull fuel _) as [w2| |] eqn:Hev; simpl; try discriminate.
  - destruct (Visual.classNameThrows e); [|discriminate].
    intros [= <- <-]. apply evictWhileFull_visual_only in Hev.
    repeat split. eapply visual_only_trans; [apply initVisual_visual_only|exact Hev].
  - by apply evictWhileFull_no_throw in Hev.
Qed.

Lemma updateVisualFeedback_spec fuel e w w' :
  Visual.updateVisualFeedback fuel e w = Ok w' -> visual_only w w'.
Proof.
  unfold Visual.updateVisualFeedback.
  destruct (Visual.items_get _ _); [|apply showVisualFeedback_spec].
  intros [= <-].
  eapply visual_only_trans; [|apply scheduleAutoDismiss_visual_only].
  destruct (dismissTimers _ !! _); visual_only_now.
Qed.

Lemma updateVisualFeedback_throws fuel e w c w' :
  Visual.updateVisualFeedback fuel e w = Uncaught c w' ->
  cfg_visual (config w) = true /\ Visual.classNameThrows e = true /\
  c = "InvalidCharacterError" /\ visual_only w w'.
Proof.
  unfold Visual.updateVisualFeedback.
  destruct (Visual.items_get _ _); [discriminate|apply showVisualFeedback_throws].
Qed.

(** ** The continuation of a call *)

Lemma emit_when (b : bool) e t w :
  (if b then Events.emit e t w else Ok w)
  = Ok (set_console (console w ++ flat_map (emitErrors (listeners w)) (if b then [(e, t)] else []))
          (set_trace (trace_add (trace w)
                        (emitDelta (listeners w) (if b then [(e, t)] else []))) w)).
Proof.
  destruct b.
  - rewrite emit_spec. cbn [flat_map]. by rewrite app_nil_r.
  - cbn [flat_map]. by rewrite emitDelta_nil, trace_add_empty, app_nil_r, set_trace_id, set_console_id.
Qed.

Lemma hasListeners_set_trace e t w :
  Events.hasListeners e (set_trace t w) = Events.hasListeners e w.
Proof. reflexivity. Qed.

Lemma hasListeners_set_console e c w :
  Events.hasListeners e (set_console c w) = Events.hasListeners e w.
Proof. reflexivity. Qed.

Lemma hasListeners_set_feedbackLog e l w :
  Events.hasListeners e (set_feedbackLog l w) = Events.hasListeners e w.
Proof. reflexivity. Qed.

Lemma log_returned_spec e w :
  log_returned e w = set_trace (trace_add (trace w) (returnedDelta e)) w.
Proof. unfold log_returned, trace_add. simpl. by rewrite !app_nil_r. Qed.

Lemma debugWarn_spec tag w :
  debugWarn tag w = set_console (console w ++ debugEntries w [tag]) w.
Proof.
  unfold debugWarn, debugEntries. destruct (cfg_debug (config w)); [reflexivity|].
  by rewrite app_nil_r, set_console_id.
Qed.

(** After the visual step, the continuation logs, emits and resolves; the
    emissions are those of [tailEmits], each delivered to its subscribers. *)
Lemma visualShown_step (l : bool) o w :
  l && Events.hasListeners "visualShown" w && negb (dom_available (dom w)) = false ->
  (if l && Events.hasListeners "visualShown" w
   then if negb (dom_available (dom w)) then Uncaught "ReferenceError" w
        else if container (visual w)
             then Events.emit "visualShown" (PVisualShown o) w
             else Ok w
   else Ok w)
  = (if l && Events.hasListeners "visualShown" w && container (visual w)
     then Events.emit "visualShown" (PVisualShown o) w else Ok w).
Proof.
  destruct l, (Events.hasListeners "visualShown" w), (dom_available (dom w)),
    (container (visual w)); cbn; intros H; try reflexivity; discriminate.
Qed.

Lemma processTail_after_visual k l w :
  l && Events.hasListeners "visualShown" w && negb (dom_available (dom w)) = false ->
  let w2 := Debug.logFeedbackEvent (p_event k)
              (if bool_decide (p_replacedEvent k <> None) then "replaced" else "announced")
              (Some (ev_ariaLive (p_event k))) (Some (p_focus k)) (Some l) w in
  (w3 ← (if Events.hasListeners "announced" w2 || Events.hasListeners "replaced" w2
         then match p_replacedEvent k with
              | Some prev => Events.emit "replaced" (PReplaced (p_event k) prev) w2
              | None => Events.emit "announced" (PAnnounced (p_event k) (ev_ariaLive (p_event k))) w2
              end
         else Ok w2);
   w4 ← (if moved (p_focus k) && Events.hasListeners "focusMoved" w3
         then Events.emit "focusMoved"
                (PFocusMoved (p_event k) (default "" (target (p_focus k)))
                   (elementName (p_focus k))) w3
         else Ok w3);
   w5 ← (if l && Events.hasListeners "visualShown" w4
         then if negb (dom_available (dom w4)) then Uncaught "ReferenceError" w4
              else if container (visual w4)
                   then Events.emit "visualShown" (PVisualShown (p_event k)) w4
                   else Ok w4
         else Ok w4);
   Ok (log_returned (p_event k) w5))
  = Ok (set_console (console w ++ tailConsole k l w)
          (set_trace (trace_add (trace w) (tailDelta k l w))
             (set_feedbackLog (pushLog (tailLogEntry k l) (feedbackLog w)) w))).
Proof.
  intros Hdoc w2.
  assert (Hw2 : w2 = set_console
                       (console w ++ debugEntries w ["[a11y-feedback] " +:+ log_action (tailLogEntry k l)])
                       (set_feedbackLog (pushLog (tailLogEntry k l) (feedbackLog w)) w)).
  { unfold w2, Debug.logFeedbackEvent. rewrite debugWarn_spec. reflexivity. }
  clearbody w2. subst w2.
  set (W := set_feedbackLog _ w).
  rewrite !hasListeners_set_console.
  set (c1 := Events.hasListeners "announced" _ || _).
  set (et1 := match p_replacedEvent k with
              | Some prev => ("replaced", PReplaced (p_event k) prev)
              | None => ("announced", PAnnounced (p_event k) (ev_ariaLive (p_event k)))
              end).
  set (C1 := console w ++ _).
  transitivity
    (w3 ← (if c1 then Events.emit (fst et1) (snd et1) (set_console C1 W) else Ok (set_console C1 W));
     w4 ← (if moved (p_focus k) && Events.hasListeners "focusMoved" w3
           then Events.emit "focusMoved"
                  (PFocusMoved (p_event k) (default "" (target (p_focus k)))
                     (elementName (p_focus k))) w3
           else Ok w3);
     w5 ← (if l && Events.hasListeners "visualShown" w4
           then if negb (dom_available (dom w4)) then Uncaught "ReferenceError" w4
                else if container (visual w4)
                     then Events.emit "visualShown" (PVisualShown (p_event k)) w4
                     else Ok w4
           else Ok w4);
     Ok (log_returned (p_event k) w5)).
  { subst et1. destruct c1; [destruct (p_replacedEvent k)|]; reflexivity. }
  rewrite emit_when. cbn [mbind Res_bind].
  rewrite !hasListeners_set_console, !hasListeners_set_trace.
  cbn [listeners visual trace console set_trace set_console].
  rewrite emit_when. cbn [mbind Res_bind].
  rewrite visualShown_step
    by (rewrite !hasListeners_set_console, !hasListeners_set_trace; subst W;
        rewrite hasListeners_set_feedbackLog; exact Hdoc).
  rewrite !hasListeners_set_console, !hasListeners_set_trace.
  cbn [listeners visual trace console set_trace set_console].
  rewrite emit_when. cbn [mbind Res_bind].
  cbn [listeners visual trace console set_trace set_console].
  rewrite log_returned_spec.
  cbn [listeners visual trace console set_trace set_console].
  subst C1 c1 W. rewrite !hasListeners_set_feedbackLog. cbn [listeners visual trace console set_feedbackLog].
  rewrite !trace_add_assoc, !emitDelta_app_assoc.
  unfold tailDelta, tailConsole, tailEmits. rewrite <- !app_assoc, !flat_map_app.
  replace (fst et1, snd et1) with et1 by (by destruct et1).
  reflexivity.
Qed.

(** The world after the continuation's logging and emitting. *)
Lemma processTail_novisual fuel k w :
  cfg_visual (config w) = false ->
  Notify.processTail fuel k w
  = Ok (set_console (console w ++ tailConsole k false w)
          (set_trace (trace_add (trace w) (tailDelta k false w))
             (set_feedbackLog (pushLog (tailLogEntry k false) (feedbackLog w)) w))).
Proof.
  intros Hv. unfold Notify.processTail. rewrite Hv. cbn [mbind Res_bind].
  exact (processTail_after_visual k false w eq_refl).
Qed.

(** Without a document the lookup of the container throws, once the log
    entry is written and the other events are emitted; the promise is not
    resolved. *)
Lemma processTail_after_visual_throws k l w :
  l && Events.hasListeners "visualShown" w && negb (dom_available (dom w)) = true ->
  let w2 := Debug.logFeedbackEvent (p_event k)
              (if bool_decide (p_replacedEvent k <> None) then "replaced" else "announced")
              (Some (ev_ariaLive (p_event k))) (Some (p_focus k)) (Some l) w in
  exists W,
    (w3 ← (if Events.hasListeners "announced" w2 || Events.hasListeners "replaced" w2
           then match p_replacedEvent k with
                | Some prev => Events.emit "replaced" (PReplaced (p_event k) prev) w2
                | None => Events.emit "announced" (PAnnounced (p_event k) (ev_ariaLive (p_event k))) w2
                end
           else Ok w2);
     w4 ← (if moved (p_focus k) && Events.hasListeners "focusMoved" w3
           then Events.emit "focusMoved"
                  (PFocusMoved (p_event k) (default "" (target (p_focus k)))
                     (elementName (p_focus k))) w3
           else Ok w3);
     w5 ← (if l && Events.hasListeners "visualShown" w4
           then if negb (dom_available (dom w4)) then Uncaught "ReferenceError" w4
                else if container (visual w4)
                     then Events.emit "visualShown" (PVisualShown (p_event k)) w4
                     else Ok w4
           else Ok w4);
     Ok (log_returned (p_event k) w5))
    = Uncaught "ReferenceError" W /\
    returned (trace W) = returned (trace w) /\
    feedbackLog W = pushLog (tailLogEntry k l) (feedbackLog w).
Proof.
  intros Hdoc w2.
  assert (Hw2 : w2 = set_console
                       (console w ++ debugEntries w ["[a11y-feedback] " +:+ log_action (tailLogEntry k l)])
                       (set_feedbackLog (pushLog (tailLogEntry k l) (feedbackLog w)) w)).
  { unfold w2, Debug.logFeedbackEvent. rewrite debugWarn_spec. reflexivity. }
  clearbody w2. subst w2.
  set (W := set_feedbackLog _ w).
  rewrite !hasListeners_set_console.
  set (c1 := Events.hasListeners "announced" _ || _).
  set (et1 := match p_replacedEvent k with
              | Some prev => ("replaced", PReplaced (p_event k) prev)
              | None => ("announced", PAnnounced (p_event k) (ev_ariaLive (p_event k)))
              end).
  set (C1 := console w ++ _).
  assert (H1 : (if c1
                then match p_replacedEvent k with
                     | Some prev => Events.emit "replaced" (PReplaced (p_event k) prev)
                                      (set_console C1 W)
                     | None => Events.emit "announced"
                                 (PAnnounced (p_event k) (ev_ariaLive (p_event k)))
                                 (set_console C1 W)
                     end
                else Ok (set_console C1 W))
               = (if c1 then Events.emit (fst et1) (snd et1) (set_console C1 W)
                  else Ok (set_console C1 W))).
  { subst et1. destruct c1; [destruct (p_replacedEvent k)|]; reflexivity. }
  rewrite H1, emit_when. cbn [mbind Res_bind].
  rewrite !hasListeners_set_console, !hasListeners_set_trace.
  cbn [listeners visual trace console set_trace set_console].
  rewrite emit_when. cbn [mbind Res_bind].
  subst W. unfold Events.hasListeners in Hdoc |- *.
  cbn [listeners dom set_console set_trace set_feedbackLog].
  apply andb_prop in Hdoc as [Hl Hd]. rewrite Hl, Hd. cbn [mbind Res_bind].
  eexists. split; [reflexivity|]. wsimpl.
  cbn [trace_add emitDelta returned]. by rewrite !app_nil_r.
Qed.

Lemma processTail_spec fuel k w w' :
  Notify.processTail fuel k w = Ok w' ->
  exists wv, visual_only w wv /\
    w' = set_console (console wv ++ tailConsole k (cfg_visual (config w)) wv)
           (set_trace (trace_add (trace wv) (tailDelta k (cfg_visual (config w)) wv))
              (set_feedbackLog (pushLog (tailLogEntry k (cfg_visual (config w))) (feedbackLog wv)) wv)).
Proof.
  destruct (cfg_visual (config w)) eqn:Hv.
  - unfold Notify.processTail. rewrite Hv.
    destruct (if bool_decide (p_replacedEvent k <> None)
              then Visual.updateVisualFeedback _ _ _ else _) as [wv|c0 w0|] eqn:Hvis;
      cbn [mbind Res_bind]; try discriminate.
    intros H. exists wv. split.
    + eapply visual_only_trans; [apply initVisual_visual_only|].
      destruct (bool_decide _);
        [eapply updateVisualFeedback_spec|eapply showVisualFeedback_spec]; exact Hvis.
    + destruct (true && Events.hasListeners "visualShown" wv && negb (dom_available (dom wv)))
        eqn:Hdoc.
      * destruct (processTail_after_visual_throws k true wv Hdoc) as (W & Hs & _).
        cbv zeta in Hs. rewrite Hs in H. discriminate.
      * pose proof (processTail_after_visual k true wv Hdoc) as Hs. cbv zeta in Hs.
        rewrite Hs in H. by injection H as <-.
  - intros H. exists w. split; [apply visual_only_refl|].
    rewrite (processTail_novisual fuel k w Hv) in H. by injection H as <-.
Qed.

(** The continuation throws for two reasons only, both with visual mode
    on and neither a subscriber's doing: a class name that [classList.add]
    refuses, or the lookup of the container where there is no document. *)
Lemma processTail_throws fuel k w c w' :
  Notify.processTail fuel k w = Uncaught c w' ->
  cfg_visual (config w) = true /\
  ((Visual.classNameThrows (p_event k) = true /\ c = "InvalidCharacterError") \/
   (dom_available (dom w) = false /\ Events.hasListeners "visualShown" w = true /\
    c = "ReferenceError")).
Proof.
  destruct (cfg_visual (config w)) eqn:Hv.
  - intros H. split; [reflexivity|]. revert H. unfold Notify.processTail. rewrite Hv.
    destruct (if bool_decide (p_replacedEvent k <> None)
              then Visual.updateVisualFeedback _ _ _ else _) as [wv|c0 w0|] eqn:Hvis;
      cbn [mbind Res_bind]; try discriminate.
    + assert (Hvo : visual_only w wv).
      { eapply visual_only_trans; [apply initVisual_visual_only|].
        destruct (bool_decide _);
          [eapply updateVisualFeedback_spec|eapply showVisualFeedback_spec]; exact Hvis. }
      destruct (true && Events.hasListeners "visualShown" wv && negb (dom_available (dom wv)))
        eqn:Hdoc.
      * destruct (processTail_after_visual_throws k true wv Hdoc) as (W & Hs & _).
        cbv zeta in Hs. rewrite Hs. intros [= <- <-]. right.
        destruct Hvo as (v & t & n & ->). revert Hdoc. unfold Events.hasListeners. wsimpl.
        intros [Hl Hd]%andb_prop. apply negb_true_iff in Hd. cbn in Hl. by repeat split.
      * pose proof (processTail_after_visual k true wv Hdoc) as Hs. cbv zeta in Hs.
        rewrite Hs. discriminate.
    + intros [= <- <-]. left.
      destruct (bool_decide _);
        [apply updateVisualFeedback_throws in Hvis|apply showVisualFeedback_throws in Hvis];
        by destruct Hvis as (_ & ? & ? & _).
  - rewrite (processTail_novisual fuel k w Hv). discriminate.
Qed.

(** ** The region manager is idempotent *)

Lemma settled_ensureRegions w : settled w -> snd (Regions.ensureRegions w) = w.
Proof.
  unfold settled, Regions.ensureRegions. intros [Hd|(Hi & Hp & Ha)].
  - by rewrite Hd.
  - destruct (negb _); [reflexivity|]. rewrite Hi.
    rewrite !bool_decide_eq_true_2 by assumption. reflexivity.
Qed.

Lemma ensureRegions_settled w : settled (snd (Regions.ensureRegions w)).
Proof.
  unfold settled, Regions.ensureRegions, Regions.appendChild.
  destruct (dom_available (dom w)) eqn:Hd; cbn [negb]; [|left; exact Hd].
  destruct (isInitialized _ && _ && _) eqn:Hc.
  - right. apply andb_prop in Hc as [Hc Ha]. apply andb_prop in Hc as [Hi Hp].
    apply bool_decide_eq_true in Ha, Hp. auto.
  - right. repeat case_match; cbn; by repeat split.
Qed.

Lemma ensureRegions_frame w :
  snd (Regions.ensureRegions w) = set_regions (regions (ensured w)) (set_dom (dom (ensured w)) w).
Proof.
  unfold ensured, Regions.ensureRegions, Regions.appendChild.
  repeat case_match; cbn; by destruct w.
Qed.

Lemma ensured_dom w :
  dom_available (dom (ensured w)) = dom_available (dom w) /\
  dom_page (dom (ensured w)) = dom_page (dom w) /\
  dom_activeElement (dom (ensured w)) = dom_activeElement (dom w) /\
  dom_reducedMotion (dom (ensured w)) = dom_reducedMotion (dom w).
Proof.
  unfold ensured, Regions.ensureRegions, Regions.appendChild.
  repeat case_match; done.
Qed.

(** What [ensureRegions] creates when the document has no region yet. *)
Lemma ensureRegions_creates w :
  dom_available (dom w) = true ->
  isInitialized (regions w) = false ->
  Regions.getElementById (cfg_regionPrefix (config w) +:+ "-" +:+ politenessName polite) (dom w)
    = None ->
  dom_body (dom (ensured w))
  = dom_body (dom w)
    ++ [Regions.createRegion polite (cfg_regionPrefix (config w) +:+ "-" +:+ politenessName polite);
        Regions.createRegion assertive
          (cfg_regionPrefix (config w) +:+ "-" +:+ politenessName assertive)] /\
  politeRegion (regions (ensured w)) = Some (length (dom_body (dom w))) /\
  assertiveRegion (regions (ensured w)) = Some (S (length (dom_body (dom w)))).
Proof.
  intros Hd Hi Hnone. unfold ensured, Regions.ensureRegions.
  rewrite Hd, Hi, Hnone. cbn [negb andb]. unfold Regions.appendChild. wsimpl.
  cbn [dom_body]. rewrite <- app_assoc, length_app. cbn [length app].
  repeat split. cbn [assertiveRegion]. f_equal. lia.
Qed.

(** ** Focus mediation leaves all but the page and the console *)

Lemma handleFocus_frame e w :
  snd (Focus.handleFocus e w) = set_console (focusConsole e w) (set_dom (focusDom e w) w).
Proof.
  unfold focusConsole, focusDom, Focus.handleFocus, Focus.moveFocusToElement.
  unfold debugWarn, Focus.set_page, log_console. wsimpl.
  repeat (case_match; wsimpl); by destruct w.
Qed.

Lemma focusDom_frame e w :
  dom_available (focusDom e w) = dom_available (dom w) /\
  dom_body (focusDom e w) = dom_body (dom w) /\
  dom_reducedMotion (focusDom e w) = dom_reducedMotion (dom w).
Proof.
  unfold focusDom, Focus.handleFocus, Focus.moveFocusToElement.
  unfold debugWarn, Focus.set_page, log_console. wsimpl.
  repeat (case_match; wsimpl); done.
Qed.

Lemma handleFocus_none e w :
  opt_focus (ev_options e) = None ->
  Focus.handleFocus e w
  = ({| moved := false; target := None; elementName := None; blockedReason := None |}, w).
Proof. intros H. unfold Focus.handleFocus. by rewrite H. Qed.

(** ** Registration and recording *)

Lemma registerEvent_frame e w :
  Dedupe.registerEvent e w
  = set_console (console w ++ debugEntries w ["[a11y-feedback] Registered event:"])
      (set_dedupe {| recentMessages := recentMessages (dedupe w);
                     activeEvents := <[ev_id e := e]> (activeEvents (dedupe w)) |} w).
Proof. unfold Dedupe.registerEvent. by rewrite debugWarn_spec. Qed.

Lemma unregisterEvent_frame e w :
  snd (Dedupe.unregisterEvent e w)
  = set_console (console w ++ (if bool_decide (is_Some (activeEvents (dedupe w) !! e))
                               then debugEntries w ["[a11y-feedback] Unregistered event:"]
                               else []))
      (set_dedupe {| recentMessages := recentMessages (dedupe w);
                     activeEvents := delete e (activeEvents (dedupe w)) |} w).
Proof.
  unfold Dedupe.unregisterEvent. cbn [snd].
  destruct (bool_decide _).
  - by rewrite debugWarn_spec.
  - rewrite app_nil_r. by destruct w.
Qed.

(** ** Scheduling an announcement *)

Lemma announce_ensured e o rep focus w :
  Announcer.announce e o rep focus w = Announcer.announce e o rep focus (ensured w).
Proof.
  unfold Announcer.announce. fold (ensured w). fold (ensured (ensured w)).
  assert (H : ensured (ensured w) = ensured w)
    by (apply settled_ensureRegions, ensureRegions_settled).
  by rewrite H.
Qed.

Lemma announce_direct e o rep focus w :
  settled w ->
  ANNOUNCEMENT_DEBOUNCE_MS <= now w - Announcer.lastTimestamp (ev_ariaLive e) (announcer w) ->
  Announcer.announce e o rep focus w
  = set_timers
      (timers w ++ [{| tm_id := nextTimerId w;
                       tm_due := now w + REGION_CLEAR_DELAY_MS;
                       tm_task := TClearDelay (ev_ariaLive e) (announceText e w)
                                    (pendingOf e o rep focus w) |}])
      (S (nextTimerId w))
      (set_announcer (bumpCounter (announceForced e w) (announcer w)) w).
Proof.
  intros Hs Hlate. unfold Announcer.announce. rewrite (settled_ensureRegions w Hs).
  unfold announceText, pendingOf. fold (announceForced e w).
  destruct (announceForced e w); unfold Announcer.injectZeroWidthChar; wsimpl.
  - cbn [Announcer.lastTimestamp zwcCounter]. 
    replace (Announcer.lastTimestamp (ev_ariaLive e) _)
      with (Announcer.lastTimestamp (ev_ariaLive e) (announcer w)) by (by destruct (ev_ariaLive e)).
    destruct (_ <? _) eqn:Hc; [apply Z.ltb_lt in Hc; lia|].
    unfold bumpCounter. reflexivity.
  - destruct (_ <? _) eqn:Hc; [apply Z.ltb_lt in Hc; lia|].
    unfold Announcer.performAnnounce, setTimeout, bumpCounter. wsimpl.
    by destruct w, announcer0.
Qed.

Lemma announce_debounced e o rep focus w :
  settled w ->
  now w - Announcer.lastTimestamp (ev_ariaLive e) (announcer w) < ANNOUNCEMENT_DEBOUNCE_MS ->
  Announcer.announce e o rep focus w
  = set_announcer
      (Announcer.set_debounceTimer (ev_ariaLive e) (Some (nextTimerId w))
         (bumpCounter (announceForced e w) (announcer w)))
      (set_timers
         (cancel (Announcer.debounceTimer (ev_ariaLive e) (announcer w)) (timers w)
          ++ [{| tm_id := nextTimerId w;
                 tm_due := now w + ANNOUNCEMENT_DEBOUNCE_MS;
                 tm_task := TDebounce (ev_ariaLive e) (announceText e w)
                              (pendingOf e o rep focus w) |}])
         (S (nextTimerId w)) w).
Proof.
  intros Hs Hsoon. unfold Announcer.announce. rewrite (settled_ensureRegions w Hs).
  unfold announceText, pendingOf. fold (announceForced e w).
  destruct (announceForced e w); unfold Announcer.injectZeroWidthChar; wsimpl.
  - replace (Announcer.lastTimestamp (ev_ariaLive e) _)
      with (Announcer.lastTimestamp (ev_ariaLive e) (announcer w)) by (by destruct (ev_ariaLive e)).
    destruct (_ <? _) eqn:Hc; [|apply Z.ltb_ge in Hc; lia].
    unfold Announcer.debouncedAnnounce, cancel. wsimpl.
    replace (Announcer.debounceTimer (ev_ariaLive e) _)
      with (Announcer.debounceTimer (ev_ariaLive e) (announcer w)) by (by destruct (ev_ariaLive e)).
    destruct (Announcer.debounceTimer _ _); reflexivity.
  - destruct (_ <? _) eqn:Hc; [|apply Z.ltb_ge in Hc; lia].
    unfold Announcer.debouncedAnnounce, cancel, bumpCounter.
    destruct (Announcer.debounceTimer _ _); cbn; destruct w, announcer0, (ev_ariaLive e); reflexivity.
Qed.

(** ** The decision of the deduplication engine *)

Lemma checkDeduplication_replace e w id t :
  opt_id (ev_options e) = Some id -> id <> "" ->
  activeEvents (dedupe w) !! id = Some t ->
  Dedupe.checkDeduplication e w
  = ({| Dedupe.shouldSkip := false; Dedupe.replacedEvent := Some t;
        Dedupe.reason := "id_replacement" |},
     debugWarn "[a11y-feedback] Replacing event:" (snd (Dedupe.unregisterEvent id w))).
Proof.
  intros Hid Hne Hact. unfold Dedupe.checkDeduplication, Dedupe.getActiveEvent.
  rewrite Hid. apply String.eqb_neq in Hne. rewrite Hne. cbn [negb]. by rewrite Hact.
Qed.

Lemma checkDeduplication_fresh e w :
  (forall id, opt_id (ev_options e) = Some id ->
              id = "" \/ activeEvents (dedupe w) !! id = None) ->
  Dedupe.checkDeduplication e w
  = if negb (bool_decide (opt_force (ev_options e) = Some true))
       && Dedupe.isDuplicate (ev_message e) (ev_type e) w
    then ({| Dedupe.shouldSkip := true; Dedupe.replacedEvent := None;
             Dedupe.reason := "content_dedupe" |},
          debugWarn "[a11y-feedback] Deduped event:" w)
    else ({| Dedupe.shouldSkip := false; Dedupe.replacedEvent := None;
             Dedupe.reason := "none" |}, w).
Proof.
  intros Hfresh. unfold Dedupe.checkDeduplication, Dedupe.getActiveEvent.
  destruct (opt_id (ev_options e)) as [id|]; [|reflexivity].
  destruct (Hfresh id eq_refl) as [->|Hnone]; [reflexivity|].
  destruct (negb (String.eqb id "")); [by rewrite Hnone|reflexivity].
Qed.

(** ** A call up to its [await] *)

Lemma processFeedback_ensured e w :
  Notify.processFeedback e w = Notify.processFeedback e (ensured w).
Proof.
  unfold Notify.processFeedback. fold (ensured w). fold (ensured (ensured w)).
  assert (H : ensured (ensured w) = ensured w)
    by (apply settled_ensureRegions, ensureRegions_settled).
  by rewrite H.
Qed.

(** The call is skipped: it logs, emits [deduped] and resolves. *)
Lemma processFeedback_skips e w t w1 :
  settled w ->
  Dedupe.checkDeduplication e w = (t, w1) ->
  Dedupe.shouldSkip t = true ->
  Notify.processFeedback e w
  = Ok (Notify.Skipped (with_deduped e true),
        set_console (console w1
                     ++ debugEntries w1 ["[a11y-feedback] deduped"]
                     ++ flat_map (emitErrors (listeners w1)) (skipEmits (with_deduped e true) w1))
          (set_trace (trace_add (trace w1)
                        (trace_add (emitDelta (listeners w1) (skipEmits (with_deduped e true) w1))
                                   (returnedDelta (with_deduped e true))))
             (set_feedbackLog (pushLog (skipLogEntry (with_deduped e true)) (feedbackLog w1)) w1))).
Proof.
  intros Hs Hc Hskip. unfold Notify.processFeedback.
  rewrite (settled_ensureRegions w Hs), Hc, Hskip.
  unfold Debug.logFeedbackEvent. rewrite debugWarn_spec. wsimpl.
  rewrite hasListeners_set_console, hasListeners_set_feedbackLog.
  rewrite emit_when. cbn [mbind Res_bind]. rewrite log_returned_spec.
  unfold skipEmits. wsimpl. rewrite trace_add_assoc, <- app_assoc. reflexivity.
Qed.

(** The focus explanation reads the configuration and the locale table
    only. *)
Lemma buildMessageWithFocus_frame m o r w w' :
  config w' = config w -> locales w' = locales w ->
  Focus.buildMessageWithFocus m o r w' = Focus.buildMessageWithFocus m o r w.
Proof.
  intros Hc Hl.
  unfold Focus.buildMessageWithFocus, Focus.getFocusExplanation, I18n.formatTranslation,
    I18n.getTranslation.
  by rewrite Hc, Hl.
Qed.

(** The call proceeds: the event is registered, its key recorded, focus
    mediated and the announcement scheduled. *)
Lemma processFeedback_proceeds e w t w1 :
  settled w ->
  Dedupe.checkDeduplication e w = (t, w1) ->
  Dedupe.shouldSkip t = false ->
  let o := with_replaced e (bool_decide (Dedupe.replacedEvent t <> None)) in
  let W3 := set_dedupe (recorded o w1)
              (set_console (console w1 ++ debugEntries w1 ["[a11y-feedback] Registered event:"]) w1) in
  let r := fst (Focus.handleFocus o W3) in
  let s := with_message o (Focus.buildMessageWithFocus (ev_message o) o r W3) in
  Notify.processFeedback e w
  = Ok (Notify.Awaiting o,
        Announcer.announce s o (Dedupe.replacedEvent t) r
          (set_console (focusConsole o W3) (set_dom (focusDom o W3) W3))).
Proof.
  intros Hs Hc Hskip o W3 r s. unfold Notify.processFeedback.
  rewrite (settled_ensureRegions w Hs), Hc, Hskip. fold o.
  assert (HW3 : Dedupe.recordMessage (ev_message o) (ev_type o) (Dedupe.registerEvent o w1) = W3).
  { rewrite registerEvent_frame. reflexivity. }
  rewrite HW3.
  destruct (Focus.handleFocus o W3) as [r' w4] eqn:Hf.
  assert (Hr : r' = r) by reflexivity.
  assert (Hw4 : w4 = set_console (focusConsole o W3) (set_dom (focusDom o W3) W3)).
  { rewrite <- handleFocus_frame. by rewrite Hf. }
  rewrite Hr, Hw4.
  rewrite (buildMessageWithFocus_frame _ _ _ W3 (set_console _ _)) by reflexivity.
  reflexivity.
Qed.

(** ** A timer fires *)

Lemma getRegion_settled ch w :
  settled w -> Regions.getRegion ch w = (regionOf ch w, w).
Proof.
  intros Hs. unfold regionOf, Regions.getRegion. rewrite (settled_ensureRegions w Hs).
  by destruct (isInitialized (regions w)).
Qed.

Lemma regionOf_ready ch w :
  settled w -> dom_available (dom w) = true -> regionOf ch w <> None.
Proof.
  intros [Hd|(Hi & Hp & Ha)] Hav; [congruence|].
  unfold regionOf, Regions.getRegion. rewrite Hi. by destruct ch.
Qed.

(** Clearing and writing a region: two assignments, or none when the
    channel has no region. *)
Lemma announceToRegion_frame ch t w :
  settled w ->
  Regions.announceToRegion ch t w
  = set_trace (trace_add (trace w) (domDelta (regionWrites ch t w)))
      (set_dom (dom (Regions.announceToRegion ch t w)) w).
Proof.
  intros Hs. unfold Regions.announceToRegion, regionWrites.
  rewrite (getRegion_settled ch w Hs).
  destruct (regionOf ch w) as [h|].
  - unfold Regions.writeText, log_domWrite, trace_add, domDelta. wsimpl.
    rewrite <- !app_assoc, !app_nil_r. by destruct w.
  - change (domDelta []) with emptyTrace. rewrite trace_add_empty. by destruct w.
Qed.

Lemma announceToRegion_dom ch t w :
  settled w ->
  dom_available (dom (Regions.announceToRegion ch t w)) = dom_available (dom w) /\
  dom_page (dom (Regions.announceToRegion ch t w)) = dom_page (dom w) /\
  dom_activeElement (dom (Regions.announceToRegion ch t w)) = dom_activeElement (dom w).
Proof.
  intros Hs. unfold Regions.announceToRegion.
  rewrite (getRegion_settled ch w Hs).
  by destruct (regionOf ch w).
Qed.

Lemma announceDone_frame k w :
  Announcer.announceDone k w
  = set_console (console w ++ debugEntries w ["[a11y-feedback] Announcement:"])
      (set_announcer (Announcer.set_last (ev_ariaLive (p_spoken k)) (ev_message (p_spoken k))
                        (now w) (announcer w)) w).
Proof. unfold Announcer.announceDone. by rewrite debugWarn_spec. Qed.

Lemma debounceFired_frame t n k w :
  Announcer.debounceFired t n k w
  = set_announcer (Announcer.set_debounceTimer n None (announcer w))
      (set_timers (timers w ++ [{| tm_id := nextTimerId w;
                                   tm_due := now w + REGION_CLEAR_DELAY_MS;
                                   tm_task := TClearDelay n t k |}])
                  (S (nextTimerId w)) w).
Proof. reflexivity. Qed.

(** The write timer of a call, with the visual layer off: the region is
    cleared and written, the channel's last message and timestamp are
    recorded, and the call's continuation logs, emits and resolves. *)
Lemma runTask_clearDelay fuel ch text k w :
  settled w ->
  cfg_visual (config w) = false ->
  Loop.runTask fuel (TClearDelay ch text k) w
  = Ok (set_console
          (console w ++ debugEntries w ["[a11y-feedback] Announcement:"]
           ++ tailConsole k false w)
          (set_trace (trace_add (trace w)
                        (trace_add (domDelta (regionWrites ch text w)) (tailDelta k false w)))
             (set_feedbackLog (pushLog (tailLogEntry k false) (feedbackLog w))
                (set_announcer (Announcer.set_last (ev_ariaLive (p_spoken k))
                                  (ev_message (p_spoken k)) (now w) (announcer w))
                   (set_dom (dom (Regions.announceToRegion ch text w)) w))))).
Proof.
  intros Hs Hv. cbn [Loop.runTask].
  rewrite (announceToRegion_frame ch text w Hs), announceDone_frame.
  rewrite processTail_novisual by exact Hv.
  wsimpl. unfold tailConsole, tailDelta, tailEmits, debugEntries, Events.hasListeners. wsimpl.
  rewrite trace_add_assoc, <- !app_assoc. reflexivity.
Qed.

(** ** What [ensureRegions] leaves alone *)

Lemma ensured_frame w :
  ensured w = set_regions (regions (ensured w)) (set_dom (dom (ensured w)) w).
Proof. apply ensureRegions_frame. Qed.

Lemma ensured_set_now t w : ensured (set_now t w) = set_now t (ensured w).
Proof.
  unfold ensured, Regions.ensureRegions, Regions.appendChild. wsimpl.
  repeat case_match; reflexivity.
Qed.

Lemma ensured_idem w : ensured (ensured w) = ensured w.
Proof. apply settled_ensureRegions, ensureRegions_settled. Qed.

Lemma ensured_settled w : settled (ensured w).
Proof. apply ensureRegions_settled. Qed.

Lemma ensured_fields w :
  now (ensured w) = now w /\ config (ensured w) = config w /\
  announcer (ensured w) = announcer w /\ dedupe (ensured w) = dedupe w /\
  visual (ensured w) = visual w /\ listeners (ensured w) = listeners w /\
  feedbackLog (ensured w) = feedbackLog w /\ timers (ensured w) = timers w /\
  nextTimerId (ensured w) = nextTimerId w /\ console (ensured w) = console w /\
  trace (ensured w) = trace w.
Proof. rewrite (ensured_frame w). by repeat split. Qed.

Lemma settled_frame w w' :
  regions w' = regions w -> dom_available (dom w') = dom_available (dom w) ->
  settled w -> settled w'.
Proof. unfold settled. by intros -> ->. Qed.

Lemma step_call_ensured fuel t msg ty opts rnd w :
  Loop.step fuel (Loop.Call t msg ty opts rnd) w
  = Loop.step fuel (Loop.Call t msg ty opts rnd) (ensured w).
Proof.
  unfold Loop.step, Notify.notify.
  destruct (ensured_fields w) as (-> & _).
  destruct (t <? now w); [reflexivity|]. wsimpl.
  rewrite processFeedback_ensured, (processFeedback_ensured _ (set_now t (ensured w))).
  by rewrite !ensured_set_now, ensured_idem.
Qed.

Lemma focus_none_frame e w :
  opt_focus (ev_options e) = None ->
  fst (Focus.handleFocus e w) = noFocus /\ focusConsole e w = console w /\ focusDom e w = dom w.
Proof.
  intros H. unfold focusConsole, focusDom. by rewrite (handleFocus_none e w H).
Qed.

(** ** A call without a focus request, on the direct path *)

Lemma buildMessage_noFocus m o w : Focus.buildMessageWithFocus m o noFocus w = m.
Proof. unfold Focus.buildMessageWithFocus. cbn [moved noFocus negb]. by rewrite orb_true_r. Qed.

Lemma with_message_same o : with_message o (ev_message o) = o.
Proof. by destruct o. Qed.

Lemma step_call_direct fuel t msg ty opts rnd w :
  settled w -> now w <= t ->
  opt_id opts = None -> opt_focus opts = None ->
  negb (bool_decide (opt_force opts = Some true)) && Dedupe.isDuplicate msg ty (set_now t w) = false ->
  ANNOUNCEMENT_DEBOUNCE_MS
    <= t - Announcer.lastTimestamp (sem_ariaLive (FEEDBACK_SEMANTICS ty)) (announcer w) ->
  let o := with_replaced (Notify.createFeedbackEvent msg ty opts t rnd) false in
  Loop.step fuel (Loop.Call t msg ty opts rnd) w
  = Some (Ok (set_timers
                (timers w ++ [{| tm_id := nextTimerId w;
                                 tm_due := t + REGION_CLEAR_DELAY_MS;
                                 tm_task := TClearDelay (sem_ariaLive (FEEDBACK_SEMANTICS ty))
                                              (announceText o w) (pendingOf o o None noFocus w) |}])
                (S (nextTimerId w))
                (set_announcer (bumpCounter (announceForced o w) (announcer w))
                   (set_dedupe (recorded o (set_now t w))
                      (set_console (console w ++ debugEntries w ["[a11y-feedback] Registered event:"])
                         (set_now t w)))))).
Proof.
  intros Hs Hnow Hid Hfocus Hdup Hlate o.
  unfold Loop.step. destruct (t <? now w) eqn:Ht; [apply Z.ltb_lt in Ht; lia|].
  unfold Notify.notify. cbn [now set_now].
  set (e := Notify.createFeedbackEvent msg ty opts t rnd) in *.
  assert (Hs' : settled (set_now t w)) by (eapply settled_frame; [..|exact Hs]; reflexivity).
  assert (Hc : Dedupe.checkDeduplication e (set_now t w)
               = ({| Dedupe.shouldSkip := false; Dedupe.replacedEvent := None;
                     Dedupe.reason := "none" |}, set_now t w)).
  { rewrite checkDeduplication_fresh by (cbn; intros id; rewrite Hid; discriminate).
    cbn [ev_options ev_message ev_type e Notify.createFeedbackEvent]. by rewrite Hdup. }
  rewrite (processFeedback_proceeds e _ _ _ Hs' Hc eq_refl).
  cbn [Dedupe.replacedEvent]. rewrite bool_decide_eq_false_2 by (intros H; by apply H).
  fold o. cbn [fmap Res_fmap snd].
  set (W3 := set_dedupe _ _).
  assert (Hof : opt_focus (ev_options o) = None) by exact Hfocus.
  destruct (focus_none_frame o W3 Hof) as (-> & -> & ->).
  rewrite buildMessage_noFocus, with_message_same.
  rewrite announce_direct.
  - subst W3. unfold announceText, pendingOf, announceForced. wsimpl. reflexivity.
  - eapply settled_frame; [..|exact Hs]; reflexivity.
  - subst W3. wsimpl. exact Hlate.
Qed.

Lemma step_fire fuel w tm :
  Loop.earliest (timers w) = Some tm ->
  Loop.step fuel Loop.Fire w
  = Some (Loop.runTask fuel (tm_task tm)
            (clearTimeout (tm_id tm) (set_now (Z.max (now w) (tm_due tm)) w))).
Proof. intros H. unfold Loop.step. by rewrite H. Qed.

Lemma step_fire_clearDelay fuel w tm ch text k :
  settled w -> cfg_visual (config w) = false ->
  Loop.earliest (timers w) = Some tm ->
  tm_task tm = TClearDelay ch text k ->
  let w1 := clearTimeout (tm_id tm) (set_now (Z.max (now w) (tm_due tm)) w) in
  Loop.step fuel Loop.Fire w
  = Some (Ok (set_console
                (console w ++ debugEntries w ["[a11y-feedback] Announcement:"]
                 ++ tailConsole k false w)
                (set_trace (trace_add (trace w)
                              (trace_add (domDelta (regionWrites ch text w1)) (tailDelta k false w)))
                   (set_feedbackLog (pushLog (tailLogEntry k false) (feedbackLog w))
                      (set_announcer (Announcer.set_last (ev_ariaLive (p_spoken k))
                                        (ev_message (p_spoken k)) (now w1) (announcer w))
                         (set_dom (dom (Regions.announceToRegion ch text w1)) w1)))))).
Proof.
  intros Hs Hv He Ht w1. rewrite (step_fire fuel w tm He), Ht.
  rewrite runTask_clearDelay.
  - reflexivity.
  - eapply settled_frame; [..|exact Hs]; reflexivity.
  - exact Hv.
Qed.

(** ** The rotation of the invisible characters *)

Lemma getZeroWidthChar_pool c :
  ZERO_WIDTH_CHARS !! N.to_nat (c mod 4)%N = Some (getZeroWidthChar c).
Proof.
  unfold getZeroWidthChar. change (N.of_nat (length ZERO_WIDTH_CHARS)) with 4%N.
  assert (H : (c mod 4 < 4)%N) by (apply N.mod_lt; discriminate).
  destruct (c mod 4)%N as [|[[|[]|]|[|[]|]|]] eqn:Hm; try reflexivity; lia.
Qed.

Lemma getZeroWidthChar_in c : getZeroWidthChar c ∈ ZERO_WIDTH_CHARS.
Proof. eapply list_elem_of_lookup_2, getZeroWidthChar_pool. Qed.

Lemma getZeroWidthChar_rotates c : getZeroWidthChar c <> getZeroWidthChar (c + 1)%N.
Proof.
  intros Heq.
  assert (Hnd : NoDup ZERO_WIDTH_CHARS).
  { apply NoDup_ListNoDup. unfold ZERO_WIDTH_CHARS.
    repeat constructor; simpl; intuition discriminate. }
  pose proof (getZeroWidthChar_pool c) as H1.
  pose proof (getZeroWidthChar_pool (c + 1)) as H2.
  rewrite <- Heq in H2.
  pose proof (NoDup_lookup _ _ _ _ Hnd H1 H2) as Hi.
  apply N2Nat.inj in Hi.
  assert (Hc : (c mod 4 < 4)%N) by (apply N.mod_lt; discriminate).
  rewrite <- (N.Div0.add_mod_idemp_l c 1 4) in Hi.
  remember (c mod 4)%N as m.
  destruct m as [|[[|[]|]|[|[]|]|]]; try discriminate; try lia.
Qed.

Lemma lastTimestamp_bump ch b g :
  Announcer.lastTimestamp ch (bumpCounter b g) = Announcer.lastTimestamp ch g.
Proof. by destruct ch. Qed.

Lemma lastMessage_bump ch b g :
  Announcer.lastMessage ch (bumpCounter b g) = Announcer.lastMessage ch g.
Proof. by destruct ch. Qed.

Lemma announceForced_force o w :
  opt_force (ev_options o) = Some true -> announceForced o w = true.
Proof. intros H. unfold announceForced. by rewrite H. Qed.

Lemma settled_fired id t w : settled w -> settled (clearTimeout id (set_now t w)).
Proof. intros H. eapply settled_frame; [..|exact H]; reflexivity. Qed.

(** Two forced calls in a row on a channel whose last write is old
    enough: both take the direct path, both are written, and the two texts
    end in consecutive characters of the pool. *)
Lemma force_twice_direct fuel w msg ty rnd1 rnd2 t1 t2 :
  let ch := sem_ariaLive (FEEDBACK_SEMANTICS ty) in
  let c := zwcCounter (announcer w) in
  timers w = [] -> dom_available (dom w) = true -> cfg_visual (config w) = false ->
  now w <= t1 -> t1 <= t2 -> t2 < t1 + REGION_CLEAR_DELAY_MS ->
  ANNOUNCEMENT_DEBOUNCE_MS <= t1 - Announcer.lastTimestamp ch (announcer w) ->
  exists w' o1 o2,
    Loop.run fuel [Loop.Call t1 msg ty forceOnly rnd1; Loop.Call t2 msg ty forceOnly rnd2;
                   Loop.Fire; Loop.Fire] w = Some (Ok w') /\
    timers w' = [] /\
    ev_message o1 = msg /\ ev_message o2 = msg /\
    returned (trace w') = returned (trace w) ++ [o1; o2] /\
    emitted (trace w')
    = emitted (trace w)
      ++ (if Events.hasListeners "announced" w || Events.hasListeners "replaced" w
          then [("announced", PAnnounced o1 ch); ("announced", PAnnounced o2 ch)]
          else []) /\
    domLog (trace w')
    = domLog (trace w)
      ++ [ {| dw_channel := ch; dw_time := t1 + REGION_CLEAR_DELAY_MS; dw_text := "" |};
           {| dw_channel := ch; dw_time := t1 + REGION_CLEAR_DELAY_MS;
              dw_text := msg +:+ getZeroWidthChar c |};
           {| dw_channel := ch; dw_time := t2 + REGION_CLEAR_DELAY_MS; dw_text := "" |};
           {| dw_channel := ch; dw_time := t2 + REGION_CLEAR_DELAY_MS;
              dw_text := msg +:+ getZeroWidthChar (c + 1) |} ] /\
    getZeroWidthChar c ∈ ZERO_WIDTH_CHARS /\
    getZeroWidthChar (c + 1) ∈ ZERO_WIDTH_CHARS /\
    getZeroWidthChar c <> getZeroWidthChar (c + 1).
Proof.
  intros ch c Htm Hav Hvis Hnow H12 H2 Hlate.
  unfold ANNOUNCEMENT_DEBOUNCE_MS, REGION_CLEAR_DELAY_MS in *.
  cbn [Loop.run]. rewrite step_call_ensured.
  destruct (ensured_fields w) as (En & Ec & Ea & Ed & Ev & El & Ef & Et & Ei & Eo & Etr).
  pose proof (ensured_settled w) as Hs0.
  destruct (ensured_dom w) as (Eav & _).
  set (w0 := ensured w) in *.
  rewrite (step_call_direct fuel t1 msg ty forceOnly rnd1 w0);
    [|exact Hs0|lia|reflexivity|reflexivity|reflexivity
     |rewrite Ea; unfold ANNOUNCEMENT_DEBOUNCE_MS; exact Hlate].
  set (o1 := with_replaced (Notify.createFeedbackEvent msg ty forceOnly t1 rnd1) false).
  rewrite (announceForced_force o1 w0 eq_refl).
  unfold announceText, pendingOf. rewrite (announceForced_force o1 w0 eq_refl).
  set (k1 := Build_Pending _ _ _ _ _).
  set (tm1 := Build_Timer _ _ _).
  set (W1 := set_timers _ _ _).
  assert (Hs1 : settled W1) by (eapply settled_frame; [..|exact Hs0]; reflexivity).
  rewrite (step_call_direct fuel t2 msg ty forceOnly rnd2 W1);
    [|exact Hs1|subst W1; wsimpl; lia|reflexivity|reflexivity|reflexivity
     |subst W1; wsimpl; rewrite lastTimestamp_bump, Ea; unfold ANNOUNCEMENT_DEBOUNCE_MS; fold ch; lia].
  set (o2 := with_replaced (Notify.createFeedbackEvent msg ty forceOnly t2 rnd2) false).
  rewrite (announceForced_force o2 W1 eq_refl).
  unfold announceText, pendingOf. rewrite (announceForced_force o2 W1 eq_refl).
  set (k2 := Build_Pending _ _ _ _ _).
  set (tm2 := Build_Timer _ _ _).
  set (W2 := set_timers _ _ _).
  assert (Hs2 : settled W2) by (eapply settled_frame; [..|exact Hs1]; reflexivity).
  assert (Ht2 : timers W2 = [tm1; tm2]).
  { subst W2 W1. wsimpl. by rewrite Et, Htm. }
  assert (Hv2 : cfg_visual (config W2) = false) by (subst W2 W1; wsimpl; by rewrite Ec).
  assert (Hid : tm_id tm2 = S (tm_id tm1)) by reflexivity.
  assert (He2 : Loop.earliest (timers W2) = Some tm1).
  { rewrite Ht2. cbn [Loop.earliest tm_due tm1 tm2]. unfold REGION_CLEAR_DELAY_MS.
    destruct (Z.ltb_spec (t2 + 50) (t1 + 50)); [lia|reflexivity]. }
  rewrite (step_fire_clearDelay fuel W2 tm1 _ _ k1 Hs2 Hv2 He2 eq_refl). cbv zeta.
  set (w2' := clearTimeout (tm_id tm1) _).
  assert (Hs2' : settled w2') by (apply settled_fired, Hs2).
  assert (Hav2' : dom_available (dom w2') = true).
  { subst w2'. unfold clearTimeout. subst W2 W1. wsimpl. by rewrite Eav. }
  assert (Hnow2' : now w2' = t1 + 50).
  { subst w2'. unfold clearTimeout. subst W2 W1. wsimpl. cbn [tm_due tm1].
    unfold REGION_CLEAR_DELAY_MS. lia. }
  assert (Ht2' : timers w2' = [tm2]).
  { subst w2'. unfold clearTimeout. wsimpl. rewrite Ht2. cbn [List.filter].
    rewrite Hid, Nat.eqb_refl. cbn [negb].
    destruct (Nat.eqb_spec (S (tm_id tm1)) (tm_id tm1)); [lia|reflexivity]. }
  set (W3 := set_console _ _).
  assert (Hs3 : settled W3).
  { eapply settled_frame; [| |exact Hs2'].
    - reflexivity.
    - subst W3. wsimpl. by destruct (announceToRegion_dom (sem_ariaLive (FEEDBACK_SEMANTICS ty))
        (ev_message o1 +:+ getZeroWidthChar (zwcCounter (announcer w0))) w2' Hs2') as (-> & _). }
  assert (Hv3 : cfg_visual (config W3) = false)
    by (subst W3 w2'; unfold clearTimeout; wsimpl; exact Hv2).
  assert (He3 : Loop.earliest (timers W3) = Some tm2).
  { subst W3. wsimpl. by rewrite Ht2'. }
  rewrite (step_fire_clearDelay fuel W3 tm2 _ _ k2 Hs3 Hv3 He3 eq_refl). cbv zeta.
  set (w3' := clearTimeout (tm_id tm2) _).
  assert (Hs3' : settled w3') by (apply settled_fired, Hs3).
  assert (Hav3' : dom_available (dom w3') = true).
  { subst w3'. unfold clearTimeout. subst W3. wsimpl.
    by destruct (announceToRegion_dom (sem_ariaLive (FEEDBACK_SEMANTICS ty))
        (ev_message o1 +:+ getZeroWidthChar (zwcCounter (announcer w0))) w2' Hs2') as (-> & _). }
  assert (Hnow3' : now w3' = t2 + 50).
  { subst w3'. unfold clearTimeout. subst W3. wsimpl. rewrite Hnow2'. cbn [tm_due tm2].
    unfold REGION_CLEAR_DELAY_MS. lia. }
  assert (Ht3' : timers w3' = []).
  { subst w3'. unfold clearTimeout. wsimpl. subst W3. wsimpl. rewrite Ht2'. cbn [List.filter].
    by rewrite Nat.eqb_refl. }
  assert (Hw1 : forall t, regionWrites ch t w2'
            = [ {| dw_channel := ch; dw_time := t1 + 50; dw_text := "" |};
                {| dw_channel := ch; dw_time := t1 + 50; dw_text := t |} ]).
  { intros t. unfold regionWrites. rewrite Hnow2'.
    pose proof (regionOf_ready ch w2' Hs2' Hav2') as Hr. by destruct (regionOf ch w2'). }
  assert (Hw2 : forall t, regionWrites ch t w3'
            = [ {| dw_channel := ch; dw_time := t2 + 50; dw_text := "" |};
                {| dw_channel := ch; dw_time := t2 + 50; dw_text := t |} ]).
  { intros t. unfold regionWrites. rewrite Hnow3'.
    pose proof (regionOf_ready ch w3' Hs3' Hav3') as Hr. by destruct (regionOf ch w3'). }
  assert (Hl2 : listeners W2 = listeners w) by (subst W2 W1; wsimpl; exact El).
  assert (Hl3 : listeners W3 = listeners w)
    by (subst W3 w2'; unfold clearTimeout; wsimpl; exact Hl2).
  assert (Htr2 : trace W2 = trace w) by (subst W2 W1; wsimpl; exact Etr).
  assert (Hc1 : zwcCounter (announcer w0) = c) by (by rewrite Ea).
  assert (Hc2 : zwcCounter (announcer W1) = (c + 1)%N) by (subst W1; wsimpl; by rewrite Ea).
  assert (Hte : forall k W, listeners W = listeners w -> p_focus k = noFocus ->
            p_replacedEvent k = None ->
            tailEmits k false (container (visual W)) W
            = if Events.hasListeners "announced" w || Events.hasListeners "replaced" w
              then [("announced", PAnnounced (p_event k) (ev_ariaLive (p_event k)))] else []).
  { intros k W HW Hf Hr. unfold tailEmits, Events.hasListeners. rewrite HW, Hf, Hr.
    cbn [moved noFocus andb app]. by rewrite app_nil_r. }
  assert (Htr3 : trace W3
            = trace_add (trace w)
                (trace_add (domDelta (regionWrites ch (msg +:+ getZeroWidthChar c) w2'))
                           (tailDelta k1 false W2))).
  { subst W3. wsimpl. by rewrite Htr2, Hc1. }
  eexists _, o1, o2. split; [reflexivity|].
  split; [wsimpl; exact Ht3'|].
  split; [reflexivity|]. split; [reflexivity|].
  wsimpl. rewrite Htr3, Hc2. fold ch. rewrite Hw1, Hw2.
  unfold tailDelta. rewrite (Hte k1 W2 Hl2 eq_refl eq_refl), (Hte k2 W3 Hl3 eq_refl eq_refl).
  unfold trace_add, domDelta, emitDelta, returnedDelta. wsimpl.
  cbn [p_event k1 k2]. rewrite !app_nil_r, <- !app_assoc.
  split; [reflexivity|].
  split; [by destruct (_ || _)|].
  split; [reflexivity|].
  split; [apply getZeroWidthChar_in|].
  split; [apply getZeroWidthChar_in|apply getZeroWidthChar_rotates].
Qed.

Lemma announce_frame e o rep focus w :
  settled w ->
  exists A T n, Announcer.announce e o rep focus w = set_timers T n (set_announcer A w).
Proof.
  intros Hs.
  destruct (Z.lt_ge_cases (now w - Announcer.lastTimestamp (ev_ariaLive e) (announcer w))
              ANNOUNCEMENT_DEBOUNCE_MS) as [Hsoon|Hlate].
  - rewrite (announce_debounced e o rep focus w Hs Hsoon). eexists _, _, _. reflexivity.
  - rewrite (announce_direct e o rep focus w Hs Hlate). eexists _, _, _. reflexivity.
Qed.

(** ** C1: the semantic policy table decides *)

(** C1. For every category the event a [notify] call hands back carries the
    role, politeness and priority of [FEEDBACK_SEMANTICS] (status, polite for
    success, info and loading; alert, assertive for warning and error); its
    focus permission and auto-dismiss eligibility are those the table gives
    its type; a call that awaits its announcement resolves with that same
    event; the region created for a politeness level has the matching [role]
    and [aria-live]; and this holds whatever options the caller passes. *)
Theorem semantic_policy_enforced message type options rnd w :
  exists p w',
    Notify.notify message type options rnd w = Ok (p, w') /\
    ev_type (progress_event p) = type /\
    ev_role (progress_event p) = sem_role (FEEDBACK_SEMANTICS type) /\
    ev_ariaLive (progress_event p) = sem_ariaLive (FEEDBACK_SEMANTICS type) /\
    ev_priority (progress_event p) = sem_priority (FEEDBACK_SEMANTICS type) /\
    Focus.canMoveFocus (ev_type (progress_event p)) = sem_canMoveFocus (FEEDBACK_SEMANTICS type) /\
    sem_autoDismiss (FEEDBACK_SEMANTICS (ev_type (progress_event p)))
      = sem_autoDismiss (FEEDBACK_SEMANTICS type) /\
    (ev_role (progress_event p), ev_ariaLive (progress_event p),
     ev_priority (progress_event p), Focus.canMoveFocus (ev_type (progress_event p)))
      = (if bool_decide (type ∈ [success; info; loading])
         then (status, polite, low, false) else (alert, assertive, high, true)) /\
    sem_autoDismiss (FEEDBACK_SEMANTICS type) = bool_decide (type ∈ [success; info; warning]) /\
    (forall id,
       getAttribute "role" (Regions.createRegion (ev_ariaLive (progress_event p)) id)
         = Some (roleName (ev_role (progress_event p))) /\
       getAttribute "aria-live" (Regions.createRegion (ev_ariaLive (progress_event p)) id)
         = Some (politenessName (ev_ariaLive (progress_event p))) /\
       getAttribute "aria-atomic" (Regions.createRegion (ev_ariaLive (progress_event p)) id)
         = Some "true") /\
    (forall o, p = Notify.Awaiting o ->
       exists tm text k, tm ∈ timers w' /\
         (tm_task tm = TDebounce (ev_ariaLive o) text k
          \/ tm_task tm = TClearDelay (ev_ariaLive o) text k) /\
         p_event k = o /\
         forall fuel W W', Notify.processTail fuel k W = Ok W' ->
           exists pre, returned (trace W') = pre ++ [o]).
Proof.
  unfold Notify.notify.
  destruct (processFeedback_returns
              (Notify.createFeedbackEvent message type options (now w) rnd) w)
    as (p & w' & Hp & Hty & Hrole & Hlive & Hprio & _ & Hawait).
  exists p, w'. split; [exact Hp|].
  cbn [Notify.createFeedbackEvent ev_type ev_role ev_ariaLive ev_priority] in *.
  rewrite Hty, Hrole, Hlive, Hprio.
  do 8 (split; [try reflexivity; by destruct type|]).
  split; [intros id; by destruct type|].
  intros o ->. destruct (Hawait o eq_refl) as (tm & text & k & Hin & Htask & Hk).
  exists tm, text, k. cbn [progress_event] in Hlive. rewrite Hlive.
  repeat split; try assumption.
  intros fuel W W' Htail. apply processTail_spec in Htail as (wv & _ & ->).
  eexists. wsimpl. unfold tailDelta, trace_add, returnedDelta. wsimpl.
  rewrite Hk, app_assoc. reflexivity.
Qed.

(** ** C2: an explicit id replaces *)

Lemma announce_dedupe e o rep focus w :
  settled w -> dedupe (Announcer.announce e o rep focus w) = dedupe w.
Proof. intros Hs. by destruct (announce_frame e o rep focus w Hs) as (A & T & n & ->). Qed.

Lemma settled_after_focus o W c :
  settled W -> settled (set_console c (set_dom (focusDom o W) W)).
Proof.
  intros Hs. eapply settled_frame; [| |exact Hs]; [reflexivity|].
  wsimpl. by destruct (focusDom_frame o W) as (-> & _).
Qed.

(** C2, as stated, fails for the empty id. After [notify("Saved", success,
    {id: ""})] the active map holds an event whose id is the empty string; a
    second call with the same options 10 ms later carries an id equal to that
    active event's, yet the decision is [content_dedupe] and the call is
    skipped: [checkDeduplication] takes an empty id for no id. *)
Lemma empty_id_is_deduped :
  exists w active d w',
    Loop.run 0 [Loop.Call 1000 "Saved" success (withId "") "r1"] Loop.initial = Some (Ok w) /\
    activeEvents (dedupe w) !! "" = Some active /\
    opt_id (withId "") = Some (ev_id active) /\
    Notify.notify "Saved" success (withId "") "r2" (set_now 1010 w) = Ok (Notify.Skipped d, w') /\
    ev_deduped d = true /\ ev_replaced d = false /\
    fst (Dedupe.checkDeduplication
           (Notify.createFeedbackEvent "Saved" success (withId "") 1010 "r2")
           (ensured (set_now 1010 w)))
    = {| Dedupe.shouldSkip := true; Dedupe.replacedEvent := None;
         Dedupe.reason := "content_dedupe" |}.
Proof.
  eexists _, _, _, _. split; [vm_compute; reflexivity|].
  split; [vm_compute; reflexivity|].
  split; [reflexivity|].
  split; [vm_compute; reflexivity|].
  repeat split; vm_compute; reflexivity.
Qed.

(** C2, amended. When [options.id] is a non-empty string and an active
    event has that id, the decision is [id_replacement] with that event, never
    a skip, whatever the message text and whatever [options.force]; the call
    proceeds as a replacement and its event takes the id's place in the active
    map. [options.force === true] only ever turns a content skip off. *)
Theorem nonempty_id_replaces message type options rnd (eid : string) active w :
  opt_id options = Some eid -> eid <> "" ->
  activeEvents (dedupe w) !! eid = Some active ->
  fst (Dedupe.checkDeduplication
         (Notify.createFeedbackEvent message type options (now w) rnd) (ensured w))
  = {| Dedupe.shouldSkip := false; Dedupe.replacedEvent := Some active;
       Dedupe.reason := "id_replacement" |} /\
  (exists o w',
     Notify.notify message type options rnd w = Ok (Notify.Awaiting o, w') /\
     ev_replaced o = true /\ ev_deduped o = false /\ ev_id o = eid /\
     activeEvents (dedupe w') !! eid = Some o) /\
  (forall e' w0, opt_force (ev_options e') = Some true ->
     Dedupe.shouldSkip (fst (Dedupe.checkDeduplication e' w0)) = false).
Proof.
  intros Hid Hne Hact.
  set (e := Notify.createFeedbackEvent message type options (now w) rnd).
  destruct (ensured_fields w) as (_ & _ & _ & Ed & _).
  assert (Hact0 : activeEvents (dedupe (ensured w)) !! eid = Some active) by (by rewrite Ed).
  pose proof (checkDeduplication_replace e (ensured w) eid active Hid Hne Hact0) as Hc.
  split; [by rewrite Hc|]. split.
  - unfold Notify.notify. fold e. rewrite processFeedback_ensured.
    rewrite (processFeedback_proceeds e _ _ _ (ensured_settled w) Hc eq_refl).
    cbn [Dedupe.replacedEvent]. rewrite bool_decide_eq_true_2 by discriminate.
    eexists _, _. split; [reflexivity|].
    split; [reflexivity|]. split; [reflexivity|].
    split; [cbn; by rewrite Hid|].
    rewrite announce_dedupe.
    + wsimpl. unfold recorded. cbn [activeEvents ev_id with_replaced e Notify.createFeedbackEvent].
      rewrite Hid. cbn [default from_option id]. apply lookup_insert_eq.
    + apply settled_after_focus. eapply settled_frame; [..|apply (ensured_settled w)];
        rewrite debugWarn_spec, unregisterEvent_frame; reflexivity.
  - intros e' w0 Hforce. unfold Dedupe.checkDeduplication.
    repeat case_match; try reflexivity.
    all: exfalso;
      match goal with
      | H : negb (bool_decide _) && _ = true |- _ =>
          rewrite bool_decide_eq_true_2 in H by exact Hforce; discriminate
      end.
Qed.

Lemma nonempty_id_replaces_witness :
  let first := Notify.createFeedbackEvent "Saving" loading (withId "save") 1000 "r1" in
  let w := set_dedupe {| recentMessages := ∅; activeEvents := {[ "save" := first ]} |}
             Loop.initial in
  opt_id (withId "save") = Some "save" /\ "save" <> "" /\
  activeEvents (dedupe w) !! "save" = Some first /\
  exists o w',
    Notify.notify "Saved" success (withId "save") "r2" w = Ok (Notify.Awaiting o, w') /\
    ev_replaced o = true /\ ev_id o = "save".
Proof.
  intros first w.
  assert (H1 : opt_id (withId "save") = Some "save") by reflexivity.
  assert (H2 : "save" <> "") by discriminate.
  assert (H3 : activeEvents (dedupe w) !! "save" = Some first) by (vm_compute; reflexivity).
  repeat (split; [assumption|]).
  destruct (nonempty_id_replaces "Saved" success (withId "save") "r2" "save" first w H1 H2 H3)
    as (_ & (o & w' & Hn & Hr & _ & Hi & _) & _).
  exists o, w'. auto.
Defined.

(** ** A throwing subscriber is isolated *)

Lemma processFeedback_no_throw ev W c W' : Notify.processFeedback ev W <> Uncaught c W'.
Proof.
  destruct (processFeedback_returns ev W) as (p & w' & -> & _). discriminate.
Qed.

(** [emit] calls every per-event subscriber and every wildcard
    subscriber, in registration order, whether or not some of them throw; each
    exception is caught and logged with [console.error], debug mode or not;
    [emit] itself returns normally. No subscriber's exception ends a call: the
    part before the announcement never throws, and the continuation throws
    only with visual mode on, for a class name that [classList.add] refuses
    or for want of a document. *)
Lemma listener_errors_isolated e t w :
  exists w',
    Events.emit e t w = Ok w' /\
    deliveries (trace w')
    = deliveries (trace w)
      ++ calls e t (default [] (listeners w !! e))
      ++ calls e t (default [] (listeners w !! "*")) /\
    console w'
    = console w
      ++ listenerErrors (Events.listenerErrorTag e) e t
           (default [] (listeners w !! e))
      ++ listenerErrors "[a11y-feedback] Wildcard listener error:" e t
           (default [] (listeners w !! "*")) /\
    (forall r, r ∈ subscribers e (listeners w) -> (lid r, e, t) ∈ deliveries (trace w')) /\
    (forall r c, r ∈ subscribers e (listeners w) -> behave r e t = Threw c ->
       exists tag, CError tag c ∈ console w') /\
    (forall fuel k W c W',
       Notify.processTail fuel k W = Uncaught c W' ->
       cfg_visual (config W) = true /\
       ((Visual.classNameThrows (p_event k) = true /\ c = "InvalidCharacterError") \/
        (dom_available (dom W) = false /\ Events.hasListeners "visualShown" W = true /\
         c = "ReferenceError"))) /\
    (forall ev W c W', Notify.processFeedback ev W <> Uncaught c W').
Proof.
  eexists. split; [apply emit_spec|]. wsimpl.
  unfold trace_add, emitDelta, emitErrors, emitCalls, subscribers. wsimpl.
  cbn [flat_map]. rewrite app_nil_r.
  split; [unfold calls; by rewrite map_app|].
  split; [reflexivity|].
  split; [|split; [|split; [apply processTail_throws|apply processFeedback_no_throw]]].
  - intros r Hr. apply elem_of_app. right. unfold calls.
    apply (list_elem_of_fmap_2 (fun r => (lid r, e, t))). exact Hr.
  - intros r c Hr Hthrow. apply elem_of_app in Hr as [Hr|Hr].
    + eexists. apply elem_of_app. right. apply elem_of_app. left.
      unfold listenerErrors. apply list_elem_of_In, in_flat_map.
      exists r. split; [by apply list_elem_of_In|]. rewrite Hthrow. by left.
    + eexists. apply elem_of_app. right. apply elem_of_app. right.
      unfold listenerErrors. apply list_elem_of_In, in_flat_map.
      exists r. split; [by apply list_elem_of_In|]. rewrite Hthrow. by left.
Qed.

(** ** C8: which events the visual layer dismisses by itself *)


(** ** C4: two requests in quick succession on an idle channel *)

(** C4, at the failing input. On a freshly loaded page, [notify.info("A")]
    at 1000 ms and [notify.info("B")] at 1010 ms both take the direct path:
    the polite channel's last timestamp is only set when a write completes.
    Two writes are outstanding at once, and both messages reach the region,
    10 ms apart. *)
Lemma both_requests_are_written :
  exists w2 w,
    Loop.run 0 [Loop.Call 1000 "A" info noOptions "r1";
                Loop.Call 1010 "B" info noOptions "r2"] Loop.initial = Some (Ok w2) /\
    map tm_due (timers w2) = [1050; 1060] /\
    Loop.run 0 [Loop.Fire; Loop.Fire] w2 = Some (Ok w) /\
    timers w = [] /\
    domLog (trace w)
    = [ {| dw_channel := polite; dw_time := 1050; dw_text := "" |};
        {| dw_channel := polite; dw_time := 1050; dw_text := "A" |};
        {| dw_channel := polite; dw_time := 1060; dw_text := "" |};
        {| dw_channel := polite; dw_time := 1060; dw_text := "B" |} ].
Proof.
  eexists _, _. split; [vm_compute; reflexivity|].
  split; [vm_compute; reflexivity|].
  split; [vm_compute; reflexivity|].
  split; vm_compute; reflexivity.
Qed.

(** ** C6: focus stays put for the low-priority types *)

Lemma checkDeduplication_frame e w :
  snd (Dedupe.checkDeduplication e w)
  = set_console (console (snd (Dedupe.checkDeduplication e w)))
      (set_dedupe (dedupe (snd (Dedupe.checkDeduplication e w))) w).
Proof.
  unfold Dedupe.checkDeduplication.
  repeat case_match; cbn [snd]; rewrite ?debugWarn_spec, ?unregisterEvent_frame;
    by destruct w.
Qed.

Lemma handleFocus_blocked e f w :
  Focus.canMoveFocus (ev_type e) = false ->
  opt_focus (ev_options e) = Some f -> f <> "" ->
  Focus.handleFocus e w
  = ({| moved := false; target := Some f; elementName := None;
        blockedReason := Some ("Focus movement blocked: " +:+ typeName (ev_type e)
                                 +:+ " type cannot move focus") |},
     debugWarn "[a11y-feedback] Focus blocked:" w).
Proof.
  intros Hcan Hf Hne. unfold Focus.handleFocus. rewrite Hf, Hcan.
  apply String.eqb_neq in Hne. by rewrite Hne.
Qed.

(** C6. A [success], [info] or [loading] call that names a focus target
    (a non-empty selector) never moves focus: [handleFocus] refuses before it
    looks at the page, the result says [moved: false] with the reason
    "Focus movement blocked: <type> type cannot move focus", the page and its
    active element are as before the call, and the result travels with the
    call's continuation, so that no [focusMoved] event is emitted and the
    debug log shows the reason. *)
Theorem low_priority_focus_blocked message type options rnd f w :
  type ∈ [success; info; loading] ->
  opt_focus options = Some f -> f <> "" ->
  let blocked :=
    {| moved := false; target := Some f; elementName := None;
       blockedReason := Some ("Focus movement blocked: " +:+ typeName type
                                +:+ " type cannot move focus") |} in
  (forall e W, ev_type e = type -> ev_options e = options ->
     fst (Focus.handleFocus e W) = blocked /\
     dom (snd (Focus.handleFocus e W)) = dom W) /\
  exists p w',
    Notify.notify message type options rnd w = Ok (p, w') /\
    dom_activeElement (dom w') = dom_activeElement (dom w) /\
    dom_page (dom w') = dom_page (dom w) /\
    (forall o, p = Notify.Awaiting o ->
       exists tm text k, tm ∈ timers w' /\
         (tm_task tm = TDebounce (ev_ariaLive o) text k
          \/ tm_task tm = TClearDelay (ev_ariaLive o) text k) /\
         p_event k = o /\ p_focus k = blocked /\
         (forall l c W, ~ exists x, ("focusMoved", x) ∈ tailEmits k l c W) /\
         (forall l, log_focusMoved (tailLogEntry k l) = false /\
                    log_focusBlocked (tailLogEntry k l) = blockedReason blocked)).
Proof.
  intros Hty Hf Hne blocked.
  assert (Hcan : Focus.canMoveFocus type = false).
  { apply list_elem_of_In in Hty. simpl in Hty. by intuition subst. }
  assert (Hblk : forall e W, ev_type e = type -> ev_options e = options ->
            Focus.handleFocus e W = (blocked, debugWarn "[a11y-feedback] Focus blocked:" W)).
  { intros e W He Ho. rewrite (handleFocus_blocked e f W); rewrite ?He, ?Ho; auto. }
  split.
  { intros e W He Ho. rewrite (Hblk e W He Ho). split; [reflexivity|].
    cbn [snd]. by rewrite debugWarn_spec. }
  unfold Notify.notify. set (e := Notify.createFeedbackEvent message type options (now w) rnd).
  rewrite processFeedback_ensured.
  destruct (ensured_dom w) as (_ & Epage & Eact & _).
  pose proof (ensured_settled w) as Hs0.
  destruct (Dedupe.checkDeduplication e (ensured w)) as [t w1] eqn:Hc.
  assert (Hw1 : w1 = set_console (console w1) (set_dedupe (dedupe w1) (ensured w))).
  { pose proof (checkDeduplication_frame e (ensured w)) as H. by rewrite Hc in H. }
  assert (Hs1 : settled w1) by (rewrite Hw1; eapply settled_frame; [..|exact Hs0]; reflexivity).
  destruct (Dedupe.shouldSkip t) eqn:Hskip.
  - rewrite (processFeedback_skips e _ _ _ Hs0 Hc Hskip).
    eexists _, _. split; [reflexivity|]. wsimpl. rewrite Hw1. wsimpl.
    split; [exact Eact|]. split; [exact Epage|]. discriminate.
  - rewrite (processFeedback_proceeds e _ _ _ Hs0 Hc Hskip).
    set (o := with_replaced e _). set (W3 := set_dedupe _ _).
    assert (Hb : Focus.handleFocus o W3 = (blocked, debugWarn "[a11y-feedback] Focus blocked:" W3))
      by (apply Hblk; reflexivity).
    assert (HfD : focusDom o W3 = dom W3).
    { unfold focusDom. rewrite Hb. cbn [snd]. by rewrite debugWarn_spec. }
    rewrite HfD, Hb. cbn [fst].
    set (s := with_message o _). set (W4 := set_console _ _).
    assert (Hs4 : settled W4).
    { subst W4. rewrite <- HfD. apply settled_after_focus.
      subst W3. eapply settled_frame; [..|exact Hs1]; reflexivity. }
    eexists _, _. split; [reflexivity|].
    assert (Hdom : dom (Announcer.announce s o (Dedupe.replacedEvent t) blocked W4) = dom w1).
    { destruct (announce_frame s o (Dedupe.replacedEvent t) blocked W4 Hs4) as (A & T & n & ->).
      reflexivity. }
    rewrite Hdom, Hw1. wsimpl.
    split; [exact Eact|]. split; [exact Epage|].
    intros o' [= <-].
    destruct (announce_carries_event s o (Dedupe.replacedEvent t) blocked W4)
      as (tm & text & k & Hin & Htask & Hk & _ & _ & Hfocus).
    exists tm, text, k.
    split; [exact Hin|split; [exact Htask|split; [exact Hk|split; [exact Hfocus|split]]]].
    + intros l c W [x Hx]. unfold tailEmits in Hx. rewrite Hfocus in Hx.
      cbn [moved blocked andb app] in Hx.
      apply elem_of_app in Hx as [Hx|Hx].
      * destruct (_ || _); [destruct (p_replacedEvent k)|];
          apply list_elem_of_In in Hx; simpl in Hx; intuition discriminate.
      * destruct (_ && _); apply list_elem_of_In in Hx; simpl in Hx; intuition discriminate.
    + intros l. unfold tailLogEntry. cbn. by rewrite Hfocus.
Qed.

Lemma low_priority_focus_blocked_witness :
  success ∈ [success; info; loading] /\
  opt_focus (withFocus "#email") = Some "#email" /\ "#email" <> "" /\
  exists p w',
    Notify.notify "Saved" success (withFocus "#email") "r1" formPage = Ok (p, w') /\
    dom_activeElement (dom w') = dom_activeElement (dom formPage).
Proof.
  assert (H1 : success ∈ [success; info; loading]) by (apply list_elem_of_In; simpl; auto).
  assert (H2 : opt_focus (withFocus "#email") = Some "#email") by reflexivity.
  assert (H3 : "#email" <> "") by discriminate.
  repeat (split; [assumption|]).
  destruct (low_priority_focus_blocked "Saved" success (withFocus "#email") "r1" "#email"
              formPage H1 H2 H3) as (_ & p & w' & Hn & Ha & _).
  exists p, w'. auto.
Defined.

(** On the same page an [error] call with the same target does move
    focus. *)
Example error_moves_focus :
  exists w k,
    Loop.run 0 [Loop.Call 1000 "Invalid" error (withFocus "#email") "r1"] formPage = Some (Ok w) /\
    dom_activeElement (dom w) = Some "#email" /\
    (task_pending <$> (tm_task <$> timers w)) = [Some k] /\
    moved (p_focus k) = true /\ blockedReason (p_focus k) = None.
Proof.
  eexists _, _. split; [vm_compute; reflexivity|].
  split; [vm_compute; reflexivity|].
  split; [vm_compute; reflexivity|].
  split; vm_compute; reflexivity.
Qed.

(** ** C7: the debounce delay *)

Lemma announceText_ensured e w : announceText e (ensured w) = announceText e w.
Proof.
  destruct (ensured_fields w) as (_ & _ & Ea & _).
  unfold announceText, announceForced. by rewrite Ea.
Qed.

Lemma pendingOf_ensured e o rep focus w :
  pendingOf e o rep focus (ensured w) = pendingOf e o rep focus w.
Proof.
  destruct (ensured_fields w) as (_ & _ & Ea & _).
  unfold pendingOf, announceForced. by rewrite Ea.
Qed.

(** C7, as stated, fails: the delay is not the remaining spacing. The
    polite channel last announced at 1050 ms; a request at 1110 ms comes 60 ms
    later, 40 ms short of the spacing, and its debounce timer is due at
    1210 ms, a full [ANNOUNCEMENT_DEBOUNCE_MS] later, not at 1150 ms. *)
Lemma debounce_delay_not_remaining :
  exists w w' tm,
    Loop.run 0 [Loop.Call 1000 "warm" info noOptions "r0"; Loop.Fire] Loop.initial
      = Some (Ok w) /\
    Announcer.lastTimestamp polite (announcer w) = 1050 /\
    Loop.step 0 (Loop.Call 1110 "next" info noOptions "r1") w = Some (Ok w') /\
    timers w' = [tm] /\
    (exists text k, tm_task tm = TDebounce polite text k) /\
    tm_due tm = 1110 + ANNOUNCEMENT_DEBOUNCE_MS /\
    tm_due tm <> 1110 + (ANNOUNCEMENT_DEBOUNCE_MS - (1110 - 1050)).
Proof.
  eexists _, _, _. split; [vm_compute; reflexivity|].
  split; [vm_compute; reflexivity|].
  split; [vm_compute; reflexivity|].
  split; [vm_compute; reflexivity|].
  split; [eexists _, _; vm_compute; reflexivity|].
  split; [vm_compute; reflexivity|].
  vm_compute. discriminate.
Qed.

(** C7, amended. When the time since the channel's last completed
    announcement is below [ANNOUNCEMENT_DEBOUNCE_MS], [announce] cancels the
    channel's pending debounce timer, if any, and starts one with the fixed
    delay [ANNOUNCEMENT_DEBOUNCE_MS], whose callback starts the write;
    otherwise [announce] starts the write at once. Starting the write means a
    timer of [REGION_CLEAR_DELAY_MS], after which the region is cleared and
    written. *)
Theorem debounce_delay_is_fixed e o rep focus w :
  let ch := ev_ariaLive e in
  let w' := Announcer.announce e o rep focus w in
  (now w - Announcer.lastTimestamp ch (announcer w) < ANNOUNCEMENT_DEBOUNCE_MS ->
   timers w'
   = cancel (Announcer.debounceTimer ch (announcer w)) (timers w)
     ++ [{| tm_id := nextTimerId w;
            tm_due := now w + ANNOUNCEMENT_DEBOUNCE_MS;
            tm_task := TDebounce ch (announceText e w) (pendingOf e o rep focus w) |}] /\
   Announcer.debounceTimer ch (announcer w') = Some (nextTimerId w)) /\
  (ANNOUNCEMENT_DEBOUNCE_MS <= now w - Announcer.lastTimestamp ch (announcer w) ->
   timers w'
   = timers w
     ++ [{| tm_id := nextTimerId w;
            tm_due := now w + REGION_CLEAR_DELAY_MS;
            tm_task := TClearDelay ch (announceText e w) (pendingOf e o rep focus w) |}]) /\
  (forall fuel text k W,
     exists W', Loop.runTask fuel (TDebounce ch text k) W = Ok W' /\
       timers W' = timers W ++ [{| tm_id := nextTimerId W;
                                   tm_due := now W + REGION_CLEAR_DELAY_MS;
                                   tm_task := TClearDelay ch text k |}] /\
       Announcer.debounceTimer ch (announcer W') = None).
Proof.
  intros ch w'. subst w'. rewrite announce_ensured.
  destruct (ensured_fields w) as (En & _ & Ea & _ & _ & _ & _ & Et & Ei & _).
  pose proof (ensured_settled w) as Hs.
  split; [|split].
  - intros Hsoon. rewrite announce_debounced; [|exact Hs|by rewrite En, Ea].
    wsimpl. rewrite announceText_ensured, pendingOf_ensured, En, Ea, Et, Ei.
    split; [reflexivity|]. fold ch. by destruct ch.
  - intros Hlate. rewrite announce_direct; [|exact Hs|by rewrite En, Ea].
    wsimpl. by rewrite announceText_ensured, pendingOf_ensured, En, Et, Ei.
  - intros fuel text k W. eexists. split; [reflexivity|].
    rewrite debounceFired_frame. wsimpl. split; [reflexivity|]. by destruct ch.
Qed.

Lemma debounce_delay_is_fixed_witness :
  let w := set_now 1110
             (set_announcer (Announcer.set_last polite "warm" 1050 (announcer Loop.initial))
                Loop.initial) in
  let e := Notify.createFeedbackEvent "next" info noOptions 1110 "r1" in
  now w - Announcer.lastTimestamp polite (announcer w) < ANNOUNCEMENT_DEBOUNCE_MS /\
  map tm_due (timers (Announcer.announce e e None noFocus w)) = [1210].
Proof.
  intros w e.
  assert (H : now w - Announcer.lastTimestamp polite (announcer w) < ANNOUNCEMENT_DEBOUNCE_MS)
    by (vm_compute; reflexivity).
  split; [exact H|].
  destruct (debounce_delay_is_fixed e e None noFocus w) as (Hsoon & _ & _).
  destruct (Hsoon H) as [-> _]. vm_compute. reflexivity.
Defined.

(** ** C10: who removes an active event *)

Lemma announceToRegion_general ch t w :
  Regions.announceToRegion ch t w
  = set_trace (trace (Regions.announceToRegion ch t w))
      (set_dom (dom (Regions.announceToRegion ch t w))
         (set_regions (regions (Regions.announceToRegion ch t w)) w)).
Proof.
  unfold Regions.announceToRegion, Regions.getRegion.
  destruct (isInitialized (regions w)).
  - repeat case_match; by destruct w.
  - rewrite ensureRegions_frame. repeat case_match; by destruct w.
Qed.

Lemma announce_general e o rep focus w :
  Announcer.announce e o rep focus w
  = set_timers (timers (Announcer.announce e o rep focus w))
      (nextTimerId (Announcer.announce e o rep focus w))
      (set_announcer (announcer (Announcer.announce e o rep focus w))
         (set_dom (dom (ensured w)) (set_regions (regions (ensured w)) w))).
Proof.
  rewrite announce_ensured.
  destruct (announce_frame e o rep focus (ensured w) (ensured_settled w)) as (A & T & n & ->).
  wsimpl. rewrite (ensured_frame w) at 1. reflexivity.
Qed.

(** A call changes the active map at its own event's id only, and leaves
    that id in the map unless the call is skipped. *)
Lemma checkDeduplication_active e w j :
  (forall i, opt_id (ev_options e) = Some i -> i <> j) ->
  activeEvents (dedupe (snd (Dedupe.checkDeduplication e w))) !! j
  = activeEvents (dedupe w) !! j.
Proof.
  intros Hj. unfold Dedupe.checkDeduplication, Dedupe.getActiveEvent.
  destruct (opt_id (ev_options e)) as [i|] eqn:Hi.
  - specialize (Hj i eq_refl).
    repeat case_match; simplify_eq; cbn [snd];
      rewrite ?debugWarn_spec, ?unregisterEvent_frame; wsimpl; cbn [activeEvents];
      try reflexivity.
    by rewrite lookup_delete_ne.
  - repeat case_match; simplify_eq; cbn [snd]; rewrite ?debugWarn_spec; reflexivity.
Qed.

Lemma checkDeduplication_skip_dedupe e w :
  Dedupe.shouldSkip (fst (Dedupe.checkDeduplication e w)) = true ->
  dedupe (snd (Dedupe.checkDeduplication e w)) = dedupe w.
Proof.
  unfold Dedupe.checkDeduplication.
  repeat case_match; cbn [fst snd Dedupe.shouldSkip]; try discriminate;
    intros _; by rewrite debugWarn_spec.
Qed.

Lemma processFeedback_active e w p w' :
  Notify.processFeedback e w = Ok (p, w') ->
  (forall i, opt_id (ev_options e) = Some i -> i = ev_id e) ->
  (forall j, j <> ev_id e ->
     activeEvents (dedupe w') !! j = activeEvents (dedupe w) !! j) /\
  match p with
  | Notify.Skipped _ => dedupe w' = dedupe w
  | Notify.Awaiting o =>
      ev_id o = ev_id e /\ activeEvents (dedupe w') !! ev_id e = Some o
  end.
Proof.
  intros Hp Hid. rewrite processFeedback_ensured in Hp.
  destruct (ensured_fields w) as (_ & _ & _ & Ed & _).
  pose proof (ensured_settled w) as Hs0.
  destruct (Dedupe.checkDeduplication e (ensured w)) as [t w1] eqn:Hc.
  assert (Hw1 : w1 = snd (Dedupe.checkDeduplication e (ensured w))) by (by rewrite Hc).
  assert (Ht : t = fst (Dedupe.checkDeduplication e (ensured w))) by (by rewrite Hc).
  assert (Hother : forall j, j <> ev_id e ->
            activeEvents (dedupe w1) !! j = activeEvents (dedupe w) !! j).
  { intros j Hj. rewrite Hw1, checkDeduplication_active, Ed; [reflexivity|].
    intros i Hi. rewrite (Hid i Hi). congruence. }
  destruct (Dedupe.shouldSkip t) eqn:Hskip.
  - rewrite (processFeedback_skips e _ _ _ Hs0 Hc Hskip) in Hp.
    injection Hp as <- <-. wsimpl.
    assert (Hd : dedupe w1 = dedupe w).
    { rewrite Hw1, checkDeduplication_skip_dedupe, Ed; [reflexivity|]. by rewrite <- Ht. }
    split; [|exact Hd]. intros j _. by rewrite Hd.
  - rewrite (processFeedback_proceeds e _ _ _ Hs0 Hc Hskip) in Hp.
    injection Hp as <- <-.
    rewrite announce_general. wsimpl. unfold recorded. cbn [activeEvents ev_id with_replaced].
    split.
    + intros j Hj. rewrite lookup_insert_ne by congruence. by apply Hother.
    + split; [reflexivity|]. apply lookup_insert_eq.
Qed.

Lemma cancel_subset r l tm : tm ∈ cancel r l -> tm ∈ l.
Proof.
  destruct r as [r|]; [|done]. cbn. intros H.
  apply list_elem_of_In, filter_In in H as [H _]. by apply list_elem_of_In.
Qed.

Lemma announce_timers e o rep focus w tm :
  tm ∈ timers (Announcer.announce e o rep focus w) ->
  tm ∈ timers w \/
  exists ch text k, tm_task tm = TDebounce ch text k \/ tm_task tm = TClearDelay ch text k.
Proof.
  rewrite announce_ensured.
  destruct (ensured_fields w) as (_ & _ & _ & _ & _ & _ & _ & Et & _).
  pose proof (ensured_settled w) as Hs.
  destruct (Z.lt_ge_cases (now (ensured w)
                           - Announcer.lastTimestamp (ev_ariaLive e) (announcer (ensured w)))
              ANNOUNCEMENT_DEBOUNCE_MS) as [Hsoon|Hlate].
  - rewrite (announce_debounced e o rep focus _ Hs Hsoon). wsimpl.
    intros [H|H]%elem_of_app.
    + left. rewrite <- Et. by eapply cancel_subset.
    + right. apply list_elem_of_singleton in H as ->. eexists _, _, _. by left.
  - rewrite (announce_direct e o rep focus _ Hs Hlate). wsimpl.
    intros [H|H]%elem_of_app.
    + left. by rewrite <- Et.
    + right. apply list_elem_of_singleton in H as ->. eexists _, _, _. by right.
Qed.

(** A call leaves the configuration and the visual layer alone, and adds
    no timer but its own announcement's. *)
Lemma processFeedback_frame e w p w' :
  Notify.processFeedback e w = Ok (p, w') ->
  config w' = config w /\ visual w' = visual w /\
  forall tm, tm ∈ timers w' ->
    tm ∈ timers w \/
    exists ch text k, tm_task tm = TDebounce ch text k \/ tm_task tm = TClearDelay ch text k.
Proof.
  intros Hp. rewrite processFeedback_ensured in Hp.
  destruct (ensured_fields w) as (_ & Ec & _ & _ & Ev & _ & _ & Et & _).
  pose proof (ensured_settled w) as Hs0.
  destruct (Dedupe.checkDeduplication e (ensured w)) as [t w1] eqn:Hc.
  assert (Hw1 : w1 = set_console (console w1) (set_dedupe (dedupe w1) (ensured w))).
  { pose proof (checkDeduplication_frame e (ensured w)) as H. by rewrite Hc in H. }
  destruct (Dedupe.shouldSkip t) eqn:Hskip.
  - rewrite (processFeedback_skips e _ _ _ Hs0 Hc Hskip) in Hp.
    injection Hp as <- <-. wsimpl. rewrite Hw1. wsimpl. rewrite Ec, Ev, Et. auto.
  - rewrite (processFeedback_proceeds e _ _ _ Hs0 Hc Hskip) in Hp.
    injection Hp as <- <-.
    split; [|split].
    + rewrite announce_general. wsimpl. rewrite Hw1. wsimpl. exact Ec.
    + rewrite announce_general. wsimpl. rewrite Hw1. wsimpl. exact Ev.
    + intros tm Htm. apply announce_timers in Htm as [Htm|Htm]; [left|by right].
      revert Htm. wsimpl. rewrite Hw1. wsimpl. by rewrite Et.
Qed.

(** Every task but the removal of a visual item leaves the dedupe state
    alone. *)
Lemma runTask_dedupe fuel task w w' :
  Loop.runTask fuel task w = Ok w' ->
  (forall id, task <> TRemoveVisual id) ->
  dedupe w' = dedupe w.
Proof.
  destruct task as [ch text k|ch text k|id|id]; cbn [Loop.runTask]; intros Hr Hne.
  - injection Hr as <-. by rewrite debounceFired_frame.
  - apply processTail_spec in Hr as (wv & (v & t & n & ->) & ->). wsimpl.
    rewrite announceDone_frame. wsimpl. by rewrite announceToRegion_general.
  - injection Hr as <-.
    by destruct (dismissVisualFeedback_visual_only id w) as (v & t & n & ->).
  - by destruct (Hne id).
Qed.

Lemma removeFired_active id w :
  activeEvents (dedupe (Visual.removeFired id w)) = delete id (activeEvents (dedupe w)).
Proof. unfold Visual.removeFired. by rewrite unregisterEvent_frame. Qed.

(** One turn of the host and the active map: an entry stays as it is
    unless the turn is a call whose event has the entry's id, or the removal
    timer of the visual item with that id. *)
Lemma step_active fuel s w w' j ev :
  Loop.step fuel s w = Some (Ok w') ->
  activeEvents (dedupe w) !! j = Some ev ->
  activeEvents (dedupe w') !! j = Some ev \/
  j ∈ stepIds s \/
  (s = Loop.Fire /\
   exists tm, Loop.earliest (timers w) = Some tm /\ tm_task tm = TRemoveVisual j).
Proof.
  intros Hstep Hj. destruct s as [t msg ty opts rnd| |t id]; cbn [Loop.step] in Hstep.
  - destruct (t <? now w); [discriminate|].
    unfold Notify.notify in Hstep. cbn [now set_now] in Hstep.
    destruct (Notify.processFeedback _ _) as [[p w'']| |] eqn:Hp; try discriminate.
    cbn in Hstep. injection Hstep as <-.
    destruct (decide (j = callId t opts rnd)) as [->|Hne].
    + right. left. cbn. apply list_elem_of_singleton. reflexivity.
    + left. apply processFeedback_active in Hp as [Hother _].
      * rewrite Hother; [exact Hj|exact Hne].
      * cbn. intros i Hi. unfold callId. by rewrite Hi.
  - destruct (Loop.earliest (timers w)) as [tm|] eqn:He; [|discriminate].
    injection Hstep as Hstep.
    destruct (tm_task tm) as [ch text k|ch text k|id|id] eqn:Htask.
    1-3: left; apply runTask_dedupe in Hstep; [|intros ?; discriminate];
         by rewrite Hstep.
    destruct (decide (id = j)) as [->|Hne].
    + right. right. split; [reflexivity|]. by exists tm.
    + left. cbn [Loop.runTask] in Hstep. injection Hstep as <-.
      rewrite removeFired_active, lookup_delete_ne by exact Hne. exact Hj.
  - destruct (t <? now w); [discriminate|]. injection Hstep as <-. left.
    by destruct (dismissVisualFeedback_visual_only id (set_now t w)) as (v & tt & n & ->).
Qed.

Lemma dismiss_nothing id w :
  Visual.items_get id (activeItems (visual w)) = None ->
  Visual.dismissVisualFeedback id w = w.
Proof. intros H. unfold Visual.dismissVisualFeedback. by rewrite H. Qed.

(** A removal timer is only ever started for an id that has a visual
    item. *)
Lemma dismiss_starts_removal id w tm j :
  tm ∈ timers (Visual.dismissVisualFeedback id w) ->
  tm_task tm = TRemoveVisual j ->
  tm ∈ timers w \/ (j = id /\ Visual.items_get id (activeItems (visual w)) <> None).
Proof.
  unfold Visual.dismissVisualFeedback.
  destruct (Visual.items_get id _) as [it|]; [|by left].
  intros Hin Htask.
  assert (Hsub : tm ∈ timers w ++ [{| tm_id := nextTimerId w;
                                      tm_due := now w + Z.max 0
                                                  (toInt32 (if Visual.prefersReducedMotion w
                                                            then 0 else 200));
                                      tm_task := TRemoveVisual id |}]).
  { revert Hin. destruct (dismissTimers (visual w) !! id) as [n|]; cbn;
      intros [H|H]%elem_of_app; apply elem_of_app; auto.
    left. apply list_elem_of_In, filter_In in H as [H _]. by apply list_elem_of_In. }
  apply elem_of_app in Hsub as [H|H]; [by left|].
  apply list_elem_of_singleton in H as ->. right. cbn in Htask. by injection Htask as ->.
Qed.

(** With the visual layer off and idle, a turn keeps it so, and keeps
    every entry of the active map that no call of that turn rebinds. *)
Lemma step_quiet fuel s w w' :
  quiet w -> Loop.step fuel s w = Some (Ok w') ->
  quiet w' /\
  forall j ev, activeEvents (dedupe w) !! j = Some ev ->
    j ∉ stepIds s -> activeEvents (dedupe w') !! j = Some ev.
Proof.
  intros (Hv & Hitems & Htm) Hstep. split.
  - destruct s as [t msg ty opts rnd| |t id]; cbn [Loop.step] in Hstep.
    + destruct (t <? now w); [discriminate|].
      unfold Notify.notify in Hstep.
      destruct (Notify.processFeedback _ _) as [[p w'']| |] eqn:Hp; try discriminate.
      cbn in Hstep. injection Hstep as <-.
      apply processFeedback_frame in Hp as (Hc & Hvis & Htimers).
      repeat split.
      * by rewrite Hc.
      * by rewrite Hvis.
      * intros tm id Hin Htask. apply Htimers in Hin as [Hin|(ch & text & k & [H|H])];
          [by eapply (Htm tm id)|congruence..].
    + destruct (Loop.earliest (timers w)) as [tm|] eqn:He; [|discriminate].
      injection Hstep as Hstep.
      assert (Hin : tm ∈ timers w).
      { clear -He. revert tm He. induction (timers w) as [|a l IH]; intros tm; cbn; [discriminate|].
        destruct (Loop.earliest l) as [u|].
        - destruct (_ <? _); intros [= <-]; [right; by apply IH|left].
        - intros [= <-]. left. }
      set (w1 := clearTimeout (tm_id tm) (set_now (Z.max (now w) (tm_due tm)) w)) in *.
      assert (Hq1 : quiet w1).
      { repeat split; [exact Hv|exact Hitems|].
        intros tm' id H. apply list_elem_of_In, filter_In in H as [H _].
        apply list_elem_of_In in H. by apply Htm. }
      destruct Hq1 as (Hv1 & Hitems1 & Htm1).
      destruct (tm_task tm) as [ch text k|ch text k|id|id] eqn:Htask; cbn [Loop.runTask] in Hstep.
      * injection Hstep as <-. rewrite debounceFired_frame. repeat split; [exact Hv1|exact Hitems1|].
        wsimpl. intros tm' id [H|H]%elem_of_app; [by apply Htm1|].
        apply list_elem_of_singleton in H as ->. discriminate.
      * rewrite processTail_novisual in Hstep.
        -- injection Hstep as <-. wsimpl. rewrite announceDone_frame. wsimpl.
           rewrite announceToRegion_general. repeat split; assumption.
        -- rewrite announceDone_frame. wsimpl. by rewrite announceToRegion_general.
      * injection Hstep as <-. rewrite dismiss_nothing; [repeat split; assumption|].
        by rewrite Hitems1.
      * by destruct (Htm tm id Hin).
    + destruct (t <? now w); [discriminate|]. injection Hstep as <-.
      rewrite dismiss_nothing; [|cbn; by rewrite Hitems].
      repeat split; assumption.
  - intros j ev Hj Hnot.
    destruct (step_active fuel s w w' j ev Hstep Hj) as [H|[H|(-> & tm & He & Htask)]];
      [exact H|contradiction|].
    exfalso. eapply (Htm tm j); [|exact Htask].
    clear -He. revert tm He. induction (timers w) as [|a l IH]; intros tm; cbn; [discriminate|].
    destruct (Loop.earliest l) as [u|].
    + destruct (_ <? _); intros [= <-]; [right; by apply IH|left].
    + intros [= <-]. left.
Qed.

Lemma notify_registers t msg ty opts rnd w p w' :
  Notify.notify msg ty opts rnd (set_now t w) = Ok (p, w') ->
  match p with
  | Notify.Skipped _ => dedupe w' = dedupe w
  | Notify.Awaiting o =>
      ev_id o = callId t opts rnd /\
      activeEvents (dedupe w') !! callId t opts rnd = Some o
  end.
Proof.
  unfold Notify.notify. cbn [now set_now]. intros Hp.
  apply processFeedback_active in Hp as [_ H].
  - exact H.
  - cbn. intros i Hi. by rewrite Hi.
Qed.

Lemma step_quiet_keeps_key fuel s w w' j :
  quiet w -> Loop.step fuel s w = Some (Ok w') ->
  is_Some (activeEvents (dedupe w) !! j) -> is_Some (activeEvents (dedupe w') !! j).
Proof.
  intros Hq Hstep [ev Hj].
  destruct (decide (j ∈ stepIds s)) as [Hin|Hnot].
  - destruct s as [t msg ty opts rnd| |t id]; cbn in Hin;
      try (by apply elem_of_nil in Hin).
    apply list_elem_of_singleton in Hin as ->.
    cbn [Loop.step] in Hstep. destruct (t <? now w); [discriminate|].
    destruct (Notify.notify _ _ _ _ _) as [[p w'']| |] eqn:Hp; try discriminate.
    cbn in Hstep. injection Hstep as <-.
    apply notify_registers in Hp. destruct p as [d|o].
    + rewrite Hp. by exists ev.
    + destruct Hp as [_ Hp]. by exists o.
  - exists ev. by apply (proj2 (step_quiet fuel s w w' Hq Hstep)).
Qed.

(** C10. An entry of the active map goes away or changes only in a turn
    that is a call whose event has the same id (the id given, or the one
    generated) or the removal timer of the visual item with that id, and that
    timer is only started by a dismissal that finds a visual item. So with the
    visual layer off and idle, however the schedule goes on: every event in
    the map stays bound to its id unless a later call carries that id, the id
    itself never leaves the map, and every call that is not skipped adds its
    event under its id. *)
Theorem active_events_persist fuel steps w w' :
  quiet w ->
  Loop.run fuel steps w = Some (Ok w') ->
  quiet w' /\
  (forall j ev, activeEvents (dedupe w) !! j = Some ev ->
     is_Some (activeEvents (dedupe w') !! j) /\
     (j ∉ concat (map stepIds steps) -> activeEvents (dedupe w') !! j = Some ev)) /\
  (forall fuel0 s W W' j ev,
     Loop.step fuel0 s W = Some (Ok W') ->
     activeEvents (dedupe W) !! j = Some ev ->
     activeEvents (dedupe W') !! j = Some ev \/
     j ∈ stepIds s \/
     (s = Loop.Fire /\
      exists tm, Loop.earliest (timers W) = Some tm /\ tm_task tm = TRemoveVisual j)) /\
  (forall id W tm j,
     tm ∈ timers (Visual.dismissVisualFeedback id W) -> tm_task tm = TRemoveVisual j ->
     tm ∈ timers W \/ (j = id /\ Visual.items_get id (activeItems (visual W)) <> None)) /\
  (forall t msg ty opts rnd W p W',
     Notify.notify msg ty opts rnd (set_now t W) = Ok (p, W') ->
     match p with
     | Notify.Skipped _ => dedupe W' = dedupe W
     | Notify.Awaiting o =>
         ev_id o = callId t opts rnd /\
         activeEvents (dedupe W') !! callId t opts rnd = Some o
     end).
Proof.
  intros Hq Hrun.
  split; [|split; [|split; [apply step_active|split;
    [apply dismiss_starts_removal|apply notify_registers]]]].
  - revert w Hq Hrun. induction steps as [|s steps IH]; intros w Hq Hrun; cbn in Hrun.
    + by injection Hrun as <-.
    + destruct (Loop.step fuel s w) as [[w1| |]|] eqn:Hs; try discriminate.
      apply (IH w1); [|exact Hrun]. by apply (step_quiet fuel s w w1).
  - revert w Hq Hrun. induction steps as [|s steps IH]; intros w Hq Hrun j ev Hj; cbn in Hrun.
    + injection Hrun as <-. split; [by exists ev|done].
    + destruct (Loop.step fuel s w) as [[w1| |]|] eqn:Hs; try discriminate.
      destruct (step_quiet fuel s w w1 Hq Hs) as [Hq1 Hkeep].
      split.
      * destruct (step_quiet_keeps_key fuel s w w1 j Hq Hs) as [ev1 Hj1]; [by exists ev|].
        by apply (IH w1 Hq1 Hrun j ev1).
      * cbn [map concat]. intros Hnot.
        apply (IH w1 Hq1 Hrun j ev); [apply Hkeep; [exact Hj|]|];
          intros Hin; apply Hnot, elem_of_app; auto.
Qed.

Lemma active_events_persist_witness :
  quiet afterSaved /\
  Loop.run 0 [Loop.Call 9000 "Done" info noOptions "r2"; Loop.Fire] afterSaved
    = Some (Ok afterDone) /\
  is_Some (activeEvents (dedupe afterSaved) !! callId 1000 noOptions "r1") /\
  forall ev,
    activeEvents (dedupe afterSaved) !! callId 1000 noOptions "r1" = Some ev ->
    activeEvents (dedupe afterDone) !! callId 1000 noOptions "r1" = Some ev.
Proof.
  assert (Hq : quiet afterSaved).
  { split; [vm_compute; reflexivity|]. split; [vm_compute; reflexivity|].
    intros tm id H.
    assert (Ht : timers afterSaved = []) by (vm_compute; reflexivity).
    rewrite Ht in H. by apply elem_of_nil in H. }
  assert (Hrun : Loop.run 0 [Loop.Call 9000 "Done" info noOptions "r2"; Loop.Fire] afterSaved
    = Some (Ok afterDone)) by (vm_compute; reflexivity).
  split; [exact Hq|]. split; [exact Hrun|].
  split; [vm_compute; eexists; reflexivity|].
  intros ev Hev.
  apply (active_events_persist 0 _ afterSaved afterDone Hq Hrun); [exact Hev|].
  intros H. apply list_elem_of_In in H.
  assert (Hk : callId 1000 noOptions "r1" <> callId 9000 noOptions "r2")
    by (vm_compute; discriminate).
  destruct H as [H|[]]. by apply Hk.
Defined.

(** ** C3: the same message twice within the dedupe window *)

Lemma step_fire_recent fuel w w' :
  Loop.step fuel Loop.Fire w = Some (Ok w') ->
  recentMessages (dedupe w') = recentMessages (dedupe w).
Proof.
  cbn [Loop.step]. destruct (Loop.earliest (timers w)) as [tm|]; [|discriminate].
  intros [= Hr]. destruct (tm_task tm) as [ch text k|ch text k|id|id] eqn:Ht.
  1-3: apply runTask_dedupe in Hr; [by rewrite Hr|intros ?; discriminate].
  cbn [Loop.runTask] in Hr. injection Hr as <-.
  unfold Visual.removeFired. by rewrite unregisterEvent_frame.
Qed.

Lemma checkDeduplication_keeps e w :
  let w1 := snd (Dedupe.checkDeduplication e w) in
  now w1 = now w /\ config w1 = config w /\ dom w1 = dom w /\ regions w1 = regions w /\
  announcer w1 = announcer w /\ visual w1 = visual w /\ listeners w1 = listeners w /\
  feedbackLog w1 = feedbackLog w /\ timers w1 = timers w /\
  nextTimerId w1 = nextTimerId w /\ trace w1 = trace w.
Proof. cbv zeta. rewrite checkDeduplication_frame. by repeat split. Qed.



(** A call whose key was recorded less than [DEDUPE_WINDOW_MS] ago, without
    [force] and without an id that is in use, is skipped: it returns the event
    with [deduped] set, emits [deduped] when somebody listens, and leaves
    the timers, the announcer, the dedupe maps, the visual layer and the
    regions' text alone. *)
Lemma step_call_skipped fuel t msg ty opts rnd w t0 :
  now w <= t ->
  recentMessages (dedupe w) !! Dedupe.generateKey msg ty = Some t0 ->
  t - t0 < DEDUPE_WINDOW_MS ->
  opt_force opts <> Some true ->
  (forall id, opt_id opts = Some id -> id = "" \/ activeEvents (dedupe w) !! id = None) ->
  let d := with_deduped (Notify.createFeedbackEvent msg ty opts t rnd) true in
  exists W,
    Notify.notify msg ty opts rnd (set_now t w) = Ok (Notify.Skipped d, W) /\
    Loop.step fuel (Loop.Call t msg ty opts rnd) w = Some (Ok W) /\
    (now W = t /\ config W = config w /\ dom W = dom (ensured w) /\
     regions W = regions (ensured w) /\ announcer W = announcer w /\
     dedupe W = dedupe w /\ visual W = visual w /\ listeners W = listeners w /\
     timers W = timers w /\ nextTimerId W = nextTimerId w) /\
    trace W
    = trace_add (trace w)
        (trace_add (emitDelta (listeners w)
                      (if Events.hasListeners "deduped" w
                       then [("deduped", PDeduped d "duplicate")] else []))
                   (returnedDelta d)).
Proof.
  intros Hnow Hrec Hwin Hforce Hid d.
  assert (Hstep : forall W, Notify.notify msg ty opts rnd (set_now t w) = Ok (Notify.Skipped d, W) ->
            Loop.step fuel (Loop.Call t msg ty opts rnd) w = Some (Ok W)).
  { intros W HW. cbn [Loop.step]. destruct (Z.ltb_spec t (now w)); [lia|]. by rewrite HW. }
  unfold Notify.notify in *. cbn [now set_now] in *.
  set (e := Notify.createFeedbackEvent msg ty opts t rnd) in *.
  rewrite processFeedback_ensured in *.
  destruct (ensured_fields (set_now t w)) as (En & Ec & Ea & Ed & Ev & El & Ef & Et & Ei & Eo & Etr).
  set (w0 := ensured (set_now t w)) in *.
  assert (Hs : settled w0) by apply ensured_settled.
  assert (Hc : Dedupe.checkDeduplication e w0
               = ({| Dedupe.shouldSkip := true; Dedupe.replacedEvent := None;
                     Dedupe.reason := "content_dedupe" |},
                  debugWarn "[a11y-feedback] Deduped event:" w0)).
  { rewrite checkDeduplication_fresh.
    - unfold Dedupe.isDuplicate. rewrite Ed, En. cbn [dedupe set_now now ev_message ev_type e
        Notify.createFeedbackEvent ev_options].
      rewrite Hrec. rewrite bool_decide_eq_false_2 by exact Hforce.
      destruct (Z.ltb_spec (t - t0) DEDUPE_WINDOW_MS); [reflexivity|lia].
    - rewrite Ed. exact Hid. }
  eexists. split; [|split; [apply Hstep|]].
  - rewrite (processFeedback_skips e w0 _ _ Hs Hc eq_refl). reflexivity.
  - rewrite (processFeedback_skips e w0 _ _ Hs Hc eq_refl). reflexivity.
  - rewrite debugWarn_spec. wsimpl. subst w0. rewrite ensured_set_now in *. wsimpl.
    split; [by repeat split|].
    unfold skipEmits, Events.hasListeners. wsimpl. by rewrite Etr, El.
Qed.



Lemma clearTimeout_single tm w :
  timers w = [tm] -> timers (clearTimeout (tm_id tm) w) = [].
Proof. intros H. unfold clearTimeout. wsimpl. rewrite H. cbn. by rewrite Nat.eqb_refl. Qed.







Lemma checkDeduplication_recent e w :
  recentMessages (dedupe (snd (Dedupe.checkDeduplication e w))) = recentMessages (dedupe w).
Proof.
  unfold Dedupe.checkDeduplication.
  repeat case_match; cbn [snd]; rewrite ?debugWarn_spec, ?unregisterEvent_frame; reflexivity.
Qed.

(** A call keeps the clock, and records its key exactly when it is not
    skipped. *)
Lemma processFeedback_recent e w p w' :
  Notify.processFeedback e w = Ok (p, w') ->
  now w' = now w /\
  recentMessages (dedupe w')
  = match p with
    | Notify.Skipped _ => recentMessages (dedupe w)
    | Notify.Awaiting _ =>
        filter (fun kv => ¬ (kv.2 < now w - DEDUPE_WINDOW_MS * 2))
          (<[Dedupe.generateKey (ev_message e) (ev_type e) := now w]> (recentMessages (dedupe w)))
    end.
Proof.
  rewrite processFeedback_ensured.
  destruct (ensured_fields w) as (En & _ & _ & Ed & _).
  set (w0 := ensured w) in *.
  assert (Hs : settled w0) by apply ensured_settled.
  destruct (Dedupe.checkDeduplication e w0) as [r w1] eqn:Hc.
  pose proof (checkDeduplication_keeps e w0) as Hf. rewrite Hc in Hf. cbn [snd] in Hf.
  destruct Hf as (Hn1 & _ & Hd1 & Hr1 & _).
  pose proof (checkDeduplication_recent e w0) as Hrec. rewrite Hc in Hrec. cbn [snd] in Hrec.
  assert (Hs1 : settled w1) by (eapply settled_frame; [exact Hr1|by rewrite Hd1|exact Hs]).
  destruct (Dedupe.shouldSkip r) eqn:Hk.
  - rewrite (processFeedback_skips e w0 r w1 Hs Hc Hk). intros [= <- <-]. wsimpl.
    by rewrite Hn1, En, Hrec, Ed.
  - rewrite (processFeedback_proceeds e w0 r w1 Hs Hc Hk). cbv zeta. intros [= <- <-].
    rewrite announce_general. wsimpl. unfold recorded. cbn [recentMessages ev_message ev_type with_replaced].
    by rewrite Hn1, En, Hrec, Ed.
Qed.

Lemma runTask_now fuel task w w' :
  Loop.runTask fuel task w = Ok w' -> now w' = now w.
Proof.
  destruct task as [ch text k|ch text k|id|id]; cbn [Loop.runTask]; intros Hr.
  - injection Hr as <-. by rewrite debounceFired_frame.
  - apply processTail_spec in Hr as (wv & (v & t & n & ->) & ->). wsimpl.
    rewrite announceDone_frame. wsimpl. by rewrite announceToRegion_general.
  - injection Hr as <-.
    by destruct (dismissVisualFeedback_visual_only id w) as (v & t & n & ->).
  - injection Hr as <-. unfold Visual.removeFired. rewrite unregisterEvent_frame. wsimpl.
    by destruct w.
Qed.

(** Time does not run backwards. *)
Lemma step_now fuel s w w' :
  Loop.step fuel s w = Some (Ok w') -> now w <= now w'.
Proof.
  destruct s as [t msg ty opts rnd| |t id]; cbn [Loop.step].
  - destruct (Z.ltb_spec t (now w)); [discriminate|].
    unfold Notify.notify.
    destruct (Notify.processFeedback _ _) as [[p w'']| |] eqn:Hp; try discriminate.
    cbn. intros [= <-]. apply processFeedback_recent in Hp as [-> _]. by cbn.
  - destruct (Loop.earliest (timers w)) as [tm|]; [|discriminate].
    intros [= Hr]. apply runTask_now in Hr. rewrite Hr. unfold clearTimeout. wsimpl. lia.
  - destruct (Z.ltb_spec t (now w)); [discriminate|]. intros [= <-].
    destruct (dismissVisualFeedback_visual_only id (set_now t w)) as (v & tt & n & ->).
    by cbn.
Qed.






(** ** C5: forced re-announcement *)

(** What [announce] does to the text and to the counter, on either path. *)
Lemma announce_text e o rep focus w :
  let w' := Announcer.announce e o rep focus w in
  zwcCounter (announcer w')
  = (if announceForced e w then zwcCounter (announcer w) + 1 else zwcCounter (announcer w))%N /\
  exists tm,
    tm ∈ timers w' /\
    (tm_task tm = TDebounce (ev_ariaLive e) (announceText e w) (pendingOf e o rep focus w) \/
     tm_task tm = TClearDelay (ev_ariaLive e) (announceText e w) (pendingOf e o rep focus w)).
Proof.
  cbv zeta. rewrite announce_ensured.
  rewrite <- (announceText_ensured e w), <- (pendingOf_ensured e o rep focus w).
  assert (Hf : announceForced e (ensured w) = announceForced e w).
  { unfold announceForced. by destruct (ensured_fields w) as (_ & _ & -> & _). }
  assert (Hc : zwcCounter (announcer (ensured w)) = zwcCounter (announcer w)).
  { by destruct (ensured_fields w) as (_ & _ & -> & _). }
  rewrite <- Hf, <- Hc.
  pose proof (ensured_settled w) as Hs. set (w0 := ensured w) in *.
  destruct (Z.le_gt_cases ANNOUNCEMENT_DEBOUNCE_MS
              (now w0 - Announcer.lastTimestamp (ev_ariaLive e) (announcer w0))) as [Hlate|Hsoon].
  - rewrite (announce_direct e o rep focus w0 Hs Hlate). wsimpl.
    split; [by destruct (announceForced e w0)|].
    eexists. split; [apply elem_of_app; right; apply list_elem_of_singleton; reflexivity|].
    by right.
  - rewrite (announce_debounced e o rep focus w0 Hs) by lia. wsimpl.
    split; [by destruct (ev_ariaLive e), (announceForced e w0)|].
    eexists. split; [apply elem_of_app; right; apply list_elem_of_singleton; reflexivity|].
    by left.
Qed.


Lemma step_call_debounced fuel t msg ty opts rnd w :
  settled w -> now w <= t ->
  opt_id opts = None -> opt_focus opts = None ->
  negb (bool_decide (opt_force opts = Some true)) && Dedupe.isDuplicate msg ty (set_now t w) = false ->
  t - Announcer.lastTimestamp (sem_ariaLive (FEEDBACK_SEMANTICS ty)) (announcer w)
    < ANNOUNCEMENT_DEBOUNCE_MS ->
  let o := with_replaced (Notify.createFeedbackEvent msg ty opts t rnd) false in
  let ch := sem_ariaLive (FEEDBACK_SEMANTICS ty) in
  Loop.step fuel (Loop.Call t msg ty opts rnd) w
  = Some (Ok (set_announcer
                (Announcer.set_debounceTimer ch (Some (nextTimerId w))
                   (bumpCounter (announceForced o w) (announcer w)))
                (set_timers
                   (cancel (Announcer.debounceTimer ch (announcer w)) (timers w)
                    ++ [{| tm_id := nextTimerId w;
                           tm_due := t + ANNOUNCEMENT_DEBOUNCE_MS;
                           tm_task := TDebounce ch (announceText o w)
                                        (pendingOf o o None noFocus w) |}])
                   (S (nextTimerId w))
                   (set_dedupe (recorded o (set_now t w))
                      (set_console (console w ++ debugEntries w ["[a11y-feedback] Registered event:"])
                         (set_now t w)))))).
Proof.
  intros Hs Hnow Hid Hfocus Hdup Hsoon o ch.
  unfold Loop.step. destruct (t <? now w) eqn:Ht; [apply Z.ltb_lt in Ht; lia|].
  unfold Notify.notify. cbn [now set_now].
  set (e := Notify.createFeedbackEvent msg ty opts t rnd) in *.
  assert (Hs' : settled (set_now t w)) by (eapply settled_frame; [..|exact Hs]; reflexivity).
  assert (Hc : Dedupe.checkDeduplication e (set_now t w)
               = ({| Dedupe.shouldSkip := false; Dedupe.replacedEvent := None;
                     Dedupe.reason := "none" |}, set_now t w)).
  { rewrite checkDeduplication_fresh by (cbn; intros id; rewrite Hid; discriminate).
    cbn [ev_options ev_message ev_type e Notify.createFeedbackEvent]. by rewrite Hdup. }
  rewrite (processFeedback_proceeds e _ _ _ Hs' Hc eq_refl).
  cbn [Dedupe.replacedEvent]. rewrite bool_decide_eq_false_2 by (intros H; by apply H).
  fold o. cbn [fmap Res_fmap snd].
  set (W3 := set_dedupe _ _).
  assert (Hof : opt_focus (ev_options o) = None) by exact Hfocus.
  destruct (focus_none_frame o W3 Hof) as (-> & -> & ->).
  rewrite buildMessage_noFocus, with_message_same.
  rewrite announce_debounced.
  - subst W3. unfold announceText, pendingOf, announceForced. wsimpl. reflexivity.
  - eapply settled_frame; [..|exact Hs]; reflexivity.
  - subst W3. wsimpl. exact Hsoon.
Qed.

Lemma tailEmits_plain k W w o :
  listeners W = listeners w -> p_focus k = noFocus -> p_replacedEvent k = None ->
  p_event k = o ->
  tailEmits k false (container (visual W)) W
  = if Events.hasListeners "announced" w || Events.hasListeners "replaced" w
    then [("announced", PAnnounced o (ev_ariaLive o))] else [].
Proof.
  intros HW Hf Hr <-. unfold tailEmits, Events.hasListeners. rewrite HW, Hf, Hr.
  cbn [moved noFocus andb app]. by rewrite app_nil_r.
Qed.





(** ** The visual layer when it is full *)

Lemma initVisual_keeps w :
  config (Visual.initVisual w) = config w /\
  dom (Visual.initVisual w) = dom w /\
  activeItems (visual (Visual.initVisual w)) = activeItems (visual w).
Proof. unfold Visual.initVisual. by case_match. Qed.

Lemma initVisual_container w :
  cfg_visual (config w) = true -> dom_available (dom w) = true ->
  container (visual (Visual.initVisual w)) = true.
Proof. intros Hv Hd. unfold Visual.initVisual. by rewrite Hv, Hd. Qed.

Lemma showVisualFeedback_full fuel e w :
  cfg_visual (config w) = true -> dom_available (dom w) = true ->
  cfg_maxVisualItems (config w) <= Z.of_nat (length (activeItems (visual w))) ->
  Visual.showVisualFeedback fuel e w = OutOfFuel.
Proof.
  intros Hv Hd Hfull. unfold Visual.showVisualFeedback. rewrite Hv. cbn [negb].
  rewrite (initVisual_container w Hv Hd). cbn [negb].
  destruct (initVisual_keeps w) as (Hc & _ & Hi).
  rewrite evictWhileFull_stalls; [reflexivity|]. by rewrite Hc, Hi.
Qed.

(** X1. With visual mode on and as many toasts on screen as
    [maxVisualItems] allows, [showVisualFeedback] never returns, whatever the
    fuel: its eviction loop calls [dismissVisualFeedback] on the oldest toast,
    which takes the toast out of the map only in a timer callback, so the
    map's size never drops while the loop runs. The turn that completes an
    announcement for a new (not replaced) event therefore never ends: the
    region has been written, but the promise is not resolved and no event is
    emitted. *)
Theorem full_visual_layer_never_returns fuel e w :
  cfg_visual (config w) = true -> dom_available (dom w) = true ->
  cfg_maxVisualItems (config w) <= Z.of_nat (length (activeItems (visual w))) ->
  Visual.showVisualFeedback fuel e w = OutOfFuel /\
  forall ch text k,
    settled w -> p_replacedEvent k = None ->
    Loop.runTask fuel (TClearDelay ch text k) w = OutOfFuel.
Proof.
  intros Hv Hd Hfull. split; [by apply showVisualFeedback_full|].
  intros ch text k Hs Hrep. cbn [Loop.runTask]. unfold Notify.processTail.
  rewrite announceDone_frame. wsimpl.
  rewrite (announceToRegion_frame ch text w Hs). wsimpl.
  rewrite Hv, Hrep. rewrite bool_decide_eq_false_2 by (intros H; by apply H).
  match goal with
  | |- context [Visual.showVisualFeedback _ _ (Visual.initVisual ?W)] => set (W0 := W)
  end.
  destruct (initVisual_keeps W0) as (Hc & Hdm & Hi).
  assert (Hav : dom_available (dom W0) = true).
  { subst W0. wsimpl. by destruct (announceToRegion_dom ch text w Hs) as (-> & _). }
  rewrite showVisualFeedback_full; [reflexivity|by rewrite Hc|by rewrite Hdm|].
  rewrite Hc, Hi. exact Hfull.
Qed.

Lemma full_visual_layer_never_returns_witness :
  length (activeItems (visual oneToast)) = 1%nat /\
  Visual.showVisualFeedback 7
    (Notify.createFeedbackEvent "Again" error noOptions 2000 "r2") oneToast = OutOfFuel.
Proof.
  split; [vm_compute; reflexivity|].
  refine (proj1 (full_visual_layer_never_returns 7
           (Notify.createFeedbackEvent "Again" error noOptions 2000 "r2") oneToast _ _ _)).
  - vm_compute; reflexivity.
  - vm_compute; reflexivity.
  - vm_compute. discriminate.
Defined.

(** ** The dedupe window *)

Lemma generateKey_inj m t m' t' :
  Dedupe.generateKey m t = Dedupe.generateKey m' t' -> m = m' /\ t = t'.
Proof.
  unfold Dedupe.generateKey.
  destruct t, t'; cbn; intros H; try discriminate; injection H as H; cbn in H; subst; by split.
Qed.

Lemma recordMessage_recent e t w :
  recentMessages (dedupe (Dedupe.recordMessage e t w))
  = filter (fun kv => ¬ (kv.2 < now w - DEDUPE_WINDOW_MS * 2))
      (<[Dedupe.generateKey e t := now w]> (recentMessages (dedupe w))).
Proof. reflexivity. Qed.

(** X2. [recordMessage] followed by [isDuplicate] for the same type and
    text, [d] milliseconds later: a duplicate exactly when [d] is less than
    [DEDUPE_WINDOW_MS], so at 500 ms sharp the message is no duplicate any
    more. Recording leaves no entry older than twice the window in the map and
    keeps every younger one. *)
Theorem dedupe_window_is_half_open msg ty w :
  (forall d, Dedupe.isDuplicate msg ty (set_now (now w + d) (Dedupe.recordMessage msg ty w))
             = (d <? DEDUPE_WINDOW_MS)) /\
  (forall key v, recentMessages (dedupe (Dedupe.recordMessage msg ty w)) !! key = Some v ->
                 now w - 2 * DEDUPE_WINDOW_MS <= v) /\
  (forall key v, key <> Dedupe.generateKey msg ty ->
                 recentMessages (dedupe w) !! key = Some v ->
                 now w - 2 * DEDUPE_WINDOW_MS <= v ->
                 recentMessages (dedupe (Dedupe.recordMessage msg ty w)) !! key = Some v).
Proof.
  split; [|split].
  - intros d. unfold Dedupe.isDuplicate. cbn [dedupe set_now now]. rewrite recordMessage_recent.
    assert (H : filter (fun kv => ¬ (kv.2 < now w - DEDUPE_WINDOW_MS * 2))
                  (<[Dedupe.generateKey msg ty := now w]> (recentMessages (dedupe w)))
                !! Dedupe.generateKey msg ty = Some (now w)).
    { apply map_lookup_filter_Some. split; [apply lookup_insert_eq|].
      cbn. unfold DEDUPE_WINDOW_MS. lia. }
    rewrite H. f_equal. lia.
  - intros key v. rewrite recordMessage_recent.
    intros [_ H]%map_lookup_filter_Some. cbn in H. lia.
  - intros key v Hne Hv Hyoung. rewrite recordMessage_recent.
    apply map_lookup_filter_Some. split; [by rewrite lookup_insert_ne|]. cbn. lia.
Qed.

(** X3. The dedupe key tells types and texts apart: recording one message
    never makes a message of another type, or with another text, a duplicate
    (nor stops it being one). *)
Theorem other_messages_are_not_duplicates msg ty msg' ty' t w :
  (msg', ty') <> (msg, ty) -> now w <= t ->
  Dedupe.isDuplicate msg' ty' (set_now t (Dedupe.recordMessage msg ty w))
  = Dedupe.isDuplicate msg' ty' (set_now t w).
Proof.
  intros Hne Hnow. unfold Dedupe.isDuplicate. cbn [dedupe set_now now].
  rewrite recordMessage_recent.
  assert (Hk : Dedupe.generateKey msg ty <> Dedupe.generateKey msg' ty').
  { intros [-> ->]%generateKey_inj. by apply Hne. }
  set (m := filter _ _).
  destruct (recentMessages (dedupe w) !! Dedupe.generateKey msg' ty') as [v|] eqn:Hv.
  - destruct (decide (v < now w - DEDUPE_WINDOW_MS * 2)) as [Hold|Hyoung].
    + assert (Hm : m !! Dedupe.generateKey msg' ty' = None).
      { apply map_lookup_filter_None. right. intros x.
        rewrite lookup_insert_ne by exact Hk. rewrite Hv. intros [= <-]. cbn. tauto. }
      rewrite Hm. symmetry. apply Z.ltb_ge. unfold DEDUPE_WINDOW_MS in *. lia.
    + assert (Hm : m !! Dedupe.generateKey msg' ty' = Some v).
      { apply map_lookup_filter_Some. split; [by rewrite lookup_insert_ne|exact Hyoung]. }
      by rewrite Hm.
  - assert (Hm : m !! Dedupe.generateKey msg' ty' = None).
    { apply map_lookup_filter_None. left. by rewrite lookup_insert_ne. }
    by rewrite Hm.
Qed.

Lemma other_messages_are_not_duplicates_witness :
  Dedupe.isDuplicate "Saved" info (set_now 1100 (Dedupe.recordMessage "Saved" success afterSaved))
  = Dedupe.isDuplicate "Saved" info (set_now 1100 afterSaved).
Proof.
  refine (other_messages_are_not_duplicates "Saved" success "Saved" info 1100 afterSaved _ _).
  - discriminate.
  - vm_compute. discriminate.
Defined.

Lemma checkDeduplication_forced e w :
  opt_force (ev_options e) = Some true ->
  Dedupe.shouldSkip (fst (Dedupe.checkDeduplication e w)) = false.
Proof.
  intros Hf. unfold Dedupe.checkDeduplication. rewrite Hf.
  rewrite bool_decide_eq_true_2 by reflexivity. cbn [negb andb].
  by repeat case_match.
Qed.

Lemma notify_proceeds msg ty opts rnd w :
  Dedupe.shouldSkip
    (fst (Dedupe.checkDeduplication (Notify.createFeedbackEvent msg ty opts (now w) rnd)
            (ensured w))) = false ->
  exists o w',
    Notify.notify msg ty opts rnd w = Ok (Notify.Awaiting o, w') /\
    ev_deduped o = false /\ ev_message o = msg /\ ev_type o = ty.
Proof.
  intros Hk. unfold Notify.notify. rewrite processFeedback_ensured.
  set (e := Notify.createFeedbackEvent msg ty opts (now w) rnd) in *.
  destruct (Dedupe.checkDeduplication e (ensured w)) as [r w1] eqn:Hc. cbn [fst] in Hk.
  rewrite (processFeedback_proceeds e (ensured w) r w1 (ensured_settled w) Hc Hk).
  cbv zeta. eexists _, _. split; [reflexivity|]. by repeat split.
Qed.

(** X4. A call with [force: true] is never skipped as a duplicate, however
    recently the same message was recorded and whatever id it carries: it is
    processed and handed on to the announcer. *)
Theorem forced_call_is_never_skipped msg ty opts rnd w :
  opt_force opts = Some true ->
  exists o w',
    Notify.notify msg ty opts rnd w = Ok (Notify.Awaiting o, w') /\
    ev_deduped o = false /\ ev_message o = msg /\ ev_type o = ty.
Proof.
  intros Hf. apply notify_proceeds. by apply checkDeduplication_forced.
Qed.

Lemma forced_call_is_never_skipped_witness :
  Dedupe.isDuplicate "Saved" success (set_now 1100 afterSaved) = true /\
  exists o w',
    Notify.notify "Saved" success forceOnly "r2" (set_now 1100 afterSaved)
      = Ok (Notify.Awaiting o, w') /\
    ev_deduped o = false /\ ev_message o = "Saved" /\ ev_type o = success.
Proof.
  split; [vm_compute; reflexivity|].
  refine (forced_call_is_never_skipped "Saved" success forceOnly "r2" (set_now 1100 afterSaved) _).
  reflexivity.
Defined.

Lemma fires_keep_recent fuel n w w' :
  Loop.run fuel (repeat Loop.Fire n) w = Some (Ok w') ->
  recentMessages (dedupe w') = recentMessages (dedupe w) /\ now w <= now w'.
Proof.
  revert w. induction n as [|n IH]; intros w; cbn [repeat Loop.run].
  - intros [= <-]. split; [reflexivity|lia].
  - destruct (Loop.step fuel Loop.Fire w) as [[w1| |]|] eqn:Hs; try discriminate.
    intros Hr. destruct (IH w1 Hr) as [-> Hle].
    split; [by apply (step_fire_recent fuel)|]. apply step_now in Hs. lia.
Qed.

(** X5. A skipped call does not restart the dedupe window: the window runs
    from the last call that was processed. After a skip at [t2] the same
    message is processed again as soon as [DEDUPE_WINDOW_MS] have passed
    since the recorded time [t0], however short the time since [t2], and
    whatever timers fired in between. *)
Theorem skip_does_not_extend_window fuel msg ty o2 r2 w t0 t2 :
  recentMessages (dedupe w) !! Dedupe.generateKey msg ty = Some t0 ->
  now w <= t2 -> t2 - t0 < DEDUPE_WINDOW_MS ->
  opt_force o2 <> Some true ->
  (forall id, opt_id o2 = Some id -> id = "" \/ activeEvents (dedupe w) !! id = None) ->
  exists w2,
    Loop.step fuel (Loop.Call t2 msg ty o2 r2) w = Some (Ok w2) /\
    recentMessages (dedupe w2) !! Dedupe.generateKey msg ty = Some t0 /\
    forall n w3 t3 o3 r3,
      Loop.run fuel (repeat Loop.Fire n) w2 = Some (Ok w3) ->
      (forall id, opt_id o3 = Some id -> id = "" \/ activeEvents (dedupe w3) !! id = None) ->
      DEDUPE_WINDOW_MS <= t3 - t0 ->
      exists o w4,
        Notify.notify msg ty o3 r3 (set_now t3 w3) = Ok (Notify.Awaiting o, w4) /\
        ev_deduped o = false.
Proof.
  intros Hrec Hnow Hwin Hforce Hid.
  destruct (step_call_skipped fuel t2 msg ty o2 r2 w t0 Hnow Hrec Hwin Hforce Hid)
    as (w2 & _ & Hstep & (_ & _ & _ & _ & _ & Hd & _) & _).
  exists w2. split; [exact Hstep|]. split; [by rewrite Hd|].
  intros n w3 t3 o3 r3 Hrun Hid3 Hlate.
  apply fires_keep_recent in Hrun as [Hr3 _].
  destruct (notify_proceeds msg ty o3 r3 (set_now t3 w3)) as (o & w4 & Hn & Hdd & _).
  - rewrite ensured_set_now. cbn [now set_now].
    destruct (ensured_fields w3) as (_ & _ & _ & Ed & _).
    rewrite checkDeduplication_fresh by (cbn [dedupe set_now]; rewrite Ed; exact Hid3).
    unfold Dedupe.isDuplicate. cbn [dedupe set_now now ev_message ev_type
      Notify.createFeedbackEvent].
    rewrite Ed, Hr3, Hd, Hrec.
    destruct (Z.ltb_spec (t3 - t0) DEDUPE_WINDOW_MS); [lia|].
    by rewrite andb_false_r.
  - by exists o, w4.
Qed.

Lemma skip_does_not_extend_window_witness :
  exists w2,
    Loop.step 0 (Loop.Call 1400 "Saved" success noOptions "r2") afterSaved = Some (Ok w2) /\
    exists o w4,
      Notify.notify "Saved" success noOptions "r3" (set_now 1500 w2)
        = Ok (Notify.Awaiting o, w4) /\
      ev_deduped o = false.
Proof.
  destruct (skip_does_not_extend_window 0 "Saved" success noOptions "r2" afterSaved 1000 1400)
    as (w2 & Hs & _ & H3).
  - vm_compute; reflexivity.
  - vm_compute; discriminate.
  - unfold DEDUPE_WINDOW_MS; lia.
  - discriminate.
  - intros id H; discriminate.
  - exists w2. split; [exact Hs|].
    apply (H3 0%nat w2 1500 noOptions "r3").
    + reflexivity.
    + intros id H; discriminate.
    + unfold DEDUPE_WINDOW_MS; lia.
Defined.

(** ** Moving focus *)

Lemma set_page_dom p a w :
  dom (Focus.set_page p a w)
  = {| dom_available := dom_available (dom w); dom_body := dom_body (dom w);
       dom_page := p; dom_activeElement := a;
       dom_reducedMotion := dom_reducedMotion (dom w) |}.
Proof. reflexivity. Qed.

(** X6. [moveFocusToElement] always names its target, reports [moved]
    exactly when it gives no blocked reason, and [moved] means the target is
    the document's active element afterwards, while a failed move leaves the
    active element alone. No other element of the page is touched; the target
    itself is at most given [tabindex="-1"], and that exactly when it exists
    and [isFocusable] says no, whether or not the move then succeeds. *)
Theorem focus_move_outcomes f w :
  let r := fst (Focus.moveFocusToElement f w) in
  let w' := snd (Focus.moveFocusToElement f w) in
  target r = Some f /\
  (moved r = true <-> blockedReason r = None) /\
  (moved r = true -> dom_activeElement (dom w') = Some f) /\
  (moved r = false -> dom_activeElement (dom w') = dom_activeElement (dom w)) /\
  (forall g, g <> f -> dom_page (dom w') !! g = dom_page (dom w) !! g) /\
  dom_page (dom w') !! f
  = (fun t => if dom_available (dom w) && negb (Focus.isFocusable t)
              then Focus.set_tabindex (-1) t else t) <$> dom_page (dom w) !! f.
Proof.
  cbv zeta. unfold Focus.moveFocusToElement, Focus.queryElement.
  destruct (dom_available (dom w)) eqn:Hav; cbn [negb andb].
  2:{ cbn [fst snd moved target blockedReason]. repeat split; try done.
      by destruct (dom_page (dom w) !! f). }
  destruct (dom_page (dom w) !! f) as [t|] eqn:Hf; cbn [fmap option_fmap option_map].
  2:{ rewrite debugWarn_spec. cbn [fst snd moved target blockedReason]. wsimpl.
      repeat split; try done. }
  destruct (Focus.isFocusable t) eqn:Hfoc; cbn [negb];
    destruct (el_focus t) eqn:Hact;
    rewrite ?debugWarn_spec;
    repeat match goal with
    | |- context [if cfg_debug ?c then _ else _] => destruct (cfg_debug c)
    end;
    cbn [fst snd moved target blockedReason log_console]; wsimpl;
    rewrite ?set_page_dom; cbn [dom_activeElement dom_page];
    repeat match goal with
    | |- context [bool_decide (?a = ?b)] => destruct (bool_decide_reflect (a = b))
    end;
    repeat split; try done; try congruence;
    try (intros g Hg; by rewrite lookup_insert_ne);
    try (by rewrite lookup_insert_eq).
Qed.

Lemma notify_awaits msg ty opts rnd w o w' :
  Notify.notify msg ty opts rnd w = Ok (Notify.Awaiting o, w') ->
  let e := Notify.createFeedbackEvent msg ty opts (now w) rnd in
  let t := fst (Dedupe.checkDeduplication e (ensured w)) in
  let w1 := snd (Dedupe.checkDeduplication e (ensured w)) in
  let W3 := set_dedupe (recorded o w1)
              (set_console (console w1 ++ debugEntries w1 ["[a11y-feedback] Registered event:"]) w1) in
  let r := fst (Focus.handleFocus o W3) in
  let s := with_message o (Focus.buildMessageWithFocus (ev_message o) o r W3) in
  o = with_replaced e (bool_decide (Dedupe.replacedEvent t <> None)) /\
  w' = Announcer.announce s o (Dedupe.replacedEvent t) r
         (set_console (focusConsole o W3) (set_dom (focusDom o W3) W3)).
Proof.
  unfold Notify.notify. rewrite processFeedback_ensured.
  set (e := Notify.createFeedbackEvent msg ty opts (now w) rnd).
  destruct (Dedupe.checkDeduplication e (ensured w)) as [r w1] eqn:Hc.
  destruct (Dedupe.shouldSkip r) eqn:Hk.
  - by rewrite (processFeedback_skips e (ensured w) r w1 (ensured_settled w) Hc Hk).
  - rewrite (processFeedback_proceeds e (ensured w) r w1 (ensured_settled w) Hc Hk).
    cbv zeta. cbn [fst snd]. intros [= <- <-]. by split.
Qed.

(** X7. The focus explanation goes into the spoken text only: when a call
    is processed, the event its continuation resolves with (and publishes)
    keeps the message as the caller gave it. The spoken text is that message,
    followed by [" "] and [getFocusExplanation] of the element's name exactly
    when [explainFocus] is [true] and focus did move. The text handed to the
    region is the spoken text, followed by the zero-width character of the
    counter exactly when [force] is [true] or the spoken text, explanation
    included, equals the channel's last message. *)
Theorem focus_explanation_is_only_spoken msg ty opts rnd w o w' :
  Notify.notify msg ty opts rnd w = Ok (Notify.Awaiting o, w') ->
  exists tm text k,
    tm ∈ timers w' /\
    (tm_task tm = TDebounce (ev_ariaLive o) text k \/
     tm_task tm = TClearDelay (ev_ariaLive o) text k) /\
    p_event k = o /\ ev_message o = msg /\
    let spoken :=
      if bool_decide (opt_explainFocus opts = Some true) && moved (p_focus k)
      then msg +:+ " " +:+ Focus.getFocusExplanation (elementName (p_focus k)) w
      else msg in
    let forced :=
      bool_decide (opt_force opts = Some true)
      || bool_decide (Some spoken = Announcer.lastMessage (ev_ariaLive o) (announcer w)) in
    ev_message (p_spoken k) = spoken /\
    p_forced k = forced /\
    text = (if forced then spoken +:+ getZeroWidthChar (zwcCounter (announcer w))
            else spoken).
Proof.
  intros Hn. apply notify_awaits in Hn. cbv zeta in Hn. destruct Hn as [Ho ->].
  set (e := Notify.createFeedbackEvent msg ty opts (now w) rnd) in *.
  pose proof (checkDeduplication_frame e (ensured w)) as Hw1.
  set (t := fst (Dedupe.checkDeduplication e (ensured w))) in *.
  set (w1 := snd (Dedupe.checkDeduplication e (ensured w))) in *.
  set (W3 := set_dedupe _ _).
  set (r := fst (Focus.handleFocus o W3)).
  set (s := with_message o _).
  set (Wf := set_console _ _).
  assert (HA : announcer Wf = announcer w).
  { subst Wf W3. wsimpl. rewrite Hw1. wsimpl.
    by destruct (ensured_fields w) as (_ & _ & -> & _). }
  assert (HC : config W3 = config w).
  { subst W3. wsimpl. rewrite Hw1. wsimpl.
    by destruct (ensured_fields w) as (_ & -> & _). }
  assert (HL : locales W3 = locales w).
  { subst W3. wsimpl. rewrite Hw1. wsimpl. by rewrite (ensured_frame w). }
  destruct (announce_text s o (Dedupe.replacedEvent t) r Wf) as (_ & tm & Hin & Htask).
  exists tm, (announceText s Wf), (pendingOf s o (Dedupe.replacedEvent t) r Wf).
  split; [exact Hin|]. split; [exact Htask|]. split; [reflexivity|].
  assert (Hm : ev_message o = msg) by (by rewrite Ho).
  assert (Hopts : ev_options o = opts) by (by rewrite Ho).
  split; [exact Hm|].
  assert (Hs : ev_message s
               = (if bool_decide (opt_explainFocus opts = Some true) && moved r
                  then msg +:+ " " +:+ Focus.getFocusExplanation (elementName r) w
                  else msg)).
  { subst s. cbn [with_message ev_message].
    rewrite (buildMessageWithFocus_frame _ _ _ w W3 HC HL).
    unfold Focus.buildMessageWithFocus. rewrite Hopts, Hm.
    destruct (bool_decide (opt_explainFocus opts = Some true)); destruct (moved r); reflexivity. }
  assert (Hf : announceForced s Wf
               = bool_decide (opt_force opts = Some true)
                 || bool_decide (Some (ev_message s)
                                 = Announcer.lastMessage (ev_ariaLive o) (announcer w))).
  { unfold announceForced. rewrite HA. subst s. cbn [with_message ev_options ev_ariaLive].
    by rewrite Hopts. }
  cbn [pendingOf p_spoken p_focus p_forced]. cbv zeta.
  unfold announceText. rewrite Hf, HA, Hs. by repeat split.
Qed.

Lemma focus_explanation_is_only_spoken_witness :
  exists o w',
    Notify.notify "Invalid" error
      {| opt_id := None; opt_focus := Some "#email"; opt_explainFocus := Some true;
         opt_force := None; opt_timeout := None; opt_className := None |} "r1"
      (set_now 1000 formPage) = Ok (Notify.Awaiting o, w') /\
    exists tm text k,
      tm ∈ timers w' /\
      (tm_task tm = TDebounce (ev_ariaLive o) text k \/
       tm_task tm = TClearDelay (ev_ariaLive o) text k) /\
      p_event k = o /\ ev_message o = "Invalid".
Proof.
  eexists _, _. split; [vm_compute; reflexivity|].
  destruct (focus_explanation_is_only_spoken "Invalid" error
              {| opt_id := None; opt_focus := Some "#email"; opt_explainFocus := Some true;
                 opt_force := None; opt_timeout := None; opt_className := None |}
              "r1" (set_now 1000 formPage) _ _ ltac:(vm_compute; reflexivity))
    as (tm & text & k & Hin & Htask & Hk & Hm & _).
  exists tm, text, k. by repeat split.
Defined.

(** ** The debug log *)

Lemma shiftWhileOver_drop {A : Type} fuel (b : list A) :
  (length b - MAX_LOG_ENTRIES <= fuel)%nat ->
  Debug.shiftWhileOver fuel b = drop (length b - MAX_LOG_ENTRIES) b.
Proof.
  revert b. induction fuel as [|f IH]; intros b Hf; cbn [Debug.shiftWhileOver].
  - by replace (length b - MAX_LOG_ENTRIES)%nat with 0%nat by lia.
  - destruct (Nat.ltb_spec MAX_LOG_ENTRIES (length b)) as [Hover|Hfits].
    + destruct b as [|x b]; [cbn in Hover; lia|]. cbn [tail length] in *.
      rewrite IH by lia.
      replace (S (length b) - MAX_LOG_ENTRIES)%nat with (S (length b - MAX_LOG_ENTRIES)) by lia.
      reflexivity.
    + by replace (length b - MAX_LOG_ENTRIES)%nat with 0%nat by lia.
Qed.

Lemma last_drop_lt {A : Type} n (l : list A) :
  (n < length l)%nat -> last (drop n l) = last l.
Proof.
  revert l. induction n as [|n IH]; intros l Hn; [by rewrite drop_0|].
  destruct l as [|x l]; [cbn in Hn; lia|]. cbn [drop].
  rewrite IH by (cbn in Hn; lia).
  destruct l as [|y l]; [cbn in Hn; lia|reflexivity].
Qed.

Lemma pushLog_drop o b :
  pushLog o b = drop (length b + 1 - MAX_LOG_ENTRIES) (b ++ [o]).
Proof.
  unfold pushLog. rewrite shiftWhileOver_drop by lia. by rewrite length_app.
Qed.

(** X8. [logFeedbackEvent] always appends its entry to the debug log,
    debug mode or not, and then drops entries from the front until at most
    [MAX_LOG_ENTRIES] are left: the log is the last hundred entries, the new
    one last. Only the console output depends on debug mode. *)
Theorem debug_log_keeps_last_hundred e t region fr vs w :
  let o := {| log_event := e; log_action := t; log_region := region;
              log_focusMoved := default false (moved <$> fr);
              log_focusTarget := fr ≫= target;
              log_focusBlocked := fr ≫= blockedReason;
              log_visualShown := default false vs |} in
  let w' := Debug.logFeedbackEvent e t region fr vs w in
  feedbackLog w'
  = drop (length (feedbackLog w) + 1 - MAX_LOG_ENTRIES) (feedbackLog w ++ [o]) /\
  last (feedbackLog w') = Some o /\
  (length (feedbackLog w') <= MAX_LOG_ENTRIES \/
   length (feedbackLog w') < length (feedbackLog w))%nat /\
  ((length (feedbackLog w) <= MAX_LOG_ENTRIES)%nat ->
   length (feedbackLog w') = Nat.min (length (feedbackLog w) + 1) MAX_LOG_ENTRIES) /\
  (cfg_debug (config w) = false -> console w' = console w).
Proof.
  cbv zeta. unfold Debug.logFeedbackEvent. rewrite debugWarn_spec. wsimpl.
  fold (pushLog {| log_event := e; log_action := t; log_region := region;
                   log_focusMoved := default false (moved <$> fr);
                   log_focusTarget := fr ≫= target;
                   log_focusBlocked := fr ≫= blockedReason;
                   log_visualShown := default false vs |} (feedbackLog w)).
  rewrite pushLog_drop. set (b := feedbackLog w). set (o := Build_FeedbackLogEntry _ _ _ _ _ _ _).
  assert (Hlen : length (drop (length b + 1 - MAX_LOG_ENTRIES) (b ++ [o]))
                 = (length b + 1 - (length b + 1 - MAX_LOG_ENTRIES))%nat).
  { by rewrite length_drop, length_app. }
  unfold MAX_LOG_ENTRIES in *.
  split; [reflexivity|]. split; [|split; [lia|split; [lia|]]].
  - rewrite last_drop_lt by (rewrite length_app; cbn; lia). apply last_snoc.
  - intros Hd. unfold debugEntries. wsimpl. rewrite Hd. by rewrite app_nil_r.
Qed.

(** X9. [getRecentFeedback(e)] is [b.slice(-e)]: for a positive [e] the
    last [e] entries (all of them when the log is shorter); for [e = 0] the
    whole log, not the empty list, since [slice(-0)] starts at the front; for
    a negative [e] the log without its first [-e] entries. Without an
    argument it gives the last ten. *)
Theorem recent_feedback_is_a_slice w :
  let b := feedbackLog w in
  (forall e, 0 < e ->
     DebugLog.getRecentFeedback (Some e) w = drop (length b - Z.to_nat e) b /\
     length (DebugLog.getRecentFeedback (Some e) w) = Nat.min (Z.to_nat e) (length b)) /\
  DebugLog.getRecentFeedback (Some 0) w = b /\
  (forall e, e < 0 -> DebugLog.getRecentFeedback (Some e) w = drop (Z.to_nat (- e)) b) /\
  DebugLog.getRecentFeedback None w = drop (length b - 10) b.
Proof.
  cbv zeta. unfold DebugLog.getRecentFeedback, DebugLog.slice. cbn [default from_option id].
  set (b := feedbackLog w).
  assert (Hpos : forall e, 0 < e ->
            drop (Z.to_nat (if - e <? 0 then Z.max (Z.of_nat (length b) + - e) 0
                            else Z.min (- e) (Z.of_nat (length b)))) b
            = drop (length b - Z.to_nat e) b).
  { intros e He. destruct (Z.ltb_spec (- e) 0); [|lia]. f_equal. lia. }
  split; [|split; [|split]].
  - intros e He. rewrite Hpos by exact He. split; [reflexivity|].
    rewrite length_drop. lia.
  - change (- 0) with 0. change (0 <? 0) with false. cbv iota.
    rewrite Z.min_l by lia. apply drop_0.
  - intros e He. destruct (Z.ltb_spec (- e) 0); [lia|].
    destruct (Z.le_gt_cases (- e) (Z.of_nat (length b))).
    + f_equal. lia.
    + rewrite !drop_ge by lia. reflexivity.
  - rewrite (Hpos 10) by lia. reflexivity.
Qed.

Lemma typeName_inj t t' : typeName t = typeName t' -> t = t'.
Proof. by destruct t, t'. Qed.

Lemma bump_lookup k k' m :
  DebugLog.bump k m !! k'
  = if decide (k = k') then Some (S (default 0%nat (m !! k))) else m !! k'.
Proof.
  unfold DebugLog.bump. destruct (decide (k = k')) as [->|Hne].
  - apply lookup_insert_eq.
  - by apply lookup_insert_ne.
Qed.

Lemma stats_fold l : forall a,
  let s := foldl DebugLog.countEntry a l in
  DebugLog.st_total s = DebugLog.st_total a /\
  (forall t, DebugLog.st_byType s !! typeName t = None <->
             DebugLog.st_byType a !! typeName t = None /\
             List.filter (fun x => bool_decide (ev_type (log_event x) = t)) l = []) /\
  (forall t, default 0%nat (DebugLog.st_byType s !! typeName t)
             = (default 0%nat (DebugLog.st_byType a !! typeName t)
                + length (List.filter (fun x => bool_decide (ev_type (log_event x) = t)) l))%nat) /\
  (forall k, default 0%nat (DebugLog.st_byAction s !! k)
             = (default 0%nat (DebugLog.st_byAction a !! k)
                + length (List.filter (fun x => String.eqb (log_action x) k) l))%nat) /\
  DebugLog.st_focusMoved s = (DebugLog.st_focusMoved a + length (List.filter log_focusMoved l))%nat /\
  DebugLog.st_visualShown s = (DebugLog.st_visualShown a + length (List.filter log_visualShown l))%nat /\
  DebugLog.st_deduped s = (DebugLog.st_deduped a + length (List.filter (fun x => ev_deduped (log_event x)) l))%nat /\
  DebugLog.st_replaced s = (DebugLog.st_replaced a + length (List.filter (fun x => ev_replaced (log_event x)) l))%nat.
Proof.
  induction l as [|x l IH]; intros a; cbn [foldl List.filter].
  - cbv zeta. repeat split; try (cbn; lia); tauto.
  - specialize (IH (DebugLog.countEntry a x)). cbv zeta in *.
    destruct IH as (H1 & H2 & H3 & H4 & H5 & H6 & H7 & H8).
    cbn [DebugLog.countEntry DebugLog.st_total DebugLog.st_byType DebugLog.st_byAction DebugLog.st_focusMoved DebugLog.st_visualShown
         DebugLog.st_deduped DebugLog.st_replaced] in *.
    split; [exact H1|]. split; [|split; [|split; [|split; [|split; [|split]]]]].
    + intros t. rewrite H2, bump_lookup.
      destruct (bool_decide_reflect (ev_type (log_event x) = t)) as [->|Hne].
      * rewrite decide_True by reflexivity. split; [intros [? _]; discriminate|].
        intros [_ ?]; discriminate.
      * rewrite decide_False by (intros ?%typeName_inj; contradiction). reflexivity.
    + intros t. rewrite H3, bump_lookup.
      destruct (bool_decide_reflect (ev_type (log_event x) = t)) as [->|Hne].
      * rewrite decide_True by reflexivity. cbn. lia.
      * rewrite decide_False by (intros ?%typeName_inj; contradiction). reflexivity.
    + intros k. rewrite H4, bump_lookup.
      destruct (String.eqb_spec (log_action x) k) as [->|Hne].
      * rewrite decide_True by reflexivity. cbn. lia.
      * by rewrite decide_False.
    + rewrite H5. destruct (log_focusMoved x); cbn; lia.
    + rewrite H6. destruct (log_visualShown x); cbn; lia.
    + rewrite H7. destruct (ev_deduped (log_event x)); cbn; lia.
    + rewrite H8. destruct (ev_replaced (log_event x)); cbn; lia.
Qed.

Lemma filter_by_type_total (l : list FeedbackLogEntry) :
  (length (List.filter (fun x => bool_decide (ev_type (log_event x) = success)) l)
   + length (List.filter (fun x => bool_decide (ev_type (log_event x) = info)) l)
   + length (List.filter (fun x => bool_decide (ev_type (log_event x) = loading)) l)
   + length (List.filter (fun x => bool_decide (ev_type (log_event x) = warning)) l)
   + length (List.filter (fun x => bool_decide (ev_type (log_event x) = error)) l))%nat
  = length l.
Proof.
  induction l as [|x l IH]; [reflexivity|]. cbn [List.filter length].
  destruct (ev_type (log_event x));
    repeat match goal with
    | |- context [bool_decide (?a = ?b)] =>
        (rewrite (bool_decide_eq_true_2 (a = b)) by reflexivity)
        || (rewrite (bool_decide_eq_false_2 (a = b)) by discriminate)
    end; cbn [length]; lia.
Qed.

(** X10. [getFeedbackStats] agrees with the other queries on the same log:
    [total] is the log's length; [byType] and [byAction] hold, for every type
    and action that occurs, the number of entries [getFeedbackByType] and
    [getFeedbackByAction] return, and have no key for one that does not
    occur; the counts by type add up to [total]; and the four counters are the
    numbers of entries with the flag set. *)
Theorem feedback_stats_agree_with_queries w :
  let s := DebugLog.getFeedbackStats w in
  DebugLog.st_total s = length (DebugLog.getFeedbackLog w) /\
  (forall t, default 0%nat (DebugLog.st_byType s !! typeName t)
             = length (DebugLog.getFeedbackByType t w)) /\
  (forall t, DebugLog.st_byType s !! typeName t = None <-> DebugLog.getFeedbackByType t w = []) /\
  (forall a, default 0%nat (DebugLog.st_byAction s !! a) = length (DebugLog.getFeedbackByAction a w)) /\
  (length (DebugLog.getFeedbackByType success w) + length (DebugLog.getFeedbackByType info w)
   + length (DebugLog.getFeedbackByType loading w) + length (DebugLog.getFeedbackByType warning w)
   + length (DebugLog.getFeedbackByType error w))%nat = DebugLog.st_total s /\
  DebugLog.st_focusMoved s = length (List.filter log_focusMoved (feedbackLog w)) /\
  DebugLog.st_visualShown s = length (List.filter log_visualShown (feedbackLog w)) /\
  DebugLog.st_deduped s = length (List.filter (fun x => ev_deduped (log_event x)) (feedbackLog w)) /\
  DebugLog.st_replaced s = length (List.filter (fun x => ev_replaced (log_event x)) (feedbackLog w)).
Proof.
  cbv zeta. unfold DebugLog.getFeedbackStats, DebugLog.getFeedbackByType,
    DebugLog.getFeedbackByAction, DebugLog.getFeedbackLog.
  destruct (stats_fold (feedbackLog w)
              {| DebugLog.st_total := length (feedbackLog w); DebugLog.st_byType := ∅; DebugLog.st_byAction := ∅;
                 DebugLog.st_focusMoved := 0; DebugLog.st_visualShown := 0; DebugLog.st_deduped := 0; DebugLog.st_replaced := 0 |})
    as (H1 & H2 & H3 & H4 & H5 & H6 & H7 & H8).
  cbn [DebugLog.st_total DebugLog.st_byType DebugLog.st_byAction DebugLog.st_focusMoved DebugLog.st_visualShown DebugLog.st_deduped DebugLog.st_replaced] in *.
  split; [exact H1|]. split; [intros t; rewrite H3, lookup_empty; reflexivity|].
  split; [intros t; rewrite H2, lookup_empty; tauto|].
  split; [intros a; rewrite H4, lookup_empty; reflexivity|].
  split; [rewrite H1; apply filter_by_type_total|].
  by rewrite H5, H6, H7, H8.
Qed.

(** ** The live regions *)

(** X11. [ensureRegions] does nothing and answers [false] without a
    document. With one it answers [true], and calling it again changes
    nothing. On its first run it adopts the two elements that carry the
    regions' ids when both are already in the document, adding none; when
    either is missing it appends a new polite and a new assertive region, in
    that order, even if the other id is already taken. *)
Theorem regions_are_set_up_once w :
  let p := cfg_regionPrefix (config w) +:+ "-" +:+ politenessName polite in
  let a := cfg_regionPrefix (config w) +:+ "-" +:+ politenessName assertive in
  let w' := snd (Regions.ensureRegions w) in
  (dom_available (dom w) = false -> Regions.ensureRegions w = (false, w)) /\
  (dom_available (dom w) = true ->
     fst (Regions.ensureRegions w) = true /\
     Regions.ensureRegions w' = (true, w') /\
     (isInitialized (regions w) = false ->
        match Regions.getElementById p (dom w), Regions.getElementById a (dom w) with
        | Some i, Some j =>
            dom w' = dom w /\
            politeRegion (regions w') = Some i /\ assertiveRegion (regions w') = Some j
        | _, _ =>
            dom_body (dom w')
            = dom_body (dom w) ++ [Regions.createRegion polite p; Regions.createRegion assertive a] /\
            politeRegion (regions w') = Some (length (dom_body (dom w))) /\
            assertiveRegion (regions w') = Some (S (length (dom_body (dom w))))
        end)).
Proof.
  cbv zeta. split.
  - intros Hd. unfold Regions.ensureRegions. by rewrite Hd.
  - intros Hd. split; [|split].
    + unfold Regions.ensureRegions. rewrite Hd. cbn [negb]. by repeat case_match.
    + pose proof (ensureRegions_settled w) as Hs.
      pose proof (settled_ensureRegions _ Hs) as Hid.
      assert (Hd' : dom_available (dom (snd (Regions.ensureRegions w))) = true).
      { destruct (ensured_dom w) as (He & _). unfold ensured in He. by rewrite He. }
      destruct Hs as [Hs|(Hi & Hp & Ha)]; [congruence|].
      unfold Regions.ensureRegions at 1. rewrite Hd', Hi.
      by rewrite !bool_decide_eq_true_2.
    + intros Hi. unfold Regions.ensureRegions. rewrite Hd, Hi. cbn [negb andb].
      destruct (Regions.getElementById _ _) as [i|];
        [destruct (Regions.getElementById _ _) as [j|]|];
        unfold Regions.appendChild; wsimpl; cbn [dom_body politeRegion assertiveRegion];
        rewrite <- ?app_assoc, ?length_app; cbn [length app];
        repeat split; f_equal; lia.
Qed.

Lemma writeText_body h ch t w :
  dom_body (dom (Regions.writeText h ch t w)) = alter (setTextContent t) h (dom_body (dom w)).
Proof. reflexivity. Qed.

(** X12. A write to a channel's region replaces the text of that one
    element and nothing else: its attributes ([role], [aria-live], the id)
    stay, every other element of the document is as before, none is added,
    and the page and the active element are not touched. *)
Theorem region_write_changes_one_text ch text w h :
  settled w -> regionOf ch w = Some h ->
  let w' := Regions.announceToRegion ch text w in
  dom_body (dom w') !! h
  = (fun el => {| attrs := attrs el; textContent := text |}) <$> dom_body (dom w) !! h /\
  (forall j, j <> h -> dom_body (dom w') !! j = dom_body (dom w) !! j) /\
  length (dom_body (dom w')) = length (dom_body (dom w)) /\
  dom_page (dom w') = dom_page (dom w) /\
  dom_activeElement (dom w') = dom_activeElement (dom w) /\
  regions w' = regions w.
Proof.
  intros Hs Hh. cbv zeta. unfold Regions.announceToRegion.
  rewrite (getRegion_settled ch w Hs), Hh.
  rewrite writeText_body, writeText_body.
  split; [|split; [|split]].
  - rewrite !list_lookup_alter, !decide_True by reflexivity.
    by destruct (dom_body (dom w) !! h).
  - intros j Hj. rewrite !list_lookup_alter, !decide_False by congruence. reflexivity.
  - by rewrite !length_alter.
  - by repeat split.
Qed.

Lemma region_write_changes_one_text_witness :
  regionOf polite afterSaved = Some 0%nat /\
  (textContent <$> dom_body (dom (Regions.announceToRegion polite "Done" afterSaved)) !! 0%nat)
  = Some "Done" /\
  dom_body (dom (Regions.announceToRegion polite "Done" afterSaved)) !! 1%nat
  = dom_body (dom afterSaved) !! 1%nat.
Proof.
  assert (Hs : settled afterSaved) by (right; vm_compute; by repeat split).
  assert (Hh : regionOf polite afterSaved = Some 0%nat) by (vm_compute; reflexivity).
  pose proof (region_write_changes_one_text polite "Done" afterSaved 0%nat Hs Hh) as (H0 & H1 & _).
  split; [exact Hh|]. split.
  - rewrite H0. vm_compute. reflexivity.
  - apply H1. discriminate.
Defined.

(** ** Without a document *)

Lemma handleFocus_no_document e w :
  dom_available (dom w) = false ->
  dom (snd (Focus.handleFocus e w)) = dom w /\
  moved (fst (Focus.handleFocus e w)) = false /\
  (forall f, opt_focus (ev_options e) = Some f -> f <> "" ->
     Focus.canMoveFocus (ev_type e) = true ->
     blockedReason (fst (Focus.handleFocus e w)) = Some "DOM not available").
Proof.
  intros Hd. unfold Focus.handleFocus, Focus.moveFocusToElement. rewrite Hd. cbn [negb].
  destruct (opt_focus (ev_options e)) as [f|]; [|by repeat split].
  destruct (String.eqb_spec f "") as [->|Hne]; [repeat split; try done; by intros f [= <-]|].
  destruct (Focus.canMoveFocus (ev_type e)); cbn [negb]; rewrite ?debugWarn_spec;
    repeat split; try done.
Qed.

(** X13. Without a document (server-side rendering) and with visual mode
    off, a call still runs its course as events only: the document is not
    touched and no region is created; a focus request of a type that may move
    focus is answered ["DOM not available"]; and when the announcement's
    timer fires nothing is written, the announcer's state is updated, and the
    promise resolves with the event. *)
Theorem without_document_only_events w :
  dom_available (dom w) = false ->
  politeRegion (regions w) = None -> assertiveRegion (regions w) = None ->
  (forall msg ty opts rnd p w',
     Notify.notify msg ty opts rnd w = Ok (p, w') ->
     dom w' = dom w /\ regions w' = regions w) /\
  (forall e f, opt_focus (ev_options e) = Some f -> f <> "" ->
     Focus.canMoveFocus (ev_type e) = true ->
     fst (Focus.handleFocus e w)
     = {| moved := false; target := Some f; elementName := None;
          blockedReason := Some "DOM not available" |}) /\
  (forall fuel ch text k,
     cfg_visual (config w) = false ->
     exists w',
       Loop.runTask fuel (TClearDelay ch text k) w = Ok w' /\
       dom w' = dom w /\ regions w' = regions w /\
       domLog (trace w') = domLog (trace w) /\
       returned (trace w') = returned (trace w) ++ [p_event k] /\
       Announcer.lastMessage (ev_ariaLive (p_spoken k)) (announcer w')
       = Some (ev_message (p_spoken k))).
Proof.
  intros Hd Hp Ha.
  assert (Hs : settled w) by (by left).
  assert (He : ensured w = w) by (by apply settled_ensureRegions).
  split; [|split].
  - intros msg ty opts rnd p w' Hn. destruct p as [d|o].
    + unfold Notify.notify in Hn. rewrite processFeedback_ensured, He in Hn.
      set (e := Notify.createFeedbackEvent msg ty opts (now w) rnd) in *.
      destruct (Dedupe.checkDeduplication e w) as [r w1] eqn:Hc.
      pose proof (checkDeduplication_keeps e w) as Hk. rewrite Hc in Hk. cbn [snd] in Hk.
      destruct Hk as (_ & _ & Hd1 & Hr1 & _).
      destruct (Dedupe.shouldSkip r) eqn:Hsk.
      * rewrite (processFeedback_skips e w r w1 Hs Hc Hsk) in Hn.
        injection Hn as _ <-. by wsimpl.
      * by rewrite (processFeedback_proceeds e w r w1 Hs Hc Hsk) in Hn.
    + apply notify_awaits in Hn. cbv zeta in Hn. destruct Hn as [_ ->].
      rewrite He.
      set (e := Notify.createFeedbackEvent msg ty opts (now w) rnd) in *.
      pose proof (checkDeduplication_keeps e w) as Hk. cbv zeta in Hk.
      destruct Hk as (_ & _ & Hd1 & Hr1 & _ & _ & _ & _ & _ & _ & Htr1).
      set (w1 := snd (Dedupe.checkDeduplication e w)) in *.
      set (W3 := set_dedupe _ _).
      assert (Hd3 : dom_available (dom W3) = false) by (subst W3; wsimpl; by rewrite Hd1).
      destruct (handleFocus_no_document o W3 Hd3) as (Hfd & _).
      set (Wf := set_console _ _).
      assert (Hsf : settled Wf).
      { left. subst Wf. wsimpl. unfold focusDom. by rewrite Hfd. }
      rewrite announce_general. wsimpl.
      rewrite (settled_ensureRegions Wf Hsf : ensured Wf = Wf).
      subst Wf. wsimpl. unfold focusDom. rewrite Hfd. subst W3. wsimpl.
      by rewrite Hd1, Hr1.
  - intros e f Hf Hne Hcan. unfold Focus.handleFocus, Focus.moveFocusToElement.
    rewrite Hf, Hcan, Hd. apply String.eqb_neq in Hne. by rewrite Hne.
  - intros fuel ch text k Hv.
    rewrite (runTask_clearDelay fuel ch text k w Hs Hv).
    assert (Hr : regionOf ch w = None).
    { unfold regionOf, Regions.getRegion. fold (ensured w). rewrite He.
      destruct (isInitialized (regions w)), ch; assumption. }
    assert (Hat : Regions.announceToRegion ch text w = w).
    { unfold Regions.announceToRegion. rewrite (getRegion_settled ch w Hs), Hr. reflexivity. }
    eexists. split; [reflexivity|]. wsimpl. rewrite Hat.
    unfold regionWrites. rewrite Hr.
    cbn [domLog returned trace_add domDelta tailDelta emitDelta returnedDelta].
    rewrite !app_nil_r. repeat split. by destruct (ev_ariaLive (p_spoken k)).
Qed.

Lemma without_document_only_events_witness :
  let e := Notify.createFeedbackEvent "Saved" success noOptions 1000 "r1" in
  let k := pendingOf e e None noFocus serverPage in
  exists w',
    Loop.runTask 0 (TClearDelay polite "Saved" k) serverPage = Ok w' /\
    dom w' = dom serverPage /\ regions w' = regions serverPage /\
    domLog (trace w') = domLog (trace serverPage) /\
    returned (trace w') = returned (trace serverPage) ++ [p_event k] /\
    Announcer.lastMessage (ev_ariaLive (p_spoken k)) (announcer w')
    = Some (ev_message (p_spoken k)).
Proof.
  intros e k.
  refine (proj2 (proj2 (without_document_only_events serverPage _ _ _)) 0%nat polite "Saved" k _);
    reflexivity.
Defined.

(** ** Timeouts of the visual layer *)


(** ** Subscribing and unsubscribing *)

Lemma set_add_in l s :
  existsb (fun x => Nat.eqb (lid x) (lid l)) (Events.set_add l s) = true.
Proof.
  unfold Events.set_add. destruct (existsb _ s) eqn:Hin; [exact Hin|].
  rewrite existsb_app. cbn. by rewrite Nat.eqb_refl, orb_true_r.
Qed.

Lemma set_add_idem l s : Events.set_add l (Events.set_add l s) = Events.set_add l s.
Proof. unfold Events.set_add at 1. by rewrite set_add_in. Qed.

Lemma countAll_delete m e :
  EventBus.countAll m = (EventBus.countAll (delete e m) + length (default [] (m !! e)))%nat.
Proof.
  unfold EventBus.countAll. destruct (m !! e) as [s|] eqn:He; cbn [default from_option].
  - rewrite (map_fold_delete_L (fun _ n t => (t + length n)%nat) 0%nat e s m);
      [reflexivity|intros; lia|exact He].
  - rewrite delete_id by exact He. cbn. lia.
Qed.

Lemma countAll_insert m e s :
  EventBus.countAll (<[e := s]> m) = (EventBus.countAll (delete e m) + length s)%nat.
Proof.
  unfold EventBus.countAll. rewrite <- insert_delete_eq.
  rewrite (map_fold_insert_L (fun _ n t => (t + length n)%nat) 0%nat e s (delete e m));
    [reflexivity|intros; lia|apply lookup_delete_eq].
Qed.

(** X15. Subscribing a callback that is already subscribed to the event
    changes nothing, so a callback is called once per emission however often
    it was subscribed; a new callback goes last, after the earlier ones.
    [getListenerCount] grows by one exactly when the callback is new, for the
    event and in total, and [hasListeners] is [true] afterwards. *)
Theorem subscribing_twice_counts_once e l w :
  let known := existsb (fun x => Nat.eqb (lid x) (lid l)) (default [] (listeners w !! e)) in
  let w' := Events.onFeedback e l w in
  Events.onFeedback e l w' = w' /\
  default [] (listeners w' !! e)
  = (if known then default [] (listeners w !! e) else default [] (listeners w !! e) ++ [l]) /\
  (forall e', e' <> e -> listeners w' !! e' = listeners w !! e') /\
  EventBus.getListenerCount (Some e) w'
  = (EventBus.getListenerCount (Some e) w + if known then 0 else 1)%nat /\
  EventBus.getListenerCount None w'
  = (EventBus.getListenerCount None w + if known then 0 else 1)%nat /\
  Events.hasListeners e w' = true.
Proof.
  cbv zeta. unfold Events.onFeedback, EventBus.getListenerCount. wsimpl.
  rewrite !lookup_insert_eq. cbn [default from_option id].
  set (s := default [] (listeners w !! e)).
  split; [|split; [|split; [|split; [|split]]]].
  - rewrite set_add_idem, insert_insert_eq. reflexivity.
  - unfold Events.set_add. fold s. by destruct (existsb _ s).
  - intros e' Hne. by rewrite lookup_insert_ne.
  - unfold Events.set_add. destruct (existsb _ s); [lia|]. rewrite length_app. cbn. lia.
  -     rewrite countAll_insert, (countAll_delete (listeners w) e). fold s.
    unfold Events.set_add. destruct (existsb _ s); [lia|]. rewrite length_app. cbn. lia.
  - unfold Events.hasListeners. wsimpl. rewrite lookup_insert_eq. cbn [default from_option id].
    assert (Hpos : (0 < length (Events.set_add l s))%nat).
    { unfold Events.set_add. destruct (existsb _ s) eqn:Hx.
      - destruct s; [discriminate|cbn; lia].
      - rewrite length_app. cbn. lia. }
    apply Nat.ltb_lt in Hpos. by rewrite Hpos.
Qed.

Lemma offFeedback_has e w :
  Events.hasListeners e (EventBus.offFeedback None w) = false.
Proof. unfold Events.hasListeners, EventBus.offFeedback. wsimpl. by rewrite !lookup_empty. Qed.

(** X16. [offFeedback()] drops every subscriber: afterwards no event has
    listeners, the count is zero and an emission reaches nobody.
    [offFeedback(e)] drops the subscribers of [e] only: an emission of [e]
    still reaches the wildcard subscribers, in their order, and the other
    events keep theirs; [offFeedback("*")] drops the wildcard subscribers
    and leaves each event's own. *)
Theorem off_feedback_scope w :
  (forall e, Events.hasListeners e (EventBus.offFeedback None w) = false) /\
  EventBus.getListenerCount None (EventBus.offFeedback None w) = 0%nat /\
  (forall e t, exists w',
     Events.emit e t (EventBus.offFeedback None w) = Ok w' /\
     deliveries (trace w') = deliveries (trace w) /\ console w' = console w) /\
  (forall e, e <> "*" ->
     (forall t, exists w',
        Events.emit e t (EventBus.offFeedback (Some e) w) = Ok w' /\
        deliveries (trace w')
        = deliveries (trace w) ++ calls e t (default [] (listeners w !! "*"))) /\
     (forall e', e' <> e ->
        listeners (EventBus.offFeedback (Some e) w) !! e' = listeners w !! e') /\
     EventBus.getListenerCount (Some e) (EventBus.offFeedback (Some e) w) = 0%nat) /\
  (forall e t, e <> "*" -> exists w',
     Events.emit e t (EventBus.offFeedback (Some "*") w) = Ok w' /\
     deliveries (trace w')
     = deliveries (trace w) ++ calls e t (default [] (listeners w !! e))).
Proof.
  split; [intros e; apply offFeedback_has|]. split; [reflexivity|].
  split; [|split].
  - intros e t. eexists. split; [apply emit_spec|].
    unfold EventBus.offFeedback, emitErrors, emitDelta, emitCalls, subscribers. wsimpl.
    cbn [deliveries trace_add flat_map fst snd]. rewrite !lookup_empty.
    cbn. by rewrite !app_nil_r.
  - intros e Hne. split; [|split].
    + intros t. eexists. split; [apply emit_spec|].
      unfold EventBus.offFeedback, emitDelta, emitCalls, subscribers. wsimpl.
      cbn [deliveries trace_add flat_map fst snd].
      rewrite lookup_delete_eq, lookup_delete_ne by exact Hne.
      cbn [default from_option id app]. by rewrite app_nil_r.
    + intros e' Hne'. unfold EventBus.offFeedback. wsimpl. by rewrite lookup_delete_ne.
    + unfold EventBus.getListenerCount, EventBus.offFeedback. wsimpl.
      by rewrite lookup_delete_eq.
  - intros e t Hne. eexists. split; [apply emit_spec|].
    unfold EventBus.offFeedback, emitDelta, emitCalls, subscribers. wsimpl.
    cbn [deliveries trace_add flat_map fst snd].
    rewrite lookup_delete_eq, lookup_delete_ne by congruence.
    cbn [default from_option id app]. unfold calls. by rewrite !app_nil_r.
Qed.

(** ** Dismissing every toast *)

Lemma items_set_keys e v k :
  Visual.items_get e k <> None -> map fst (Visual.items_set e v k) = map fst k.
Proof.
  unfold Visual.items_get. induction k as [|[i x] k IH]; cbn; [done|].
  destruct (String.eqb_spec i e) as [->|Hne]; cbn; [done|].
  intros H. by rewrite IH.
Qed.

Lemma items_get_set e v k j :
  Visual.items_get e k <> None ->
  Visual.items_get j (Visual.items_set e v k)
  = if String.eqb j e then Some v else Visual.items_get j k.
Proof.
  unfold Visual.items_get. induction k as [|[i x] k IH]; cbn; [done|].
  destruct (String.eqb_spec i e) as [->|Hne]; cbn.
  - intros _. destruct (String.eqb_spec e j) as [->|Hj].
    + by rewrite String.eqb_refl.
    + destruct (String.eqb_spec j e); [congruence|reflexivity].
  - intros H. destruct (String.eqb_spec i j) as [->|Hj].
    + destruct (String.eqb_spec j e); [congruence|reflexivity].
    + by apply IH.
Qed.

(** One [dismissVisualFeedback] of an id that has a toast. *)
Lemma dismiss_one id it w :
  Visual.items_get id (activeItems (visual w)) = Some it ->
  let w' := Visual.dismissVisualFeedback id w in
  map fst (activeItems (visual w')) = map fst (activeItems (visual w)) /\
  (forall j, Visual.items_get j (activeItems (visual w'))
             = if String.eqb j id
               then Some {| vi_type := vi_type it; vi_message := vi_message it;
                            vi_className := vi_className it; vi_exiting := true |}
               else Visual.items_get j (activeItems (visual w))) /\
  dismissTimers (visual w') = delete id (dismissTimers (visual w)) /\
  timers w'
  = cancel (dismissTimers (visual w) !! id) (timers w)
    ++ [{| tm_id := nextTimerId w;
           tm_due := now w + (if Visual.prefersReducedMotion w then 0 else 200);
           tm_task := TRemoveVisual id |}] /\
  nextTimerId w' = S (nextTimerId w) /\
  now w' = now w /\ dom w' = dom w /\ dedupe w' = dedupe w /\ config w' = config w.
Proof.
  intros Hit. cbv zeta. unfold Visual.dismissVisualFeedback. rewrite Hit.
  assert (Hne : Visual.items_get id (activeItems (visual w)) <> None) by congruence.
  destruct (dismissTimers (visual w) !! id) as [n|] eqn:Hn;
    unfold setTimeout, clearTimeout, Visual.set_items, Visual.set_dismissTimers,
      Visual.prefersReducedMotion, cancel; wsimpl; cbn [activeItems dismissTimers].
  - split; [by apply items_set_keys|]. split; [intros j; by apply items_get_set|].
    split; [reflexivity|]. split; [|by repeat split].
    by destruct (if dom_available (dom w) then _ else _).
  - split; [by apply items_set_keys|]. split; [intros j; by apply items_get_set|].
    split; [by rewrite delete_id|]. split; [|by repeat split].
    by destruct (if dom_available (dom w) then _ else _).
Qed.

Lemma cancel_keeps r l tm :
  tm ∈ l -> (forall n, r = Some n -> tm_id tm <> n) -> tm ∈ cancel r l.
Proof.
  intros Hin Hne. destruct r as [n|]; cbn; [|exact Hin].
  apply list_elem_of_In, filter_In. split; [by apply list_elem_of_In|].
  specialize (Hne n eq_refl). by destruct (Nat.eqb_spec (tm_id tm) n).
Qed.

Lemma dismiss_all_fold l : forall w,
  (forall id, id ∈ l -> Visual.items_get id (activeItems (visual w)) <> None) ->
  handles_issued w ->
  let w' := foldl (fun w id => Visual.dismissVisualFeedback id w) w l in
  map fst (activeItems (visual w')) = map fst (activeItems (visual w)) /\
  (forall j, j ∉ l ->
     Visual.items_get j (activeItems (visual w')) = Visual.items_get j (activeItems (visual w))) /\
  (forall j it, j ∈ l -> Visual.items_get j (activeItems (visual w')) = Some it ->
     vi_exiting it = true) /\
  (forall j, j ∈ l -> dismissTimers (visual w') !! j = None) /\
  (forall j, j ∈ l -> exists tm, tm ∈ timers w' /\ tm_task tm = TRemoveVisual j /\
                                 tm_due tm = now w + (if Visual.prefersReducedMotion w then 0 else 200)) /\
  (forall tm, tm ∈ timers w ->
     (forall j n, dismissTimers (visual w) !! j = Some n -> tm_id tm <> n) -> tm ∈ timers w') /\
  (forall j n, dismissTimers (visual w') !! j = Some n -> dismissTimers (visual w) !! j = Some n) /\
  (nextTimerId w <= nextTimerId w')%nat /\
  now w' = now w /\ dom w' = dom w /\ dedupe w' = dedupe w /\ config w' = config w.
Proof.
  induction l as [|id l IH]; intros w Hall Hh; cbn [foldl].
  - cbv zeta. repeat split; try done; try (intros j Hj; by apply elem_of_nil in Hj).
    intros j it Hj. by apply elem_of_nil in Hj.
  - destruct (Visual.items_get id (activeItems (visual w))) as [it|] eqn:Hit;
      [|exfalso; apply (Hall id); [left|exact Hit]].
    destruct (dismiss_one id it w Hit) as (Hk1 & Hg1 & Hd1 & Ht1 & Hn1 & Hnow1 & Hdom1 & Hdd1 & Hc1).
    set (w1 := Visual.dismissVisualFeedback id w) in *.
    assert (Hall1 : forall j, j ∈ l -> Visual.items_get j (activeItems (visual w1)) <> None).
    { intros j Hj. rewrite Hg1. destruct (String.eqb j id); [discriminate|].
      apply Hall. by right. }
    assert (Hh1 : handles_issued w1).
    { intros j n. rewrite Hd1, Hn1. intros [_ H]%lookup_delete_Some. apply Hh in H. lia. }
    destruct (IH w1 Hall1 Hh1) as (Hk & Hg & Hex & Hd & Htm & Hkeep & Hsub & Hn & Hnow & Hdom & Hdd & Hc).
    cbv zeta. set (w' := foldl _ w1 l) in *.
    assert (Hprm : Visual.prefersReducedMotion w1 = Visual.prefersReducedMotion w).
    { unfold Visual.prefersReducedMotion. by rewrite Hdom1. }
    split; [by rewrite Hk|]. split; [|split; [|split; [|split; [|split; [|split; [|split]]]]]].
    + intros j Hj. apply not_elem_of_cons in Hj as [Hne Hj]. rewrite (Hg j Hj), Hg1.
      by destruct (String.eqb_spec j id).
    + intros j it' Hj Hget. destruct (decide (j ∈ l)) as [Hin|Hnin].
      * by apply (Hex j it' Hin).
      * apply elem_of_cons in Hj as [->|Hj]; [|contradiction].
        rewrite (Hg id Hnin), Hg1, String.eqb_refl in Hget. by injection Hget as <-.
    + intros j Hj. destruct (decide (j ∈ l)) as [Hin|Hnin]; [by apply Hd|].
      apply elem_of_cons in Hj as [->|Hj]; [|contradiction].
      destruct (dismissTimers (visual w') !! id) as [n|] eqn:Hx; [|reflexivity].
      apply Hsub in Hx. rewrite Hd1, lookup_delete_eq in Hx. discriminate.
    + intros j Hj. destruct (decide (j ∈ l)) as [Hin|Hnin].
      * destruct (Htm j Hin) as (tm & H1 & H2 & H3). exists tm.
        split; [exact H1|]. split; [exact H2|]. by rewrite H3, Hnow1, Hprm.
      * apply elem_of_cons in Hj as [->|Hj]; [|contradiction].
        exists {| tm_id := nextTimerId w;
                  tm_due := now w + (if Visual.prefersReducedMotion w then 0 else 200);
                  tm_task := TRemoveVisual id |}.
        split; [apply Hkeep|split; [reflexivity|reflexivity]].
        -- rewrite Ht1. apply elem_of_app. right. apply list_elem_of_singleton. reflexivity.
        -- intros j n Hjn. cbn [tm_id]. rewrite Hd1 in Hjn.
           apply lookup_delete_Some in Hjn as [_ Hjn]. apply Hh in Hjn. lia.
    + intros tm Hin Hne. apply Hkeep.
      * rewrite Ht1. apply elem_of_app. left. apply cancel_keeps; [exact Hin|].
        intros n Hn0. by apply (Hne id).
      * intros j n. rewrite Hd1. intros [_ H]%lookup_delete_Some. by apply (Hne j).
    + intros j n Hjn. apply Hsub in Hjn. rewrite Hd1 in Hjn.
      by apply lookup_delete_Some in Hjn as [_ ?].
    + lia.
    + by rewrite Hnow, Hdom, Hdd, Hc.
Qed.

(** X17. [dismissAllVisualFeedback] starts the exit of every toast and
    removes none: the toasts keep their order and [getActiveVisualCount] its
    value until the removal timers fire. Afterwards every toast is marked as
    exiting, no toast has a dismissal timer left, each toast has a removal
    timer due after the exit animation (at once with reduced motion), every
    timer that is not a toast's dismissal timer is still pending, and the
    active events are as before. *)
Theorem dismiss_all_starts_every_exit w :
  handles_issued w ->
  let w' := VisualApi.dismissAllVisualFeedback w in
  map fst (activeItems (visual w')) = map fst (activeItems (visual w)) /\
  VisualApi.getActiveVisualCount w' = VisualApi.getActiveVisualCount w /\
  (forall j it, Visual.items_get j (activeItems (visual w')) = Some it -> vi_exiting it = true) /\
  (forall j, Visual.items_get j (activeItems (visual w)) <> None ->
     dismissTimers (visual w') !! j = None /\
     exists tm, tm ∈ timers w' /\ tm_task tm = TRemoveVisual j /\
                tm_due tm = now w + (if Visual.prefersReducedMotion w then 0 else 200)) /\
  (forall tm, tm ∈ timers w ->
     (forall j n, dismissTimers (visual w) !! j = Some n -> tm_id tm <> n) -> tm ∈ timers w') /\
  dedupe w' = dedupe w.
Proof.
  intros Hh. cbv zeta. unfold VisualApi.dismissAllVisualFeedback, VisualApi.getActiveVisualCount.
  assert (Hkeys : forall id, Visual.items_get id (activeItems (visual w)) <> None <->
                             id ∈ map fst (activeItems (visual w))).
  { intros id. unfold Visual.items_get. induction (activeItems (visual w)) as [|[i x] k IH]; cbn.
    - split; [done|]. intros H. by apply elem_of_nil in H.
    - destruct (String.eqb_spec i id) as [->|Hne]; cbn.
      + split; [intros _; left|done].
      + rewrite IH. split; [by right|]. intros [?|?]%elem_of_cons; [congruence|done]. }
  destruct (dismiss_all_fold (map fst (activeItems (visual w))) w) as
    (Hk & Hg & Hex & Hd & Htm & Hkeep & _ & _ & _ & _ & Hdd & _);
    [intros id; apply Hkeys|exact Hh|].
  set (w' := foldl _ w _) in *.
  split; [exact Hk|]. split; [by rewrite <- (length_map fst), Hk, length_map|].
  split; [|split; [|split; [exact Hkeep|exact Hdd]]].
  - intros j it Hget. destruct (decide (j ∈ map fst (activeItems (visual w)))) as [Hin|Hnin].
    + by apply (Hex j it Hin).
    + rewrite (Hg j Hnin) in Hget. exfalso. apply Hnin, Hkeys. congruence.
  - intros j Hj. apply Hkeys in Hj. split; [by apply Hd|by apply Htm].
Qed.

Lemma dismiss_all_starts_every_exit_witness :
  VisualApi.getActiveVisualCount twoToasts = 2%nat /\
  VisualApi.getActiveVisualCount (VisualApi.dismissAllVisualFeedback twoToasts) = 2%nat /\
  (forall j it,
     Visual.items_get j (activeItems (visual (VisualApi.dismissAllVisualFeedback twoToasts)))
       = Some it -> vi_exiting it = true) /\
  dedupe (VisualApi.dismissAllVisualFeedback twoToasts) = dedupe twoToasts.
Proof.
  split; [vm_compute; reflexivity|].
  assert (Hh : handles_issued twoToasts).
  { change (map_Forall (fun (_ : string) n => (n < nextTimerId twoToasts)%nat)
              (dismissTimers (visual twoToasts))).
    apply map_Forall_to_list. vm_compute. repeat constructor. }
  destruct (dismiss_all_starts_every_exit twoToasts Hh) as (_ & Hc & Hex & _ & _ & Hd).
  split; [rewrite Hc; vm_compute; reflexivity|]. split; [exact Hex|exact Hd].
Defined.

(** ** Showing and updating a toast *)



Lemma scheduleAutoDismiss_items e w :
  activeItems (visual (Visual.scheduleAutoDismiss e w)) = activeItems (visual w) /\
  container (visual (Visual.scheduleAutoDismiss e w)) = container (visual w) /\
  dedupe (Visual.scheduleAutoDismiss e w) = dedupe w /\
  config (Visual.scheduleAutoDismiss e w) = config w.
Proof.
  unfold Visual.scheduleAutoDismiss. destruct (negb _); [done|].
  destruct (nullish _ _) as [o|]; [|done]. by destruct (shouldNeverAutoDismiss o).
Qed.


Lemma items_set_length_le e v k :
  (length (Visual.items_set e v k) <= S (length k))%nat.
Proof.
  induction k as [|[i x] k IH]; cbn; [lia|]. destruct (String.eqb i e); cbn; lia.
Qed.





Lemma scheduleAutoDismiss_timers e w tm :
  tm ∈ timers (Visual.scheduleAutoDismiss e w) ->
  tm ∈ timers w \/
  (tm_task tm = TAutoDismiss (ev_id e) /\ tm_id tm = nextTimerId w /\
   dismissTimers (visual (Visual.scheduleAutoDismiss e w)) !! ev_id e = Some (tm_id tm)).
Proof.
  unfold Visual.scheduleAutoDismiss. destruct (negb _); [by left|].
  destruct (nullish _ _) as [o|]; [|by left].
  destruct (shouldNeverAutoDismiss o); [by left|].
  unfold setTimeout, Visual.set_dismissTimers. wsimpl.
  intros [H|H]%elem_of_app; [by left|right].
  apply list_elem_of_singleton in H as ->. cbn [tm_task tm_id].
  split; [done|]. split; [done|]. apply lookup_insert_eq.
Qed.

(** X19. [updateVisualFeedback] for an id that has a toast changes that
    toast where it is: it now shows the new event's type and message, keeps
    the old toast's class name and its exiting state, and the other toasts,
    their order and their number are as before. The toast's old dismissal
    timer is cancelled: every timer left is an earlier one other than it, or
    the new dismissal timer of this id. *)
Theorem update_visual_in_place fuel e w old :
  Visual.items_get (ev_id e) (activeItems (visual w)) = Some old ->
  exists w',
    Visual.updateVisualFeedback fuel e w = Ok w' /\
    map fst (activeItems (visual w')) = map fst (activeItems (visual w)) /\
    (forall j, Visual.items_get j (activeItems (visual w'))
               = if String.eqb j (ev_id e)
                 then Some {| vi_type := ev_type e; vi_message := ev_message e;
                              vi_className := vi_className old;
                              vi_exiting := vi_exiting old |}
                 else Visual.items_get j (activeItems (visual w))) /\
    (forall tm, tm ∈ timers w' ->
       (tm ∈ timers w /\ dismissTimers (visual w) !! ev_id e <> Some (tm_id tm)) \/
       (tm_task tm = TAutoDismiss (ev_id e) /\ tm_id tm = nextTimerId w /\
        dismissTimers (visual w') !! ev_id e = Some (tm_id tm))) /\
    dedupe w' = dedupe w.
Proof.
  intros Hold. unfold Visual.updateVisualFeedback. rewrite Hold.
  eexists. split; [reflexivity|].
  set (w1 := Visual.set_items _ w).
  set (w2 := match dismissTimers (visual w1) !! ev_id e with Some r => _ | None => w1 end).
  assert (Hne : Visual.items_get (ev_id e) (activeItems (visual w)) <> None) by congruence.
  assert (Hi2 : activeItems (visual w2)
                = Visual.items_set (ev_id e)
                    {| vi_type := ev_type e; vi_message := ev_message e;
                       vi_className := vi_className old; vi_exiting := vi_exiting old |}
                    (activeItems (visual w))).
  { subst w2 w1. by destruct (dismissTimers _ !! ev_id e). }
  assert (Hd2 : dedupe w2 = dedupe w).
  { subst w2 w1. by destruct (dismissTimers _ !! ev_id e). }
  assert (Hn2 : nextTimerId w2 = nextTimerId w).
  { subst w2 w1. by destruct (dismissTimers _ !! ev_id e). }
  assert (Ht2 : forall tm, tm ∈ timers w2 ->
            tm ∈ timers w /\ dismissTimers (visual w) !! ev_id e <> Some (tm_id tm)).
  { subst w2 w1. unfold Visual.set_items. wsimpl. cbn [dismissTimers].
    destruct (dismissTimers (visual w) !! ev_id e) as [r|] eqn:Hr.
    - unfold clearTimeout, Visual.set_dismissTimers. wsimpl. intros tm H.
      apply list_elem_of_In, filter_In in H as [H Hx]. split; [by apply list_elem_of_In|].
      intros [= ->]. by rewrite Nat.eqb_refl in Hx.
    - intros tm H. by split. }
  destruct (scheduleAutoDismiss_items e w2) as (-> & _ & -> & _). rewrite Hi2, Hd2.
  split; [by apply items_set_keys|]. split; [intros j; by apply items_get_set|].
  split; [|reflexivity].
  intros tm [H|(H1 & H2 & H3)]%scheduleAutoDismiss_timers; [left; by apply Ht2|right].
  rewrite Hn2 in H2. by split.
Qed.

Lemma update_visual_in_place_witness :
  let e := Notify.createFeedbackEvent "Stored" info
             {| opt_id := Some "a11y-rs-r1"; opt_focus := None; opt_explainFocus := None;
                opt_force := None; opt_timeout := None; opt_className := Some "big" |}
             1500 "r9" in
  exists w',
    Visual.updateVisualFeedback 0 e twoToasts = Ok w' /\
    map fst (activeItems (visual w')) = ["a11y-rs-r1"; "a11y-1jk-r2"] /\
    Visual.items_get "a11y-rs-r1" (activeItems (visual w'))
    = Some {| vi_type := info; vi_message := "Stored"; vi_className := None;
              vi_exiting := false |}.
Proof.
  intros e.
  destruct (update_visual_in_place 0 e twoToasts
              {| vi_type := success; vi_message := "Saved"; vi_className := None;
                 vi_exiting := false |}) as (w' & Hs & Hk & Hg & _).
  - vm_compute. reflexivity.
  - exists w'. split; [exact Hs|]. split; [rewrite Hk; vm_compute; reflexivity|].
    rewrite Hg. vm_compute. reflexivity.
Defined.

(** ** The number of toasts *)

Lemma items_delete_length_le e k :
  (length (Visual.items_delete e k) <= length k)%nat.
Proof.
  unfold Visual.items_delete. induction k as [|[i x] k IH]; cbn; [lia|].
  destruct (negb _); cbn; lia.
Qed.

Lemma showVisualFeedback_count fuel e w w' :
  Visual.showVisualFeedback fuel e w = Ok w' ->
  config w' = config w /\
  Z.of_nat (length (activeItems (visual w')))
  <= Z.max (Z.of_nat (length (activeItems (visual w)))) (cfg_maxVisualItems (config w)) /\
  (cfg_visual (config w) = false -> activeItems (visual w') = activeItems (visual w)).
Proof.
  unfold Visual.showVisualFeedback.
  destruct (initVisual_keeps w) as (Hc & _ & Hi).
  destruct (cfg_visual (config w)) eqn:Hv; cbn [negb];
    [|intros [= <-]; split; [done|split; [lia|done]]].
  destruct (negb (container _)); [intros [= <-]; rewrite Hc, Hi; split; [done|split; [lia|done]]|].
  destruct (Z.le_gt_cases (cfg_maxVisualItems (config (Visual.initVisual w)))
              (Z.of_nat (length (activeItems (visual (Visual.initVisual w)))))) as [Hfull|Hroom].
  - by rewrite (evictWhileFull_stalls fuel _ Hfull).
  - rewrite (evictWhileFull_room fuel _ Hroom). cbn [mbind Res_bind].
    destruct (Visual.classNameThrows e); [discriminate|]. intros [= <-].
    match goal with |- context [Visual.scheduleAutoDismiss e ?x] =>
      destruct (scheduleAutoDismiss_items e x) as (-> & _ & _ & ->) end.
    unfold Visual.set_items. wsimpl. cbn [activeItems]. rewrite Hc, Hi in *.
    split; [done|]. split; [|done].
    pose proof (items_set_length_le (ev_id e)
                  {| vi_type := ev_type e; vi_message := ev_message e;
                     vi_className := opt_className (ev_options e); vi_exiting := false |}
                  (activeItems (visual w))). lia.
Qed.

Lemma updateVisualFeedback_count fuel e w w' :
  Visual.updateVisualFeedback fuel e w = Ok w' ->
  config w' = config w /\
  Z.of_nat (length (activeItems (visual w')))
  <= Z.max (Z.of_nat (length (activeItems (visual w)))) (cfg_maxVisualItems (config w)).
Proof.
  unfold Visual.updateVisualFeedback.
  destruct (Visual.items_get _ _) as [old|] eqn:Hold.
  - intros [= <-].
    match goal with |- context [Visual.scheduleAutoDismiss e ?x] =>
      destruct (scheduleAutoDismiss_items e x) as (-> & _ & _ & ->) end.
    destruct (dismissTimers _ !! ev_id e);
      unfold Visual.set_items, Visual.set_dismissTimers, clearTimeout; wsimpl;
      cbn [activeItems]; rewrite (items_set_length _ _ _ old Hold); (split; [done|lia]).
  - intros H. apply showVisualFeedback_count in H as (? & ? & _). by split.
Qed.

Lemma processTail_count fuel k w w' :
  Notify.processTail fuel k w = Ok w' ->
  config w' = config w /\
  Z.of_nat (length (activeItems (visual w')))
  <= Z.max (Z.of_nat (length (activeItems (visual w)))) (cfg_maxVisualItems (config w)) /\
  (cfg_visual (config w) = false -> activeItems (visual w') = activeItems (visual w)).
Proof.
  destruct (initVisual_keeps w) as (Hc & _ & Hi).
  destruct (cfg_visual (config w)) eqn:Hv.
  - unfold Notify.processTail. rewrite Hv.
    destruct (if bool_decide (p_replacedEvent k <> None)
              then Visual.updateVisualFeedback _ _ _ else _) as [wv|c0 w0|] eqn:Hvis;
      cbn [mbind Res_bind]; try discriminate.
    intros H.
    assert (Hb : config wv = config w /\
                 Z.of_nat (length (activeItems (visual wv)))
                 <= Z.max (Z.of_nat (length (activeItems (visual w))))
                          (cfg_maxVisualItems (config w))).
    { rewrite <- Hc, <- Hi.
      destruct (bool_decide _);
        [apply updateVisualFeedback_count in Hvis as (? & ?)
        |apply showVisualFeedback_count in Hvis as (? & ? & _)]; by split. }
    destruct (true && Events.hasListeners "visualShown" wv && negb (dom_available (dom wv)))
      eqn:Hdoc.
    + destruct (processTail_after_visual_throws k true wv Hdoc) as (W & Hs & _).
      cbv zeta in Hs. rewrite Hs in H. discriminate.
    + pose proof (processTail_after_visual k true wv Hdoc) as Hs. cbv zeta in Hs.
      rewrite Hs in H. injection H as <-. wsimpl. destruct Hb. by split.
  - intros H. rewrite (processTail_novisual fuel k w Hv) in H. injection H as <-. wsimpl.
    split; [done|split; [lia|done]].
Qed.

Lemma runTask_count fuel task w w' :
  Loop.runTask fuel task w = Ok w' ->
  config w' = config w /\
  Z.of_nat (length (activeItems (visual w')))
  <= Z.max (Z.of_nat (length (activeItems (visual w)))) (cfg_maxVisualItems (config w)) /\
  (cfg_visual (config w) = false ->
   (length (activeItems (visual w')) <= length (activeItems (visual w)))%nat).
Proof.
  destruct task as [ch text k|ch text k|id|id]; cbn [Loop.runTask]; intros Hr.
  - injection Hr as <-. rewrite debounceFired_frame. wsimpl. split; [done|split; [lia|done]].
  - apply processTail_count in Hr as (Hc & Hn & Hoff). revert Hc Hn Hoff.
    rewrite announceDone_frame. wsimpl. rewrite announceToRegion_general. wsimpl.
    intros -> Hn Hoff. split; [done|]. split; [exact Hn|]. intros Hv. by rewrite Hoff.
  - injection Hr as <-. destruct (dismissVisualFeedback_keeps_size id w) as [-> ->].
    split; [done|split; [lia|done]].
  - injection Hr as <-. unfold Visual.removeFired. rewrite unregisterEvent_frame.
    unfold Visual.set_items. wsimpl. cbn [activeItems].
    pose proof (items_delete_length_le id (activeItems (visual w))).
    split; [done|split; [lia|done]].
Qed.

Lemma step_count fuel s w w' :
  Loop.step fuel s w = Some (Ok w') ->
  config w' = config w /\
  Z.of_nat (length (activeItems (visual w')))
  <= Z.max (Z.of_nat (length (activeItems (visual w)))) (cfg_maxVisualItems (config w)) /\
  (cfg_visual (config w) = false ->
   (length (activeItems (visual w')) <= length (activeItems (visual w)))%nat).
Proof.
  destruct s as [t msg ty opts rnd| |t id]; cbn [Loop.step].
  - destruct (t <? now w); [discriminate|]. unfold Notify.notify.
    destruct (Notify.processFeedback _ _) as [[p w'']| |] eqn:Hp; try discriminate.
    cbn. intros [= <-]. apply processFeedback_frame in Hp as (Hc & Hv & _).
    rewrite Hc, Hv. wsimpl. split; [done|split; [lia|done]].
  - destruct (Loop.earliest (timers w)) as [tm|]; [|discriminate].
    intros [= Hr]. apply runTask_count in Hr. revert Hr. unfold clearTimeout. wsimpl. done.
  - destruct (t <? now w); [discriminate|]. intros [= <-].
    destruct (dismissVisualFeedback_keeps_size id (set_now t w)) as [-> ->]. wsimpl.
    split; [done|split; [lia|done]].
Qed.

(** X20. The number of toasts stays within [maxVisualItems]: along any
    sequence of calls, timers and dismissals that runs to its end, the
    configuration is unchanged and [getActiveVisualCount] is never more than
    the larger of its value at the start and [maxVisualItems]. With visual
    mode off the count never grows. *)
Theorem toasts_stay_within_limit fuel steps w w' :
  Loop.run fuel steps w = Some (Ok w') ->
  config w' = config w /\
  Z.of_nat (VisualApi.getActiveVisualCount w')
  <= Z.max (Z.of_nat (VisualApi.getActiveVisualCount w)) (cfg_maxVisualItems (config w)) /\
  (cfg_visual (config w) = false ->
   (VisualApi.getActiveVisualCount w' <= VisualApi.getActiveVisualCount w)%nat).
Proof.
  unfold VisualApi.getActiveVisualCount.
  revert w. induction steps as [|s steps IH]; intros w; cbn [Loop.run].
  - intros [= <-]. split; [done|split; [lia|done]].
  - destruct (Loop.step fuel s w) as [[w1| |]|] eqn:Hs; try discriminate.
    intros Hr. apply step_count in Hs as (Hc1 & Hn1 & Hoff1).
    apply IH in Hr as (Hc & Hn & Hoff). rewrite Hc1 in Hc, Hn, Hoff.
    split; [exact Hc|]. split; [lia|]. intros Hv. specialize (Hoff Hv). specialize (Hoff1 Hv). lia.
Qed.

Lemma toasts_stay_within_limit_witness :
  exists w',
    Loop.run 0 [Loop.Call 1000 "Failed" error noOptions "r1"; Loop.Fire] (visualPage 1)
    = Some (Ok w') /\
    Z.of_nat (VisualApi.getActiveVisualCount w') <= 1.
Proof.
  exists oneToast. assert (Hrun : Loop.run 0 [Loop.Call 1000 "Failed" error noOptions "r1"; Loop.Fire]
                                    (visualPage 1) = Some (Ok oneToast)).
  { vm_compute. reflexivity. }
  split; [exact Hrun|].
  refine (proj1 (proj2 (toasts_stay_within_limit 0 _ (visualPage 1) oneToast Hrun))).
Defined.

(** ** Generated ids *)

Lemma digitValue_digit36 d : 0 <= d < 36 -> digitValue (digit36 d) = d.
Proof.
  intros Hd. unfold digitValue, digit36.
  destruct (Z.ltb_spec d 10).
  - rewrite N_ascii_embedding by lia. rewrite Z2N.id by lia.
    destruct (Z.ltb_spec (48 + d) 58); lia.
  - rewrite N_ascii_embedding by lia. rewrite Z2N.id by lia.
    destruct (Z.ltb_spec (87 + d) 58); lia.
Qed.

Lemma digit36_no_dash d : 0 <= d < 36 -> Ascii.eqb (digit36 d) "-" = false.
Proof.
  intros Hd. apply Ascii.eqb_neq. intros H.
  apply (f_equal digitValue) in H. rewrite digitValue_digit36 in H by exact Hd.
  vm_compute in H. lia.
Qed.

Lemma toString36_aux_value f : forall n acc,
  0 <= n < 36 ^ Z.of_nat f ->
  value36 0 (toString36_aux f n acc) = value36 n acc.
Proof.
  induction f as [|f IH]; intros n acc Hn.
  - cbn in Hn. assert (n = 0) as -> by lia. reflexivity.
  - cbn [toString36_aux].
    assert (Hm : 0 <= n mod 36 < 36) by (apply Z.mod_pos_bound; lia).
    assert (Hq : 0 <= n / 36 < 36 ^ Z.of_nat f).
    { split; [apply Z.div_pos; lia|]. apply Z.div_lt_upper_bound; [lia|].
      rewrite Nat2Z.inj_succ, Z.pow_succ_r in Hn by lia. lia. }
    destruct (Z.eqb_spec (n / 36) 0) as [H0|H0].
    + cbn [value36]. rewrite digitValue_digit36 by exact Hm. f_equal.
      pose proof (Z.div_mod n 36). lia.
    + rewrite IH by exact Hq. cbn [value36]. rewrite digitValue_digit36 by exact Hm.
      f_equal. pose proof (Z.div_mod n 36). lia.
Qed.

Lemma toString36_aux_no_dash f : forall n acc,
  0 <= n -> hasDash acc = false -> hasDash (toString36_aux f n acc) = false.
Proof.
  induction f as [|f IH]; intros n acc Hn Hacc; [exact Hacc|].
  cbn [toString36_aux].
  assert (Hm : 0 <= n mod 36 < 36) by (apply Z.mod_pos_bound; lia).
  assert (Hd : hasDash (String (digit36 (n mod 36)) acc) = false).
  { cbn [hasDash]. by rewrite digit36_no_dash, Hacc. }
  destruct (n / 36 =? 0); [exact Hd|]. apply IH; [apply Z.div_pos; lia|exact Hd].
Qed.

Lemma toString36_fuel n : 0 <= n -> n < 36 ^ Z.of_nat (S (Z.to_nat (Z.log2 n))).
Proof.
  intros Hn. rewrite Nat2Z.inj_succ, Z2Nat.id by apply Z.log2_nonneg.
  destruct (Z.eq_dec n 0) as [->|Hne]; [cbn; lia|].
  pose proof (Z.log2_spec n ltac:(lia)) as [_ Hlt].
  eapply Z.lt_le_trans; [exact Hlt|].
  apply Z.pow_le_mono_l. lia.
Qed.

Lemma value36_toString36 n : 0 <= n -> value36 0 (toString36 n) = n.
Proof.
  intros Hn. unfold toString36. rewrite toString36_aux_value; [reflexivity|].
  split; [exact Hn|by apply toString36_fuel].
Qed.

Lemma split_at_dash s1 : forall s2 r1 r2,
  hasDash s1 = false -> hasDash s2 = false ->
  s1 +:+ String "-" r1 = s2 +:+ String "-" r2 -> s1 = s2 /\ r1 = r2.
Proof.
  induction s1 as [|c s1 IH]; intros [|d s2] r1 r2 H1 H2 H; cbn in *.
  - by injection H as ->.
  - injection H as <- _. by rewrite Ascii.eqb_refl in H2.
  - injection H as -> _. by rewrite Ascii.eqb_refl in H1.
  - injection H as -> H. apply orb_false_elim in H1 as [_ H1].
    apply orb_false_elim in H2 as [_ H2].
    destruct (IH s2 r1 r2 H1 H2 H) as [-> ->]. done.
Qed.

Lemma string_app_inv_head (s a b : string) : s +:+ a = s +:+ b -> a = b.
Proof. induction s as [|c s IH]; cbn; [done|]. intros [= H]. by apply IH. Qed.

(** X21. Generated ids tell calls apart: [generateId] gives the same id
    only for the same millisecond and the same random part, and its result is
    never the empty string, so an event without an [id] option never takes
    the id of one made at another time or with another random part. *)
Theorem generated_ids_are_distinct t1 r1 t2 r2 :
  0 <= t1 -> 0 <= t2 ->
  generateId t1 r1 <> "" /\
  (generateId t1 r1 = generateId t2 r2 -> t1 = t2 /\ r1 = r2) /\
  (forall m1 ty1 o1 m2 ty2 o2,
     opt_id o1 = None -> opt_id o2 = None ->
     ev_id (Notify.createFeedbackEvent m1 ty1 o1 t1 r1)
     = ev_id (Notify.createFeedbackEvent m2 ty2 o2 t2 r2) ->
     t1 = t2 /\ r1 = r2).
Proof.
  intros H1 H2.
  assert (Hinj : generateId t1 r1 = generateId t2 r2 -> t1 = t2 /\ r1 = r2).
  { unfold generateId. intros H. apply string_app_inv_head in H.
    change ("-" +:+ r1) with (String "-" r1) in H.
    change ("-" +:+ r2) with (String "-" r2) in H.
    apply split_at_dash in H as [Ht ->].
    - split; [|done]. rewrite <- (value36_toString36 t1 H1), <- (value36_toString36 t2 H2).
      by rewrite Ht.
    - apply toString36_aux_no_dash; [exact H1|done].
    - apply toString36_aux_no_dash; [exact H2|done]. }
  split; [done|]. split; [exact Hinj|]. intros m1 ty1 o1 m2 ty2 o2 Ho1 Ho2.
  cbn [Notify.createFeedbackEvent ev_id]. rewrite Ho1, Ho2. exact Hinj.
Qed.

Lemma generated_ids_are_distinct_witness :
  generateId 1000 "abcdefg" <> "" /\
  (generateId 1000 "abcdefg" = generateId 1001 "abcdefg" -> 1000 = 1001 /\ "abcdefg" = "abcdefg").
Proof.
  split.
  - refine (proj1 (generated_ids_are_distinct 1000 "abcdefg" 1001 "abcdefg" _ _)); lia.
  - refine (proj1 (proj2 (generated_ids_are_distinct 1000 "abcdefg" 1001 "abcdefg" _ _))); lia.
Defined.

(** ** Type guards *)

Lemma guard_field ty x :
  negb (Validation.isUndefined x) && negb (String.eqb (Validation.typeof x) ty) = false ->
  x = JUndefined \/ Validation.typeof x = ty.
Proof.
  destruct x; cbn [Validation.isUndefined Validation.typeof negb andb]; auto;
    intros H; right; apply negb_false_iff in H; by apply String.eqb_eq in H.
Qed.

(** X22. [isFeedbackType] accepts exactly the five names of the feedback
    types, as strings and spelled as the keys of [FEEDBACK_SEMANTICS]; every
    other value, of whatever type, is refused. *)
Theorem type_guard_accepts_the_five_names v :
  Validation.isFeedbackType v = true <-> exists t, v = JString (typeName t).
Proof.
  split.
  - unfold Validation.isFeedbackType. destruct v as [| | | |s| |]; cbn; try discriminate.
    rewrite !orb_true_iff. rewrite !String.eqb_eq.
    intros [->|[->|[->|[->|[->|?]]]]];
      [by exists success|by exists error|by exists warning|by exists info|by exists loading
      |done].
  - intros [[] ->]; reflexivity.
Qed.

(** X23. [isFeedbackOptions] accepts the object of every typed
    [FeedbackOptions], and whatever it accepts is an object whose [id],
    [focus], [explainFocus], [force] and [timeout] read as the fields of a
    typed [FeedbackOptions] (a timeout of [NaN] or [Infinity] included). It
    looks at these five properties only: two objects that agree on them get
    the same answer, so [className] and any other property go unchecked.
    [null], and every value that is no object, are refused. *)
Theorem options_guard_matches_typed_options :
  (forall o, Validation.isFeedbackOptions (Validation.optionsObject o) = true) /\
  (forall v, Validation.isFeedbackOptions v = true ->
     exists props i f x y t,
       v = JObject props /\
       Validation.prop "id" v = Validation.optional JString i /\
       Validation.prop "focus" v = Validation.optional JString f /\
       Validation.prop "explainFocus" v = Validation.optional JBool x /\
       Validation.prop "force" v = Validation.optional JBool y /\
       Validation.prop "timeout" v = Validation.optional JNumber t) /\
  (forall p q,
     (forall k, k ∈ ["id"; "focus"; "explainFocus"; "force"; "timeout"] ->
        Validation.prop k (JObject p) = Validation.prop k (JObject q)) ->
     Validation.isFeedbackOptions (JObject p) = Validation.isFeedbackOptions (JObject q)) /\
  (forall v, (forall props, v <> JObject props) -> Validation.isFeedbackOptions v = false).
Proof.
  split; [|split; [|split]].
  - intros [[i|] [f|] [x|] [y|] [t|] [c|]]; reflexivity.
  - intros v. destruct v as [| | | | | |props]; try discriminate.
    unfold Validation.isFeedbackOptions. cbn [Validation.typeof Validation.isNull negb orb].
    change (String.eqb "object" "object") with true. cbn [negb orb].
    intros H. apply negb_true_iff in H.
    repeat (apply orb_false_elim in H as [H ?]).
    exists props.
    assert (Hs : forall x, x = JUndefined \/ Validation.typeof x = "string" ->
                 exists i, x = Validation.optional JString i).
    { intros x [->|H']; [by exists None|]. destruct x; try discriminate.
      by eexists (Some _). }
    assert (Hb : forall x, x = JUndefined \/ Validation.typeof x = "boolean" ->
                 exists i, x = Validation.optional JBool i).
    { intros x [->|H']; [by exists None|]. destruct x; try discriminate.
      by eexists (Some _). }
    assert (Hn : forall x, x = JUndefined \/ Validation.typeof x = "number" ->
                 exists i, x = Validation.optional JNumber i).
    { intros x [->|H']; [by exists None|]. destruct x; try discriminate.
      by eexists (Some _). }
    destruct (Hs _ (guard_field _ _ H)) as [i Hi].
    destruct (Hs _ (guard_field _ _ H3)) as [f Hf].
    destruct (Hb _ (guard_field _ _ H2)) as [x Hx].
    destruct (Hb _ (guard_field _ _ H1)) as [y Hy].
    destruct (Hn _ (guard_field _ _ H0)) as [t Ht].
    exists i, f, x, y, t. done.
  - intros p q H. unfold Validation.isFeedbackOptions.
    cbn [Validation.typeof Validation.isNull].
    rewrite !(H "id"), !(H "focus"), !(H "explainFocus"), !(H "force"), !(H "timeout");
      [reflexivity|set_solver..].
  - intros v Hv. destruct v; try reflexivity. by destruct (Hv props).
Qed.

(** ** A toast's removal *)

Lemma items_get_delete e k j :
  Visual.items_get j (Visual.items_delete e k)
  = if String.eqb j e then None else Visual.items_get j k.
Proof.
  unfold Visual.items_get, Visual.items_delete. induction k as [|[i x] k IH]; cbn.
  - by destruct (String.eqb j e).
  - destruct (String.eqb_spec i e) as [Hie|Hie]; cbn.
    + rewrite IH. destruct (String.eqb_spec j e) as [Hje|Hje]; [done|].
      destruct (String.eqb_spec i j); [congruence|done].
    + destruct (String.eqb_spec i j) as [Hij|Hij]; cbn.
      * destruct (String.eqb_spec j e); [congruence|done].
      * exact IH.
Qed.

Lemma items_delete_shrinks e k :
  Visual.items_get e k <> None ->
  (length (Visual.items_delete e k) < length k)%nat.
Proof.
  unfold Visual.items_get. induction k as [|[i x] k IH]; cbn; [done|].
  destruct (String.eqb_spec i e) as [->|Hne]; cbn.
  - intros _. pose proof (items_delete_length_le e k). unfold Visual.items_delete in *. lia.
  - intros H. apply IH in H. unfold Visual.items_delete in *. lia.
Qed.

(** X24. Dismissing a toast frees its id in two stages.
    [dismissVisualFeedback] leaves the toast (now exiting) and the id's
    active event in place; when the removal callback runs, the toast is
    gone, the count has dropped, the other toasts and the other active events
    are as before, and the id is no longer active, so a later call with this
    id replaces nothing. *)
Theorem dismissed_toast_frees_its_id id it w :
  Visual.items_get id (activeItems (visual w)) = Some it ->
  let w1 := Visual.dismissVisualFeedback id w in
  let w2 := Visual.removeFired id w1 in
  Dedupe.getActiveEvent id w1 = Dedupe.getActiveEvent id w /\
  VisualApi.getActiveVisualCount w1 = VisualApi.getActiveVisualCount w /\
  Visual.items_get id (activeItems (visual w2)) = None /\
  (VisualApi.getActiveVisualCount w2 < VisualApi.getActiveVisualCount w)%nat /\
  (forall j, j <> id ->
     Visual.items_get j (activeItems (visual w2)) = Visual.items_get j (activeItems (visual w)) /\
     Dedupe.getActiveEvent j w2 = Dedupe.getActiveEvent j w) /\
  Dedupe.getActiveEvent id w2 = None /\
  recentMessages (dedupe w2) = recentMessages (dedupe w) /\
  (forall e, opt_id (ev_options e) = Some id ->
     Dedupe.replacedEvent (fst (Dedupe.checkDeduplication e w2)) = None).
Proof.
  intros Hit w1 w2.
  destruct (dismiss_one id it w Hit) as (Hk & Hg & _ & _ & _ & _ & _ & Hd & _).
  fold w1 in Hk, Hg, Hd.
  assert (Hi2 : activeItems (visual w2) = Visual.items_delete id (activeItems (visual w1))).
  { subst w2. unfold Visual.removeFired. rewrite unregisterEvent_frame. by wsimpl. }
  assert (Hd2 : dedupe w2 = {| recentMessages := recentMessages (dedupe w);
                               activeEvents := delete id (activeEvents (dedupe w)) |}).
  { subst w2. unfold Visual.removeFired. rewrite unregisterEvent_frame.
    unfold Visual.set_items. wsimpl. by rewrite Hd. }
  assert (Hlen : length (activeItems (visual w1)) = length (activeItems (visual w))).
  { by rewrite <- (length_map fst), Hk, length_map. }
  assert (Hact : Dedupe.getActiveEvent id w2 = None).
  { unfold Dedupe.getActiveEvent. rewrite Hd2. cbn [activeEvents]. apply lookup_delete_eq. }
  unfold VisualApi.getActiveVisualCount, Dedupe.getActiveEvent in *.
  split; [by rewrite Hd|]. split; [exact Hlen|].
  split; [rewrite Hi2, items_get_delete; by rewrite String.eqb_refl|].
  split.
  { rewrite Hi2, <- Hlen. apply items_delete_shrinks. rewrite Hg, String.eqb_refl. done. }
  split.
  { intros j Hj. rewrite Hi2, items_get_delete, Hg, Hd2. cbn [activeEvents].
    destruct (String.eqb_spec j id); [congruence|]. split; [done|].
    by apply lookup_delete_ne. }
  split; [exact Hact|]. split; [by rewrite Hd2|].
  intros e He. unfold Dedupe.checkDeduplication. rewrite He.
  unfold Dedupe.getActiveEvent. rewrite Hact.
  destruct (negb (String.eqb id "")); by destruct (_ && _).
Qed.

Lemma dismissed_toast_frees_its_id_witness :
  Dedupe.getActiveEvent "a11y-rs-r1" (Visual.dismissVisualFeedback "a11y-rs-r1" twoToasts)
  = Dedupe.getActiveEvent "a11y-rs-r1" twoToasts /\
  VisualApi.getActiveVisualCount (Visual.dismissVisualFeedback "a11y-rs-r1" twoToasts)
  = VisualApi.getActiveVisualCount twoToasts.
Proof.
  assert (Hit : Visual.items_get "a11y-rs-r1" (activeItems (visual twoToasts))
                = Some {| vi_type := success; vi_message := "Saved"; vi_className := None;
                          vi_exiting := false |}).
  { vm_compute. reflexivity. }
  split.
  - refine (proj1 (dismissed_toast_frees_its_id _ _ twoToasts Hit)).
  - refine (proj1 (proj2 (dismissed_toast_frees_its_id _ _ twoToasts Hit))).
Defined.

(** ** A superseded announcement *)

Lemma isDuplicate_after_record o msg' ty' t w W :
  (msg', ty') <> (ev_message o, ev_type o) -> now w <= t ->
  dedupe W = recorded o w ->
  Dedupe.isDuplicate msg' ty' (set_now t W) = Dedupe.isDuplicate msg' ty' (set_now t w).
Proof.
  intros Hne Hnow HW. unfold Dedupe.isDuplicate. cbn [dedupe set_now now].
  rewrite HW. unfold recorded. cbn [recentMessages].
  assert (Hk : Dedupe.generateKey (ev_message o) (ev_type o) <> Dedupe.generateKey msg' ty').
  { intros [E1 E2]%generateKey_inj. apply Hne. by rewrite E1, E2. }
  set (m := filter _ _).
  destruct (recentMessages (dedupe w) !! Dedupe.generateKey msg' ty') as [v|] eqn:Hv.
  - destruct (decide (v < now w - DEDUPE_WINDOW_MS * 2)) as [Hold|Hyoung].
    + assert (Hm : m !! Dedupe.generateKey msg' ty' = None).
      { apply map_lookup_filter_None. right. intros x.
        rewrite lookup_insert_ne by exact Hk. rewrite Hv. intros [= <-]. cbn. tauto. }
      rewrite Hm. symmetry. apply Z.ltb_ge. unfold DEDUPE_WINDOW_MS in *. lia.
    + assert (Hm : m !! Dedupe.generateKey msg' ty' = Some v).
      { apply map_lookup_filter_Some. split; [by rewrite lookup_insert_ne|exact Hyoung]. }
      by rewrite Hm.
  - assert (Hm : m !! Dedupe.generateKey msg' ty' = None).
    { apply map_lookup_filter_None. left. by rewrite lookup_insert_ne. }
    by rewrite Hm.
Qed.

(** The write timer of a call without focus request or replacement, alone
    in the table, with the visual layer off. *)
Lemma fire_clearDelay_finishes fuel W tm ch text k :
  settled W -> cfg_visual (config W) = false -> dom_available (dom W) = true ->
  timers W = [tm] -> tm_task tm = TClearDelay ch text k ->
  p_replacedEvent k = None -> p_focus k = noFocus ->
  exists w',
    Loop.step fuel Loop.Fire W = Some (Ok w') /\
    idle w' /\ settled w' /\
    domLog (trace w')
    = domLog (trace W)
      ++ [ {| dw_channel := ch; dw_time := now w'; dw_text := "" |};
           {| dw_channel := ch; dw_time := now w'; dw_text := text |} ] /\
    emitted (trace w')
    = emitted (trace W)
      ++ (if Events.hasListeners "announced" W || Events.hasListeners "replaced" W
          then [("announced", PAnnounced (p_event k) (ev_ariaLive (p_event k)))] else []) /\
    returned (trace w') = returned (trace W) ++ [p_event k] /\
    feedbackLog w' = pushLog (tailLogEntry k false) (feedbackLog W) /\
    dedupe w' = dedupe W.
Proof.
  intros HsW HvW HavW HtW Htask Hrep Hfoc.
  rewrite (step_fire_clearDelay fuel W tm _ _ k HsW HvW) by
    (try exact Htask; rewrite HtW; reflexivity).
  cbv zeta. set (W' := clearTimeout (tm_id tm) _).
  assert (HsW' : settled W') by (eapply settled_frame; [..|exact HsW]; reflexivity).
  assert (HavW' : dom_available (dom W') = true) by exact HavW.
  assert (HtW' : timers W' = []).
  { subst W'. by apply (clearTimeout_single tm). }
  destruct (announceToRegion_dom ch text W' HsW') as (Hav2 & _).
  eexists. split; [reflexivity|].
  split.
  { unfold idle. wsimpl. split; [exact HtW'|]. split; [exact HvW|]. by rewrite Hav2. }
  split.
  { eapply settled_frame; [| |exact HsW']; wsimpl; [reflexivity|exact Hav2]. }
  wsimpl. cbn [domLog emitted returned trace_add domDelta tailDelta emitDelta returnedDelta].
  rewrite !app_nil_r. cbn [app].
  split; [|split; [|by repeat split]].
  - unfold regionWrites. pose proof (regionOf_ready ch W' HsW' HavW') as Hr.
    by destruct (regionOf ch W').
  - by rewrite (tailEmits_plain k W W (p_event k) eq_refl Hfoc Hrep eq_refl).
Qed.

Lemma lastTimestamp_set_debounceTimer ch n t g :
  Announcer.lastTimestamp ch (Announcer.set_debounceTimer n t g) = Announcer.lastTimestamp ch g.
Proof. by destruct ch, n. Qed.

Lemma debounceTimer_set ch t g :
  Announcer.debounceTimer ch (Announcer.set_debounceTimer ch t g) = t.
Proof. by destruct ch. Qed.

(** X25. A debounced announcement that is overtaken on its channel is
    lost. On an idle page whose channel was written less than
    [ANNOUNCEMENT_DEBOUNCE_MS] ago, let two calls go to that channel, the
    second before the first one's debounce timer is due, and neither skipped
    as a duplicate. The second call cancels the first one's timer, and with it
    the first call's continuation: after the two timers that are left have
    fired the page is idle again, only the second message was written, and
    only the second call has resolved, been logged and been published. The
    first call's promise never settles. *)
Theorem overtaken_call_never_resolves fuel w t1 m1 ty1 o1 r1 t2 m2 ty2 o2 r2 :
  idle w -> settled w -> now w <= t1 -> t1 <= t2 -> t2 < t1 + ANNOUNCEMENT_DEBOUNCE_MS ->
  sem_ariaLive (FEEDBACK_SEMANTICS ty1) = sem_ariaLive (FEEDBACK_SEMANTICS ty2) ->
  t2 - Announcer.lastTimestamp (sem_ariaLive (FEEDBACK_SEMANTICS ty2)) (announcer w)
    < ANNOUNCEMENT_DEBOUNCE_MS ->
  opt_id o1 = None -> opt_focus o1 = None -> opt_id o2 = None -> opt_focus o2 = None ->
  (opt_force o1 = Some true \/ Dedupe.isDuplicate m1 ty1 (set_now t1 w) = false) ->
  (opt_force o2 = Some true \/
   ((m2, ty2) <> (m1, ty1) /\ Dedupe.isDuplicate m2 ty2 (set_now t2 w) = false)) ->
  let ch := sem_ariaLive (FEEDBACK_SEMANTICS ty2) in
  let e2 := with_replaced (Notify.createFeedbackEvent m2 ty2 o2 t2 r2) false in
  exists w' text,
    Loop.run fuel [Loop.Call t1 m1 ty1 o1 r1; Loop.Call t2 m2 ty2 o2 r2; Loop.Fire; Loop.Fire] w
    = Some (Ok w') /\
    idle w' /\
    returned (trace w') = returned (trace w) ++ [e2] /\
    emitted (trace w')
    = emitted (trace w)
      ++ (if Events.hasListeners "announced" w || Events.hasListeners "replaced" w
          then [("announced", PAnnounced e2 ch)] else []) /\
    domLog (trace w')
    = domLog (trace w)
      ++ [ {| dw_channel := ch; dw_time := now w'; dw_text := "" |};
           {| dw_channel := ch; dw_time := now w'; dw_text := text |} ] /\
    (text = m2 \/ exists c, text = m2 +:+ getZeroWidthChar c) /\
    feedbackLog w'
    = pushLog {| log_event := e2; log_action := "announced"; log_region := Some ch;
                 log_focusMoved := false; log_focusTarget := None; log_focusBlocked := None;
                 log_visualShown := false |} (feedbackLog w).
Proof.
  intros (Htm & Hv & Hav) Hs Hnow H12 H21 Hch Hsoon Hid1 Hf1 Hid2 Hf2 Hd1 Hd2 ch e2.
  set (e1 := with_replaced (Notify.createFeedbackEvent m1 ty1 o1 t1 r1) false).
  assert (Hlast1 : t1 - Announcer.lastTimestamp (sem_ariaLive (FEEDBACK_SEMANTICS ty1)) (announcer w)
                   < ANNOUNCEMENT_DEBOUNCE_MS) by (rewrite Hch; lia).
  assert (Hdup1 : negb (bool_decide (opt_force o1 = Some true))
                  && Dedupe.isDuplicate m1 ty1 (set_now t1 w) = false).
  { destruct Hd1 as [->| ->]; [done|apply andb_false_r]. }
  cbn [Loop.run].
  rewrite (step_call_debounced fuel t1 m1 ty1 o1 r1 w Hs Hnow Hid1 Hf1 Hdup1 Hlast1).
  fold e1. rewrite Hch. fold ch. rewrite Htm.
  replace (cancel (Announcer.debounceTimer ch (announcer w)) [])
    with (@nil Timer) by (by destruct (Announcer.debounceTimer ch (announcer w))).
  cbn [app].
  set (tm1 := Build_Timer _ _ _).
  set (W1 := set_announcer _ _).
  assert (Hs1 : settled W1) by (eapply settled_frame; [..|exact Hs]; reflexivity).
  assert (Hdup2 : negb (bool_decide (opt_force o2 = Some true))
                  && Dedupe.isDuplicate m2 ty2 (set_now t2 W1) = false).
  { destruct Hd2 as [->|[Hne Hd2]]; [done|].
    rewrite (isDuplicate_after_record e1 m2 ty2 t2 (set_now t1 w) W1);
      [|exact Hne|exact H12|reflexivity].
    replace (set_now t2 (set_now t1 w)) with (set_now t2 w) by reflexivity.
    rewrite Hd2. apply andb_false_r. }
  assert (Hlast2 : t2 - Announcer.lastTimestamp (sem_ariaLive (FEEDBACK_SEMANTICS ty2)) (announcer W1)
                   < ANNOUNCEMENT_DEBOUNCE_MS).
  { subst W1. wsimpl. fold ch.
    by rewrite lastTimestamp_set_debounceTimer, lastTimestamp_bump. }
  rewrite (step_call_debounced fuel t2 m2 ty2 o2 r2 W1 Hs1 H12 Hid2 Hf2 Hdup2 Hlast2).
  fold e2 ch.
  set (k2 := pendingOf e2 e2 None noFocus W1).
  set (text := announceText e2 W1).
  assert (Hc2 : cancel (Announcer.debounceTimer ch (announcer W1)) (timers W1) = []).
  { subst W1. wsimpl. rewrite debounceTimer_set. cbn [cancel List.filter tm_id tm1].
    by rewrite Nat.eqb_refl. }
  rewrite Hc2. cbn [app].
  set (tm2 := Build_Timer _ _ _).
  set (W2 := set_announcer _ _).
  assert (Ht2 : timers W2 = [tm2]) by reflexivity.
  assert (Hfire1 : Loop.earliest (timers W2) = Some tm2) by (rewrite Ht2; reflexivity).
  apply (step_fire fuel) in Hfire1.
  cbn [tm_task tm2 Loop.runTask] in Hfire1. rewrite debounceFired_frame in Hfire1.
  set (tm3 := Build_Timer _ _ _) in Hfire1.
  set (W3 := set_announcer _ _) in Hfire1.
  rewrite Hfire1.
  destruct (fire_clearDelay_finishes fuel W3 tm3 ch text k2)
    as (w' & Hstep & Hidle & _ & Hdom & Hem & Hret & Hlog & _); try reflexivity.
  - eapply settled_frame; [..|exact Hs]; reflexivity.
  - exact Hv.
  - exact Hav.
  - subst W3. wsimpl. by rewrite (clearTimeout_single tm2) by exact Ht2.
  - exists w', text. rewrite Hstep. split; [reflexivity|]. split; [exact Hidle|].
    split; [exact Hret|]. split; [exact Hem|]. split; [exact Hdom|].
    split; [|exact Hlog].
    subst text. unfold announceText. destruct (announceForced e2 W1); [right; eauto|by left].
Qed.

Lemma overtaken_call_never_resolves_witness :
  exists w',
    Loop.run 0 [Loop.Call 1060 "A" info noOptions "r2"; Loop.Call 1070 "B" info noOptions "r3";
                Loop.Fire; Loop.Fire] afterSaved = Some (Ok w') /\
    returned (trace w')
    = returned (trace afterSaved)
      ++ [with_replaced (Notify.createFeedbackEvent "B" info noOptions 1070 "r3") false].
Proof.
  assert (Hidle : idle afterSaved) by (repeat split; vm_compute; reflexivity).
  assert (Hs : settled afterSaved).
  { right. repeat split; vm_compute; congruence. }
  destruct (overtaken_call_never_resolves 0 afterSaved 1060 "A" info noOptions "r2"
              1070 "B" info noOptions "r3" Hidle Hs)
    as (w' & text & Hrun & _ & Hret & _); try reflexivity.
  - vm_compute. discriminate.
  - vm_compute. discriminate.
  - right. vm_compute. reflexivity.
  - right. split; [discriminate|vm_compute; reflexivity].
  - exists w'. split; [exact Hrun|exact Hret].
Defined.
